(** * DMA test driver of the PIM-interface tutorial AFU

    A shallow embedding of [tutorial/afu_types/01_pim_ifc/dma/sw/dma.c]:
    the register access layer, the bandwidth measurement, the descriptor
    submission and the host/DDR round-trip test, together with the
    properties of the design document that concern them.

    The C code talks to an accelerator through the OPAE library.  The
    library and the hardware behind it are not part of the program: they
    appear here as a [platform], a record of transition functions over an
    arbitrary device state.  The general statements hold for every
    platform; the simulated device [Sim] only serves to run the model at
    concrete inputs.

    The first part of the file holds the definitions: the model of the
    program, the notions the statements use, and the simulated device.
    The second part holds the lemmas and theorems. *)

From Stdlib Require Import ZArith List String Bool Lia.
From Stdlib Require Import SpecFloat.
Import ListNotations.
Open Scope string_scope.
Open Scope list_scope.
Open Scope Z_scope.

(** ** Machine integers

    C integers are modelled as [Z] with the wrap-around written out. *)

Definition u32 (x : Z) : Z := x mod 2 ^ 32.
Definition u64 (x : Z) : Z := x mod 2 ^ 64.

(** ** IEEE-754 binary64

    [double] values are the [spec_float]s of the standard library with the
    binary64 parameters; the operations are the correctly rounded ones. *)

Definition double : Type := spec_float.

Module Double.

Definition prec : Z := 53.
Definition emax : Z := 1024.

(** Conversion of an integer to [double] (round to nearest even). *)
Definition of_Z (z : Z) : double := binary_normalize prec emax z 0 false.

Definition mul : double -> double -> double := SFmul prec emax.
Definition div : double -> double -> double := SFdiv prec emax.
Definition add : double -> double -> double := SFadd prec emax.
Definition ltb : double -> double -> bool := SFltb.
Definition eqb : double -> double -> bool := SFeqb.

(** A decimal literal [n / 10^k], correctly rounded. *)
Definition of_decimal (n : Z) (k : Z) : double := div (of_Z n) (of_Z (10 ^ k)).


End Double.

(** ** Host memory

    A buffer is seen through its bytes, addressed by their offset from the
    start of the buffer.  Words are stored little-endian, as on the x86-64
    hosts the OPAE library runs on. *)

Definition bytes : Type := Z -> Z.

Definition byte_of_word (v : Z) (k : Z) : Z := (v / 2 ^ (8 * k)) mod 256.

(** [((uint64_t * ) p)[i] = v] *)
Definition store64 (m : bytes) (i : Z) (v : Z) : bytes :=
  fun a => if (8 * i <=? a) && (a <? 8 * i + 8) then byte_of_word v (a - 8 * i) else m a.

(** [memset (p, c, n)] *)
Definition memset (m : bytes) (c : Z) (n : Z) : bytes :=
  fun a => if (0 <=? a) && (a <? n) then c mod 256 else m a.

(** [memcmp (a, b, n)]: the difference of the first pair of bytes that
    differ, 0 when there is none. *)
Fixpoint memcmp_from (a b : bytes) (off : Z) (n : nat) : Z :=
  match n with
  | O => 0
  | S n' => if a off =? b off then memcmp_from a b (off + 1) n' else a off - b off
  end.

Definition memcmp (a b : bytes) (n : Z) : Z := memcmp_from a b 0 (Z.to_nat n).

(** The number of offsets below [n] at which two buffers differ. *)
Fixpoint count_mismatches_from (a b : bytes) (off : Z) (n : nat) : Z :=
  match n with
  | O => 0
  | S n' => (if a off =? b off then 0 else 1) + count_mismatches_from a b (off + 1) n'
  end.

Definition count_mismatches (a b : bytes) (n : Z) : Z :=
  count_mismatches_from a b 0 (Z.to_nat n).

(** ** The OPAE interface *)

Inductive fpga_result : Type :=
| FPGA_OK
| FPGA_INVALID_PARAM
| FPGA_BUSY
| FPGA_EXCEPTION
| FPGA_NOT_FOUND
| FPGA_NO_MEMORY
| FPGA_NOT_SUPPORTED
| FPGA_NO_DRIVER
| FPGA_NO_DAEMON
| FPGA_NO_ACCESS
| FPGA_RECONF_ERROR.

Definition is_FPGA_OK (r : fpga_result) : bool :=
  match r with
  | FPGA_OK => true
  | _ => false
  end.

Definition fpga_handle : Type := Z.

(** The calls made to the library and the accesses made to the mapped
    register window, in program order. *)
Inductive call : Type :=
| CallMapMMIO (handle : fpga_handle) (mmio_num : Z)
| CallReadMMIO64 (handle : fpga_handle) (mmio_num offset : Z)
| CallWriteMMIO64 (handle : fpga_handle) (mmio_num offset value : Z)
| CallPrepareBuffer (handle : fpga_handle) (len : Z) (flags : Z)
| CallGetIOAddress (handle : fpga_handle) (wsid : Z)
| CallReleaseBuffer (handle : fpga_handle) (wsid : Z)
| LoadMMIO (idx : Z)
| StoreMMIO (idx value : Z).

Definition is_register_write (c : call) : bool :=
  match c with
  | CallWriteMMIO64 _ _ _ _ | StoreMMIO _ _ => true
  | _ => false
  end.

Definition is_register_read (c : call) : bool :=
  match c with
  | CallReadMMIO64 _ _ _ | LoadMMIO _ => true
  | _ => false
  end.

Definition is_prepare_buffer (c : call) : bool :=
  match c with
  | CallPrepareBuffer _ _ _ => true
  | _ => false
  end.

Definition is_release_buffer (c : call) : bool :=
  match c with
  | CallReleaseBuffer _ _ => true
  | _ => false
  end.

(** What the library and the device answer.  A register access is also
    the moment at which the model lets the DMA engine touch the pinned
    host buffer, so these functions take and return its contents. *)
Record platform (D : Type) : Type := {
  (** result, and whether the pointer the call stores is non-null
      (indeterminate when the call fails) *)
  opae_MapMMIO : fpga_handle -> Z -> D -> fpga_result * bool * D;
  opae_ReadMMIO64 : fpga_handle -> Z -> Z -> D -> bytes -> fpga_result * Z * D * bytes;
  opae_WriteMMIO64 : fpga_handle -> Z -> Z -> Z -> D -> bytes -> fpga_result * D * bytes;
  (** a load from, a store to the mapped register window *)
  window_load : Z -> D -> bytes -> Z * D * bytes;
  window_store : Z -> Z -> D -> bytes -> D * bytes;
  (** result, workspace id (indeterminate when the call fails), and the
      contents the fresh buffer happens to have *)
  opae_PrepareBuffer : fpga_handle -> Z -> Z -> D -> fpga_result * Z * bytes * D;
  opae_GetIOAddress : fpga_handle -> Z -> D -> fpga_result * Z * D;
  opae_ReleaseBuffer : fpga_handle -> Z -> D -> fpga_result * D
}.

Arguments opae_MapMMIO {D} _ _ _ _.
Arguments opae_ReadMMIO64 {D} _ _ _ _ _ _.
Arguments opae_WriteMMIO64 {D} _ _ _ _ _ _ _.
Arguments window_load {D} _ _ _ _.
Arguments window_store {D} _ _ _ _ _.
Arguments opae_PrepareBuffer {D} _ _ _ _ _.
Arguments opae_GetIOAddress {D} _ _ _ _.
Arguments opae_ReleaseBuffer {D} _ _ _ _.

(** ** The headers [dma.h] and [dma_util.h]

    The headers are not part of the sources at hand.  The transfer modes
    are the three the design document lists; the values of the macros and
    of the enumerators are left open. *)

(** Modelled from the spec: the enumeration [e_dma_mode] of [dma.h]
    (host to device, device to host, device to device). *)
Inductive e_dma_mode : Type :=
| host_to_ddr
| ddr_to_host
| ddr_to_ddr.

(** What [dma.c] takes from the headers.  Each macro is taken to expand
    to a constant. *)
Record dma_h : Type := {
  (** the value of each enumerator of [e_dma_mode] *)
  e_dma_mode_value : e_dma_mode -> Z;
  DMA_LINE_SIZE : Z;
  MODE_SHIFT : Z;
  DMA_HOST_MASK : Z;
  (** the two bandwidth constants, as [double]s *)
  MAX_TRPT_BYTES : double;
  MIN_TRPT_GBPS : double;
  DMA_CSR_IDX_DFH : Z;
  DMA_CSR_IDX_GUID_L : Z;
  DMA_CSR_IDX_GUID_H : Z;
  DMA_CSR_IDX_RSVD_1 : Z;
  DMA_CSR_IDX_RSVD_2 : Z;
  DMA_CSR_IDX_SRC_ADDR : Z;
  DMA_CSR_IDX_DEST_ADDR : Z;
  DMA_CSR_IDX_LENGTH : Z;
  DMA_CSR_IDX_DESCRIPTOR_CONTROL : Z;
  DMA_CSR_IDX_STATUS : Z;
  DMA_CSR_IDX_CONTROL : Z;
  DMA_CSR_IDX_WR_RE_FILL_LEVEL : Z;
  DMA_CSR_IDX_RESP_FILL_LEVEL : Z;
  DMA_CSR_IDX_WR_RE_SEQ_NUM : Z;
  DMA_CSR_IDX_CONFIG_1 : Z;
  DMA_CSR_IDX_CONFIG_2 : Z;
  DMA_CSR_IDX_TYPE_VERSION : Z;
  DMA_CSR_IDX_RD_SRC_PERF_CNTR : Z;
  DMA_CSR_IDX_WR_DEST_PERF_CNTR : Z
}.

(** Modelled from the spec: the descriptor [dma_descriptor_t] of [dma.h],
    two 64-bit addresses followed by a 32-bit length and a 32-bit control
    word (the widths [send_descriptor] prints them with). *)
Record dma_descriptor_t : Type := {
  src_address : Z;
  dest_address : Z;
  len : Z;
  control : Z
}.

(** ** Program state

    The file-scope variables of [dma.c], the pinned host buffer, the state
    of the device, and what the program did that can be seen from outside:
    the calls it made and the lines it printed (each line is recorded by
    its format string). *)

Record world (D : Type) : Type := mkWorld {
  s_accel_handle : fpga_handle;
  s_is_ase_sim : bool;
  s_mmio_buf : bool;          (* [false] is the null pointer *)
  s_error_count : Z;
  dma_buf : bytes;
  device : D;
  calls : list call;
  console : list string
}.

Arguments mkWorld {D} _ _ _ _ _ _ _ _.
Arguments s_accel_handle {D} _.
Arguments s_is_ase_sim {D} _.
Arguments s_mmio_buf {D} _.
Arguments s_error_count {D} _.
Arguments dma_buf {D} _.
Arguments device {D} _.
Arguments calls {D} _.
Arguments console {D} _.

(** How a piece of C code can end.  [R] is the return type of the
    enclosing function, [A] the type of what a statement hands on. *)
Inductive outcome (D R A : Type) : Type :=
| Next (a : A) (w : world D)              (* control goes on *)
| Return (r : R) (w : world D)            (* a [return r;] was executed *)
| AssertFail (e : string) (w : world D)   (* [assert (e)] aborted the process *)
| Undefined (e : string) (w : world D)    (* an access outside an object *)
| StillBusy (w : world D).                (* the polling budget ran out *)

Arguments Next {D R A} _ _.
Arguments Return {D R A} _ _.
Arguments AssertFail {D R A} _ _.
Arguments Undefined {D R A} _ _.
Arguments StillBusy {D R A} _.

Definition final_world {D R A} (o : outcome D R A) : world D :=
  match o with
  | Next _ w | Return _ w | AssertFail _ w | Undefined _ w | StillBusy w => w
  end.

Definition M (D R A : Type) : Type := world D -> outcome D R A.

Definition ret {D R A} (a : A) : M D R A := fun w => Next a w.

Definition return_ {D R A} (r : R) : M D R A := fun w => Return r w.

Definition bind {D R A B} (m : M D R A) (k : A -> M D R B) : M D R B :=
  fun w =>
    match m w with
    | Next a w' => k a w'
    | Return r w' => Return r w'
    | AssertFail e w' => AssertFail e w'
    | Undefined e w' => Undefined e w'
    | StillBusy w' => StillBusy w'
    end.

(** A function call: the callee's [return] ends the callee only. *)
Definition call_ {D R R' : Type} (body : M D R R) : M D R' R :=
  fun w =>
    match body w with
    | Next r w' | Return r w' => Next r w'
    | AssertFail e w' => AssertFail e w'
    | Undefined e w' => Undefined e w'
    | StillBusy w' => StillBusy w'
    end.

Declare Scope c_scope.
Delimit Scope c_scope with c.
Notation "x <- m ;; k" := (bind m (fun x => k))
  (at level 61, m at next level, right associativity) : c_scope.
Notation "' pat <- m ;; k" := (bind m (fun x => match x with pat => k end))
  (at level 61, pat pattern, m at next level, right associativity) : c_scope.
Notation "m ;; k" := (bind m (fun _ => k))
  (at level 61, right associativity) : c_scope.
Open Scope c_scope.

Definition assert_ {D R} (c : bool) (e : string) : M D R unit :=
  fun w => if c then Next tt w else AssertFail e w.

Definition when_ {D R} (c : bool) (m : M D R unit) : M D R unit :=
  if c then m else ret tt.

(** [for (int i = 0; i < n; i++) body] *)
Fixpoint for_from {D R} (i : Z) (count : nat) (body : Z -> M D R unit) : M D R unit :=
  match count with
  | O => ret tt
  | S count' => body i ;; for_from (i + 1) count' body
  end.

Definition for_ {D R} (n : Z) (body : Z -> M D R unit) : M D R unit :=
  for_from 0 (Z.to_nat n) body.

(** ** The program *)

Definition s32 (x : Z) : Z := (x + 2 ^ 31) mod 2 ^ 32 - 2 ^ 31.
Definition INT_MAX : Z := 2 ^ 31 - 1.

Definition DMA_BUFFER_SIZE : Z := 1024 * 1024.
Definition TEST_BUFFER_SIZE_ASE : Z := 2048 * 1024.
Definition TEST_BUFFER_SIZE_HW : Z := 2048 * 1024.

(** The two fields of a performance-counter sample, as [get_bandwidth]
    takes them out. *)
Definition perf_valid_cnt (perf_cntr : Z) : Z := Z.land perf_cntr 0xFFFFF.
Definition perf_clk_cnt (perf_cntr : Z) : Z := Z.land (Z.shiftr perf_cntr 20) 0xFFFFF.

(** What is live at line 351 of [run_basic_ddr_dma_test]. *)
Record locals : Type := {
  num_errors : Z;
  dma_buf_wsid : Z;
  test_buffer_size : Z;
  expected_result : bytes;
  h2a_bw : double;
  a2h_bw : double
}.

(** [expected_result_word_ptr[i] = i] for [i] below [n], on an array that
    starts out as [init]. *)
Fixpoint ascending_words_from (m : bytes) (i : Z) (count : nat) : bytes :=
  match count with
  | O => m
  | S count' => ascending_words_from (store64 m i (u64 i)) (i + 1) count'
  end.

Definition ascending_words (init : bytes) (n : Z) : bytes :=
  ascending_words_from init 0 (Z.to_nat n).

Section Primitives.

Context {D : Type}.
Variable P : platform D.
Context {R : Type}.

(** *** Console and library calls *)

Definition print_line (fmt : string) (w : world D) : world D :=
  mkWorld (s_accel_handle w) (s_is_ase_sim w) (s_mmio_buf w) (s_error_count w)
          (dma_buf w) (device w) (calls w) (console w ++ [fmt]).

Definition printf (fmt : string) : M D R unit :=
  fun w => Next tt (print_line fmt w).

Definition fprintf_stderr (fmt : string) : M D R unit := printf fmt.

Definition log_call (c : call) (d : D) (b : bytes) (w : world D) : world D :=
  mkWorld (s_accel_handle w) (s_is_ase_sim w) (s_mmio_buf w) (s_error_count w)
          b d (calls w ++ [c]) (console w).

Definition fpgaMapMMIO (handle : fpga_handle) (mmio_num : Z)
  : M D R (fpga_result * bool) :=
  fun w =>
    let '(r, p, d) := opae_MapMMIO P handle mmio_num (device w) in
    Next (r, p) (log_call (CallMapMMIO handle mmio_num) d (dma_buf w) w).

Definition fpgaReadMMIO64 (handle : fpga_handle) (mmio_num offset : Z)
  : M D R (fpga_result * Z) :=
  fun w =>
    let '(r, v, d, b) := opae_ReadMMIO64 P handle mmio_num offset (device w) (dma_buf w) in
    Next (r, u64 v) (log_call (CallReadMMIO64 handle mmio_num offset) d b w).

Definition fpgaWriteMMIO64 (handle : fpga_handle) (mmio_num offset value : Z)
  : M D R fpga_result :=
  fun w =>
    let '(r, d, b) := opae_WriteMMIO64 P handle mmio_num offset value (device w) (dma_buf w) in
    Next r (log_call (CallWriteMMIO64 handle mmio_num offset value) d b w).

Definition fpgaPrepareBuffer (handle : fpga_handle) (len flags : Z)
  : M D R (fpga_result * Z) :=
  fun w =>
    let '(r, wsid, b, d) := opae_PrepareBuffer P handle len flags (device w) in
    Next (r, u64 wsid)
         (log_call (CallPrepareBuffer handle len flags) d
                   (if is_FPGA_OK r then b else dma_buf w) w).

Definition fpgaGetIOAddress (handle : fpga_handle) (wsid : Z)
  : M D R (fpga_result * Z) :=
  fun w =>
    let '(r, a, d) := opae_GetIOAddress P handle wsid (device w) in
    Next (r, u64 a) (log_call (CallGetIOAddress handle wsid) d (dma_buf w) w).

Definition fpgaReleaseBuffer (handle : fpga_handle) (wsid : Z) : M D R fpga_result :=
  fun w =>
    let '(r, d) := opae_ReleaseBuffer P handle wsid (device w) in
    Next r (log_call (CallReleaseBuffer handle wsid) d (dma_buf w) w).

(** [s_mmio_buf[idx]] *)
Definition load_s_mmio_buf (idx : Z) : M D R Z :=
  fun w =>
    let '(v, d, b) := window_load P idx (device w) (dma_buf w) in
    Next (u64 v) (log_call (LoadMMIO idx) d b w).

(** [s_mmio_buf[idx] = v] *)
Definition store_s_mmio_buf (idx v : Z) : M D R unit :=
  fun w =>
    let '(d, b) := window_store P idx v (device w) (dma_buf w) in
    Next tt (log_call (StoreMMIO idx v) d b w).

(** Accesses to the host buffer, [DMA_BUFFER_SIZE] bytes long. *)
Definition set_dma_buf (b : bytes) : M D R unit :=
  fun w => Next tt (mkWorld (s_accel_handle w) (s_is_ase_sim w) (s_mmio_buf w)
                      (s_error_count w) b (device w) (calls w) (console w)).

(** [dma_buf_ptr[i] = v] *)
Definition store_dma_buf (i v : Z) : M D R unit :=
  fun w =>
    if (0 <=? i) && (8 * i + 8 <=? DMA_BUFFER_SIZE)
    then set_dma_buf (store64 (dma_buf w) i v) w
    else Undefined "dma_buf_ptr[i]" w.

(** [memset ((void * )dma_buf_ptr, c, n)] *)
Definition memset_dma_buf (c n : Z) : M D R unit :=
  fun w =>
    if (0 <=? n) && (n <=? DMA_BUFFER_SIZE)
    then set_dma_buf (memset (dma_buf w) c n) w
    else Undefined "memset (dma_buf_ptr)" w.

(** [memcmp ((void * )dma_buf_ptr, other, n)] *)
Definition memcmp_dma_buf (other : bytes) (n : Z) : M D R Z :=
  fun w =>
    if (0 <=? n) && (n <=? DMA_BUFFER_SIZE)
    then Next (memcmp (dma_buf w) other n) w
    else Undefined "memcmp (dma_buf_ptr)" w.

Definition get_s_is_ase_sim : M D R bool := fun w => Next (s_is_ase_sim w) w.
Definition get_s_mmio_buf : M D R bool := fun w => Next (s_mmio_buf w) w.
Definition get_s_accel_handle : M D R fpga_handle := fun w => Next (s_accel_handle w) w.

(** [s_error_count += 1], on an [int] *)
Definition incr_s_error_count : M D R unit :=
  fun w =>
    if s_error_count w <? INT_MAX
    then Next tt (mkWorld (s_accel_handle w) (s_is_ase_sim w) (s_mmio_buf w)
                    (s_error_count w + 1) (dma_buf w) (device w) (calls w) (console w))
    else Undefined "s_error_count += 1" w.

(** *** [print_err] and [ON_ERR_GOTO] *)

Definition print_err (s : string) (res : fpga_result) : M D R unit :=
  fprintf_stderr ("Error " ++ s ++ ": %s\n")%string.

Definition ON_ERR_GOTO (res : fpga_result) (label : M D R unit) (desc : string)
  : M D R unit :=
  if negb (is_FPGA_OK res)
  then print_err desc res ;; incr_s_error_count ;; label
  else ret tt.

End Primitives.

Arguments print_line {D} _ _.
Arguments log_call {D} _ _ _ _.
Arguments printf {D R} _ _.
Arguments fprintf_stderr {D R} _ _.
Arguments set_dma_buf {D R} _ _.
Arguments store_dma_buf {D R} _ _ _.
Arguments memset_dma_buf {D R} _ _ _.
Arguments memcmp_dma_buf {D R} _ _ _.
Arguments get_s_is_ase_sim {D R} _.
Arguments get_s_mmio_buf {D R} _.
Arguments get_s_accel_handle {D R} _.
Arguments incr_s_error_count {D R} _.
Arguments print_err {D R} _ _ _.
Arguments ON_ERR_GOTO {D R} _ _ _ _.

(** The message of lines 109-111 and 130-132. *)
Definition bandwidth_error_message : string :=
  "Error: Minimum bandwidth requirement not met. Please ensure                       your device meets the minimum bandwidth of 8.2 GBps for                       optimal performance.\n".

(** The arithmetic of [get_bandwidth]: [(valid * 1.0) / (clk * 1.0)] and
    [uptime * MAX_TRPT_BYTES / 1000.0]. *)
Definition uptime (valid_cnt clk_cnt : Z) : double :=
  Double.div (Double.mul (Double.of_Z valid_cnt) (Double.of_Z 1))
             (Double.mul (Double.of_Z clk_cnt) (Double.of_Z 1)).

Definition bandwidth (h : dma_h) (uptime : double) : double :=
  Double.div (Double.mul uptime (MAX_TRPT_BYTES h)) (Double.of_Z 1000).

(** The bandwidth derived from one performance-counter sample. *)
Definition sample_bandwidth (h : dma_h) (perf_cntr : Z) : double :=
  bandwidth h (uptime (perf_valid_cnt perf_cntr) (perf_clk_cnt perf_cntr)).

Section Program.

Context {D : Type}.
Variable P : platform D.
Variable h : dma_h.
(** whether the program is compiled with [-DUSE_ASE] *)
Variable USE_ASE : bool.

(** *** Register access (lines 50-86) *)

Definition readMMIO64 {R} (idx : Z) : M D R Z :=
  call_ (
    let idx := u32 idx in
    mapped <- get_s_mmio_buf ;;
    if mapped : bool then
      v <- load_s_mmio_buf P idx ;;
      return_ v
    else
      handle <- get_s_accel_handle ;;
      '(r, v) <- fpgaReadMMIO64 P handle 0 (u32 (8 * idx)) ;;
      assert_ (is_FPGA_OK r) "FPGA_OK == r" ;;
      return_ v).

Definition mmio_read64 {R} (accel_handle : fpga_handle) (addr : Z) (reg_name : string)
  : M D R Z :=
  call_ (
    '(r, data) <- fpgaReadMMIO64 P accel_handle 0 addr ;;
    assert_ (is_FPGA_OK r) "FPGA_OK == r" ;;
    printf "Reading %s (Byte Offset=%08lx) = %08lx\n" ;;
    ret data).

Definition mmio_read64_silent {R} (accel_handle : fpga_handle) (addr : Z) : M D R Z :=
  call_ (
    '(r, data) <- fpgaReadMMIO64 P accel_handle 0 addr ;;
    assert_ (is_FPGA_OK r) "FPGA_OK == r" ;;
    ret data).

Definition writeMMIO64 {R} (idx v : Z) : M D R unit :=
  call_ (
    let idx := u32 idx in
    mapped <- get_s_mmio_buf ;;
    if mapped : bool then
      store_s_mmio_buf P idx v
    else
      handle <- get_s_accel_handle ;;
      _ <- fpgaWriteMMIO64 P handle 0 (u32 (8 * idx)) v ;;
      ret tt).

(** *** [get_bandwidth] (lines 88-137) *)

Definition get_bandwidth {R} (descriptor_mode : e_dma_mode) : M D R double :=
  call_ (
    (* Gather Read statistics and calculate bandwidth *)
    rd_src_perf_cntr <- readMMIO64 (DMA_CSR_IDX_RD_SRC_PERF_CNTR h) ;;
    let rd_src_valid_cnt := perf_valid_cnt rd_src_perf_cntr in
    let rd_src_clk_cnt := perf_clk_cnt rd_src_perf_cntr in
    let read_uptime := uptime rd_src_valid_cnt rd_src_clk_cnt in
    let read_bandwidth := bandwidth h read_uptime in
    (if e_dma_mode_value h descriptor_mode =? e_dma_mode_value h ddr_to_host
     then printf "\nAFU Reading DDR "
     else printf "\nAFU Reading Host ") ;;
    printf "BW = %f GB/S\n" ;;
    when_ (Double.ltb read_bandwidth (MIN_TRPT_GBPS h))
      (fprintf_stderr bandwidth_error_message ;;
       return_ (Double.of_Z (-1))) ;;
    (* Gather Write statistics and calculate bandwidth *)
    wr_dest_perf_cntr <- readMMIO64 (DMA_CSR_IDX_WR_DEST_PERF_CNTR h) ;;
    let wr_dest_valid_cnt := perf_valid_cnt wr_dest_perf_cntr in
    let wr_dest_clk_cnt := perf_clk_cnt wr_dest_perf_cntr in
    let write_uptime := uptime wr_dest_valid_cnt wr_dest_clk_cnt in
    let write_bandwidth := bandwidth h write_uptime in
    (if e_dma_mode_value h descriptor_mode =? e_dma_mode_value h ddr_to_host
     then printf "Host to AFU "
     else printf "DDR to AFU ") ;;
    printf "Write BW = %f GB/S\n\n" ;;
    when_ (Double.ltb write_bandwidth (MIN_TRPT_GBPS h))
      (fprintf_stderr bandwidth_error_message ;;
       return_ (Double.of_Z (-1))) ;;
    let average_bw := Double.div (Double.add read_bandwidth write_bandwidth) (Double.of_Z 2) in
    return_ average_bw).

(** *** [print_csrs] (lines 139-200) *)

Definition print_csrs {R} : M D R unit :=
  call_ (
    printf "AFU properties:\n" ;;
    dfh <- readMMIO64 (DMA_CSR_IDX_DFH h) ;;
    printf "  DMA_DFH:                %016lX\n" ;;
    guid_l <- readMMIO64 (DMA_CSR_IDX_GUID_L h) ;;
    printf "  DMA_GUID_L:             %016lX\n" ;;
    guid_h <- readMMIO64 (DMA_CSR_IDX_GUID_H h) ;;
    printf "  DMA_GUID_H:             %016lX\n" ;;
    rsvd_1 <- readMMIO64 (DMA_CSR_IDX_RSVD_1 h) ;;
    printf "  DMA_RSVD_1:             %016lX\n" ;;
    rsvd_2 <- readMMIO64 (DMA_CSR_IDX_RSVD_2 h) ;;
    printf "  DMA_RSVD_2:             %016lX\n" ;;
    src_addr <- readMMIO64 (DMA_CSR_IDX_SRC_ADDR h) ;;
    printf "  DMA_SRC_ADDR:           %016lX\n" ;;
    dest_addr <- readMMIO64 (DMA_CSR_IDX_DEST_ADDR h) ;;
    printf "  DMA_DEST_ADDR:          %016lX\n" ;;
    length <- readMMIO64 (DMA_CSR_IDX_LENGTH h) ;;
    printf "  DMA_LENGTH:             %016lX\n" ;;
    descriptor_control <- readMMIO64 (DMA_CSR_IDX_DESCRIPTOR_CONTROL h) ;;
    printf "  DMA_DESCRIPTOR_CONTROL: %016lX\n" ;;
    status <- readMMIO64 (DMA_CSR_IDX_STATUS h) ;;
    printf "  DMA_STATUS:             %016lX\n" ;;
    csr_control <- readMMIO64 (DMA_CSR_IDX_CONTROL h) ;;
    printf "  DMA_CONTROL:            %016lX\n" ;;
    wr_re_fill_level <- readMMIO64 (DMA_CSR_IDX_WR_RE_FILL_LEVEL h) ;;
    printf "  DMA_WR_RE_FILL_LEVEL:   %016lX\n" ;;
    resp_fill_level <- readMMIO64 (DMA_CSR_IDX_RESP_FILL_LEVEL h) ;;
    printf "  DMA_RESP_FILL_LEVEL:    %016lX\n" ;;
    seq_num <- readMMIO64 (DMA_CSR_IDX_WR_RE_SEQ_NUM h) ;;
    printf "  DMA_WR_RE_SEQ_NUM:      %016lX\n" ;;
    config1 <- readMMIO64 (DMA_CSR_IDX_CONFIG_1 h) ;;
    printf "  DMA_CONFIG_1:           %016lX\n" ;;
    config2 <- readMMIO64 (DMA_CSR_IDX_CONFIG_2 h) ;;
    printf "  DMA_CONFIG_2:           %016lX\n" ;;
    info <- readMMIO64 (DMA_CSR_IDX_TYPE_VERSION h) ;;
    printf "  DMA_TYPE_VERSION:       %016lX\n" ;;
    rd_src_perf_cntr <- readMMIO64 (DMA_CSR_IDX_RD_SRC_PERF_CNTR h) ;;
    printf "  RD_SRC_PERF_CNTR:       %016lX\n" ;;
    wr_dest_perf_cntr <- readMMIO64 (DMA_CSR_IDX_WR_DEST_PERF_CNTR h) ;;
    printf "  WR_DEST_PERF_CNTR:      %016lX\n" ;;
    printf "\n").

(** *** [send_descriptor] (lines 202-220) *)

Definition send_descriptor {R} (accel_handle : fpga_handle) (mmio_dst : Z)
           (desc : dma_descriptor_t) : M D R unit :=
  call_ (
    (* mmio requires 8 byte alignment *)
    assert_ (mmio_dst mod 8 =? 0) "mmio_dst % 8 == 0" ;;
    let dev_addr := u32 mmio_dst in
    _ <- fpgaWriteMMIO64 P accel_handle 0 dev_addr (src_address desc) ;;
    printf "Writing %lX to address %X\n" ;;
    let dev_addr := u32 (dev_addr + 8) in
    _ <- fpgaWriteMMIO64 P accel_handle 0 dev_addr (dest_address desc) ;;
    printf "Writing %lX to address %X\n" ;;
    let dev_addr := u32 (dev_addr + 8) in
    _ <- fpgaWriteMMIO64 P accel_handle 0 dev_addr (len desc) ;;
    printf "Writing %X to address %X\n" ;;
    let dev_addr := u32 (dev_addr + 8) in
    _ <- fpgaWriteMMIO64 P accel_handle 0 dev_addr (control desc) ;;
    printf "Writing %X to address %X\n").

(** *** [dma_transfer] (lines 222-282)

    The status register is polled at most [fuel] times after the first
    read; [StillBusy] is the outcome when the engine is busy even then.
    The clock readings, the apparent bandwidth computed from them (which
    is only printed) and the one-second pause between two polls of the
    simulation build are not modelled. *)

Fixpoint poll_status {R} (fuel : nat) (accel_handle : fpga_handle) (verbose : bool)
         (DMA_STATUS_BASE : Z) (mmio_data : Z) : M D R unit :=
  if Z.land mmio_data 0x1 =? 0x1 then
    match fuel with
    | O => fun w => StillBusy w
    | S fuel' =>
      mmio_data <-
        (if USE_ASE then
           when_ verbose print_csrs ;;
           mmio_read64 accel_handle DMA_STATUS_BASE "dma_csr_base"
         else
           mmio_read64_silent accel_handle DMA_STATUS_BASE) ;;
      poll_status fuel' accel_handle verbose DMA_STATUS_BASE mmio_data
    end
  else ret tt.

Definition dma_transfer {R} (fuel : nat) (accel_handle : fpga_handle) (mode : e_dma_mode)
           (dev_src dev_dest : Z) (len : Z) (verbose : bool) : M D R unit :=
  call_ (
    (* dma requires 64 byte alignment *)
    assert_ (dev_src mod 64 =? 0) "dev_src % 64 == 0" ;;
    assert_ (dev_dest mod 64 =? 0) "dev_dest % 64 == 0" ;;
    (* only 32bit for now *)
    let MASK_FOR_32BIT_ADDR := 0xFFFFFFFF in
    let descriptor_mode := mode in
    let desc :=
      {| src_address := Z.land dev_src MASK_FOR_32BIT_ADDR;
         dest_address := Z.land dev_dest MASK_FOR_32BIT_ADDR;
         len := u32 len;
         control := u32 (Z.lor 0x80000000
                               (Z.shiftl (e_dma_mode_value h descriptor_mode) (MODE_SHIFT h))) |} in
    let DMA_DESC_BASE := u64 (8 * DMA_CSR_IDX_SRC_ADDR h) in
    let DMA_STATUS_BASE := u64 (8 * DMA_CSR_IDX_STATUS h) in
    when_ verbose
      (printf "\nDescriptor size   = %d\n" ;;
       printf "desc.src_address  = %04lX\n" ;;
       printf "desc.dest_address = %04lX\n" ;;
       printf "desc.len          = %d\n" ;;
       printf "desc.control      = %04X\n") ;;
    (* send descriptor *)
    for_ 2 (fun i => send_descriptor accel_handle DMA_DESC_BASE desc) ;;
    mmio_data <- mmio_read64_silent accel_handle DMA_STATUS_BASE ;;
    (* If the descriptor buffer is empty, then we are done *)
    poll_status fuel accel_handle verbose DMA_STATUS_BASE mmio_data ;;
    printf "\nApparent Transfer Bandwidth: %4.5fGB/s").

(** *** [run_basic_ddr_dma_test] (lines 284-369)

    [test_buffer_size_0] is the value the variable [test_buffer_size]
    happens to hold before its first assignment: line 302 reads it.
    The function is given in two parts, so that the state at line 351,
    where both bandwidths are known, has a name.
    The model has no stack: the array [expected_result] of line 313, as
    long as the transfer, always fits.  It is the model of the program
    for the sizes whose array the stack holds. *)

(** The label [release_buf] (lines 365-368). *)
Definition release_buf {A} (accel_handle : fpga_handle) (dma_buf_wsid : Z)
           (num_errors : Z) : M D Z A :=
  res <- fpgaReleaseBuffer P accel_handle dma_buf_wsid ;;
  return_ num_errors.

(** Lines 284-349. *)
Definition run_basic_ddr_dma_test_transfers (fuel : nat) (accel_handle : fpga_handle)
           (transfer_size : Z) (verbose : bool) (test_buffer_size_0 : Z)
  : M D Z locals :=
  let num_errors := 0 in
  (* Ensure the transfer size is in terms of 64B (512-bit) lines *)
  assert_ (Z.rem transfer_size 64 =? 0) "transfer_size%64==0" ;;
  is_ase_sim <- get_s_is_ase_sim ;;
  (if is_ase_sim : bool
   then assert_ (transfer_size <=? TEST_BUFFER_SIZE_ASE) "transfer_size <= TEST_BUFFER_SIZE_ASE"
   else assert_ (test_buffer_size_0 <=? TEST_BUFFER_SIZE_HW) "test_buffer_size <= TEST_BUFFER_SIZE_HW") ;;
  let test_buffer_size := u32 transfer_size in
  (* Set transfer size in number of beats of size awsize *)
  let dma_len := u32 (u32 (test_buffer_size - 1) / DMA_LINE_SIZE h + 1) in
  printf "dma_len = %d\n" ;;
  (* Create expected result *)
  let test_buffer_word_size := test_buffer_size / 8 in
  let expected_result := ascending_words (fun _ => 0) test_buffer_word_size in
  printf "TEST_BUFFER_SIZE = %d\n" ;;
  printf "DMA_BUFFER_SIZE  = %d\n" ;;
  (* Initialize shared buffer *)
  '(res, dma_buf_wsid) <- fpgaPrepareBuffer P accel_handle DMA_BUFFER_SIZE 0 ;;
  ON_ERR_GOTO res (release_buf accel_handle dma_buf_wsid num_errors) "allocating dma buffer" ;;
  memset_dma_buf 0x0 DMA_BUFFER_SIZE ;;
  (* Store virtual address of IO registers *)
  '(res, dma_buf_iova) <- fpgaGetIOAddress P accel_handle dma_buf_wsid ;;
  ON_ERR_GOTO res (release_buf accel_handle dma_buf_wsid num_errors) "getting dma DMA_BUF_IOVA" ;;
  for_ test_buffer_word_size (fun i => store_dma_buf i (u64 i)) ;;
  (* Basic DMA transfer, Host to DDR *)
  dma_transfer fuel accel_handle host_to_ddr (u64 (Z.lor dma_buf_iova (DMA_HOST_MASK h))) 0
               (s32 dma_len) verbose ;;
  h2a_bw <- get_bandwidth host_to_ddr ;;
  (* DMA Transfer *)
  memset_dma_buf 0x0 DMA_BUFFER_SIZE ;;
  (* Basic DMA transfer, DDR to Host *)
  dma_transfer fuel accel_handle ddr_to_host 0 (u64 (Z.lor dma_buf_iova (DMA_HOST_MASK h)))
               (s32 dma_len) verbose ;;
  a2h_bw <- get_bandwidth ddr_to_host ;;
  ret {| num_errors := num_errors;
         dma_buf_wsid := dma_buf_wsid;
         test_buffer_size := test_buffer_size;
         expected_result := expected_result;
         h2a_bw := h2a_bw;
         a2h_bw := a2h_bw |}.

(** Lines 351-368. *)
Definition run_basic_ddr_dma_test_verdict (accel_handle : fpga_handle) (l : locals)
  : M D Z Z :=
  when_ (Double.eqb (a2h_bw l) (Double.of_Z (-1)) || Double.eqb (h2a_bw l) (Double.of_Z (-1)))
    (fprintf_stderr "Error: Minimum bandwidth requirement violation detected.\n" ;;
     return_ (-1)) ;;
  (* Check expected result *)
  c <- memcmp_dma_buf (expected_result l) (test_buffer_size l) ;;
  num_errors <-
    (if negb (c =? 0)
     then printf "\nERROR: memcmp failed!\n" ;; ret (num_errors l + 1)
     else printf "\nSuccess!\n" ;; ret (num_errors l)) ;;
  release_buf accel_handle (dma_buf_wsid l) num_errors.

Definition run_basic_ddr_dma_test {R} (fuel : nat) (accel_handle : fpga_handle)
           (transfer_size : Z) (verbose : bool) (test_buffer_size_0 : Z) : M D R Z :=
  call_ (
    l <- run_basic_ddr_dma_test_transfers fuel accel_handle transfer_size verbose
                                          test_buffer_size_0 ;;
    run_basic_ddr_dma_test_verdict accel_handle l).

(** *** [dma] (lines 371-390) *)

Definition set_session (accel_handle : fpga_handle) (is_ase_sim : bool) : M D Z unit :=
  fun w => Next tt (mkWorld accel_handle is_ase_sim (s_mmio_buf w) (s_error_count w)
                      (dma_buf w) (device w) (calls w) (console w)).

Definition set_s_mmio_buf (p : bool) : M D Z unit :=
  fun w => Next tt (mkWorld (s_accel_handle w) (s_is_ase_sim w) p (s_error_count w)
                      (dma_buf w) (device w) (calls w) (console w)).

Definition dma {R} (fuel : nat) (accel_handle : fpga_handle) (is_ase_sim : bool)
           (transfer_size : Z) (verbose : bool) (test_buffer_size_0 : Z) : M D R Z :=
  call_ (
    set_session accel_handle is_ase_sim ;;
    (* Get a pointer to the MMIO buffer for direct access. *)
    (if is_ase_sim
     then set_s_mmio_buf false
     else
       '(r, tmp_ptr) <- fpgaMapMMIO P accel_handle 0 ;;
       assert_ (is_FPGA_OK r) "FPGA_OK == r" ;;
       set_s_mmio_buf tmp_ptr) ;;
    handle <- get_s_accel_handle ;;
    r <- run_basic_ddr_dma_test fuel handle (s32 transfer_size) verbose test_buffer_size_0 ;;
    return_ r).

End Program.

Arguments readMMIO64 {D} P {R} _ _.
Arguments mmio_read64 {D} P {R} _ _ _ _.
Arguments mmio_read64_silent {D} P {R} _ _ _.
Arguments writeMMIO64 {D} P {R} _ _ _.
Arguments get_bandwidth {D} P h {R} _ _.
Arguments print_csrs {D} P h {R} _.
Arguments send_descriptor {D} P {R} _ _ _ _.
Arguments poll_status {D} P h USE_ASE {R} _ _ _ _ _ _.
Arguments dma_transfer {D} P h USE_ASE {R} _ _ _ _ _ _ _ _.
Arguments run_basic_ddr_dma_test {D} P h USE_ASE {R} _ _ _ _ _ _.
Arguments dma {D} P h USE_ASE {R} _ _ _ _ _ _ _.


(** * Notions used in the statements *)

(** ** What a piece of code does to the registers

    [tame E m]: whatever the outcome, [m] adds only register reads to the
    calls made so far, and an assertion it fails is one of [E]. *)

Definition only_reads (t : list call) : Prop := forallb is_register_read t = true.

Definition tame {D R A} (E : string -> Prop) (m : M D R A) : Prop :=
  forall w,
    (exists t, calls (final_world (m w)) = calls w ++ t /\ only_reads t) /\
    (forall e w', m w = AssertFail e w' -> E e).

(** The register writes of one descriptor submission, in the words of the
    design document: four fields at consecutive 8-byte offsets from the
    descriptor base. *)
Definition documented_submission (h : dma_h) (accel_handle : fpga_handle) (mode : e_dma_mode)
           (dev_src dev_dest len : Z) : list call :=
  let base := 8 * DMA_CSR_IDX_SRC_ADDR h in
  [ CallWriteMMIO64 accel_handle 0 base (Z.land dev_src 0xFFFFFFFF);
    CallWriteMMIO64 accel_handle 0 (base + 8) (Z.land dev_dest 0xFFFFFFFF);
    CallWriteMMIO64 accel_handle 0 (base + 16) len;
    CallWriteMMIO64 accel_handle 0 (base + 24)
                    (Z.lor 0x80000000 (Z.shiftl (e_dma_mode_value h mode) (MODE_SHIFT h))) ].

(** The descriptor [dma_transfer] builds, the calls one submission of it
    makes, and the code that follows the two submissions. *)
Definition built_descriptor (h : dma_h) (mode : e_dma_mode) (dev_src dev_dest len : Z)
  : dma_descriptor_t :=
  {| src_address := Z.land dev_src 0xFFFFFFFF;
     dest_address := Z.land dev_dest 0xFFFFFFFF;
     len := u32 len;
     control := u32 (Z.lor 0x80000000 (Z.shiftl (e_dma_mode_value h mode) (MODE_SHIFT h))) |}.

Definition submitted (h : dma_h) (accel_handle : fpga_handle) (d : dma_descriptor_t)
  : list call :=
  let base := u64 (8 * DMA_CSR_IDX_SRC_ADDR h) in
  [ CallWriteMMIO64 accel_handle 0 (u32 base) (src_address d);
    CallWriteMMIO64 accel_handle 0 (u32 (u32 base + 8)) (dest_address d);
    CallWriteMMIO64 accel_handle 0 (u32 (u32 (u32 base + 8) + 8)) (len d);
    CallWriteMMIO64 accel_handle 0 (u32 (u32 (u32 (u32 base + 8) + 8) + 8)) (control d) ].

Definition await_idle {D} (P : platform D) (h : dma_h) (USE_ASE : bool)
           (fuel : nat) (accel_handle : fpga_handle) (verbose : bool) : M D unit unit :=
  mmio_data <- mmio_read64_silent P accel_handle (u64 (8 * DMA_CSR_IDX_STATUS h)) ;;
  poll_status P h USE_ASE fuel accel_handle verbose (u64 (8 * DMA_CSR_IDX_STATUS h)) mmio_data ;;
  printf "\nApparent Transfer Bandwidth: %4.5fGB/s".

(** The state in which [get_bandwidth] reads the second counter: the
    state after the first read, with the two lines printed since. *)
Definition read_reported {D} (h : dma_h) (mode : e_dma_mode) (w : world D) : world D :=
  print_line "BW = %f GB/S\n"
    (print_line (if e_dma_mode_value h mode =? e_dma_mode_value h ddr_to_host
                 then "\nAFU Reading DDR " else "\nAFU Reading Host ") w).

Definition write_reported {D} (h : dma_h) (mode : e_dma_mode) (w : world D) : world D :=
  print_line "Write BW = %f GB/S\n\n"
    (print_line (if e_dma_mode_value h mode =? e_dma_mode_value h ddr_to_host
                 then "Host to AFU " else "DDR to AFU ") w).

Definition average_bw (h : dma_h) (rd wr : Z) : double :=
  Double.div (Double.add (sample_bandwidth h rd) (sample_bandwidth h wr)) (Double.of_Z 2).


(** Looking at an outcome. *)
Definition result_value {D R A} (o : outcome D R A) : option A :=
  match o with
  | Next a _ => Some a
  | _ => None
  end.

Definition undefined_at {D R A} (o : outcome D R A) : option string :=
  match o with
  | Undefined e _ => Some e
  | _ => None
  end.

Definition is_Next {D R A} (o : outcome D R A) : bool :=
  match o with
  | Next _ _ => true
  | _ => false
  end.

Definition next_or {D R A} (d : A) (o : outcome D R A) : A :=
  match o with
  | Next a _ => a
  | _ => d
  end.

(** ** Platforms to run the model on

    A header with plausible values, and a simulated device: its answers to
    the library calls are fixed in its state, its status register always
    reads idle, and its engine, when enabled, copies between the host
    buffer and a DDR image as soon as the control word of a descriptor is
    written. *)

Module Sim.

Definition header : dma_h :=
  {| e_dma_mode_value := fun m =>
       match m with host_to_ddr => 1 | ddr_to_host => 2 | ddr_to_ddr => 3 end;
     DMA_LINE_SIZE := 64;
     MODE_SHIFT := 26;
     DMA_HOST_MASK := 0;
     MAX_TRPT_BYTES := Double.of_Z 25600;
     MIN_TRPT_GBPS := Double.of_decimal 82 1;
     DMA_CSR_IDX_DFH := 0;
     DMA_CSR_IDX_GUID_L := 1;
     DMA_CSR_IDX_GUID_H := 2;
     DMA_CSR_IDX_RSVD_1 := 3;
     DMA_CSR_IDX_RSVD_2 := 4;
     DMA_CSR_IDX_SRC_ADDR := 5;
     DMA_CSR_IDX_DEST_ADDR := 6;
     DMA_CSR_IDX_LENGTH := 7;
     DMA_CSR_IDX_DESCRIPTOR_CONTROL := 8;
     DMA_CSR_IDX_STATUS := 9;
     DMA_CSR_IDX_CONTROL := 10;
     DMA_CSR_IDX_WR_RE_FILL_LEVEL := 11;
     DMA_CSR_IDX_RESP_FILL_LEVEL := 12;
     DMA_CSR_IDX_WR_RE_SEQ_NUM := 13;
     DMA_CSR_IDX_CONFIG_1 := 14;
     DMA_CSR_IDX_CONFIG_2 := 15;
     DMA_CSR_IDX_TYPE_VERSION := 16;
     DMA_CSR_IDX_RD_SRC_PERF_CNTR := 17;
     DMA_CSR_IDX_WR_DEST_PERF_CNTR := 18 |}.

Record state : Type := {
  prepare_answer : fpga_result;
  ioaddr_answer : fpga_result;
  iova : Z;
  rd_perf : Z;
  wr_perf : Z;
  engine_on : bool;
  reg_src : Z;
  reg_dest : Z;
  reg_len : Z;
  ddr : bytes
}.

Definition with_regs (d : state) (s t n : Z) (m : bytes) : state :=
  {| prepare_answer := prepare_answer d; ioaddr_answer := ioaddr_answer d;
     iova := iova d; rd_perf := rd_perf d; wr_perf := wr_perf d;
     engine_on := engine_on d;
     reg_src := s; reg_dest := t; reg_len := n; ddr := m |}.

Definition copy (from : bytes) (src : Z) (to : bytes) (dest : Z) (n : Z) : bytes :=
  fun a => if (dest <=? a) && (a <? dest + n) then from (a - dest + src) else to a.

(** A register read, by byte offset. *)
Definition read_reg (d : state) (offset : Z) : Z :=
  if offset =? 8 * DMA_CSR_IDX_RD_SRC_PERF_CNTR header then rd_perf d
  else if offset =? 8 * DMA_CSR_IDX_WR_DEST_PERF_CNTR header then wr_perf d
  else 0.

(** A register write, by byte offset. *)
Definition write_reg (d : state) (b : bytes) (offset v : Z) : state * bytes :=
  if offset =? 8 * DMA_CSR_IDX_SRC_ADDR header
  then (with_regs d v (reg_dest d) (reg_len d) (ddr d), b)
  else if offset =? 8 * DMA_CSR_IDX_DEST_ADDR header
  then (with_regs d (reg_src d) v (reg_len d) (ddr d), b)
  else if offset =? 8 * DMA_CSR_IDX_LENGTH header
  then (with_regs d (reg_src d) (reg_dest d) v (ddr d), b)
  else if (offset =? 8 * DMA_CSR_IDX_DESCRIPTOR_CONTROL header) && engine_on d
  then
    let mode := Z.land (Z.shiftr v (MODE_SHIFT header)) 3 in
    let n := 64 * reg_len d in
    if mode =? 1
    then (with_regs d (reg_src d) (reg_dest d) (reg_len d)
                    (copy b (reg_src d - iova d) (ddr d) (reg_dest d) n), b)
    else if mode =? 2
    then (d, copy (ddr d) (reg_src d) b (reg_dest d - iova d) n)
    else (d, b)
  else (d, b).

Definition platform : platform state :=
  {| opae_MapMMIO := fun _ _ d => (FPGA_OK, true, d);
     opae_ReadMMIO64 := fun _ _ offset d b => (FPGA_OK, read_reg d offset, d, b);
     opae_WriteMMIO64 := fun _ _ offset v d b =>
       let '(d', b') := write_reg d b offset v in (FPGA_OK, d', b');
     window_load := fun idx d b => (read_reg d (8 * idx), d, b);
     window_store := fun idx v d b => write_reg d b (8 * idx) v;
     opae_PrepareBuffer := fun _ _ _ d => (prepare_answer d, 7, fun _ => 0xAA, d);
     opae_GetIOAddress := fun _ _ d => (ioaddr_answer d, iova d, d);
     opae_ReleaseBuffer := fun _ _ d => (FPGA_OK, d) |}.

(** A performance-counter sample with the given two counts. *)
Definition sample (valid_cnt clk_cnt : Z) : Z := valid_cnt + clk_cnt * 2 ^ 20.

(** A healthy device: every call succeeds, the engine copies, and both
    counters report 900 valid cycles out of 1000. *)
Definition healthy : state :=
  {| prepare_answer := FPGA_OK; ioaddr_answer := FPGA_OK; iova := 0x10000;
     rd_perf := sample 900 1000; wr_perf := sample 900 1000;
     engine_on := true;
     reg_src := 0; reg_dest := 0; reg_len := 0; ddr := fun _ => 0 |}.

Definition with_perf (d : state) (rd wr : Z) : state :=
  {| prepare_answer := prepare_answer d; ioaddr_answer := ioaddr_answer d;
     iova := iova d; rd_perf := rd; wr_perf := wr;
     engine_on := engine_on d;
     reg_src := reg_src d; reg_dest := reg_dest d; reg_len := reg_len d; ddr := ddr d |}.

Definition with_answers (d : state) (p i : fpga_result) : state :=
  {| prepare_answer := p; ioaddr_answer := i;
     iova := iova d; rd_perf := rd_perf d; wr_perf := wr_perf d;
     engine_on := engine_on d;
     reg_src := reg_src d; reg_dest := reg_dest d; reg_len := reg_len d; ddr := ddr d |}.

Definition with_engine (d : state) (on : bool) : state :=
  {| prepare_answer := prepare_answer d; ioaddr_answer := ioaddr_answer d;
     iova := iova d; rd_perf := rd_perf d; wr_perf := wr_perf d;
     engine_on := on;
     reg_src := reg_src d; reg_dest := reg_dest d; reg_len := reg_len d; ddr := ddr d |}.

(** The state of the process when [run_basic_ddr_dma_test] is entered
    from [dma]. *)
Definition boot (is_ase_sim : bool) (d : state) : world state :=
  mkWorld 1 is_ase_sim (negb is_ase_sim) 0 (fun _ => 0) d [] [].

End Sim.

Module Runs.

(** Simulation mode, the indirect register access. *)
Definition ase (d : Sim.state) : world Sim.state := Sim.boot true d.
(** Hardware mode, the mapped register window. *)
Definition hw (d : Sim.state) : world Sim.state := Sim.boot false d.

Definition test (fuel : nat) (transfer_size : Z) (w : world Sim.state)
  : outcome Sim.state Z Z :=
  run_basic_ddr_dma_test Sim.platform Sim.header false fuel 1 transfer_size false 0 w.

(** The engine does nothing, so the buffer comes back as zeroed. *)
Definition engine_off : Sim.state := Sim.with_engine Sim.healthy false.

(** 100 valid cycles out of 1000 on the read side: 2.56 GB/s. *)
Definition slow : Sim.state :=
  Sim.with_perf Sim.healthy (Sim.sample 100 1000) (Sim.sample 900 1000).


Definition no_memory : Sim.state := Sim.with_answers Sim.healthy FPGA_NO_MEMORY FPGA_OK.
Definition no_address : Sim.state := Sim.with_answers Sim.healthy FPGA_OK FPGA_EXCEPTION.

End Runs.

Module Witness.

Definition no_locals : locals :=
  {| num_errors := 0; dma_buf_wsid := 0; test_buffer_size := 0;
     expected_result := fun _ => 0; h2a_bw := S754_nan; a2h_bw := S754_nan |}.

(** 900 valid cycles out of 1000 on the read side, 100 on the write side. *)
Definition slow_writes : Sim.state :=
  Sim.with_perf Sim.healthy (Sim.sample 900 1000) (Sim.sample 100 1000).

Definition transfer (dev_src : Z) : outcome Sim.state Z unit :=
  dma_transfer Sim.platform Sim.header false 0 1 host_to_ddr dev_src 0 2 false
               (Runs.ase Sim.healthy).

End Witness.

(** ** Notions used in the further properties *)

(** A register access: a read, or a write made through the library. *)
Definition is_register_access (c : call) : bool :=
  match c with
  | CallReadMMIO64 _ _ _ | LoadMMIO _ | CallWriteMMIO64 _ _ _ _ => true
  | _ => false
  end.

(** [confined Q m]: whatever the outcome, every call [m] adds to the
    calls made so far satisfies [Q]. *)
Definition confined {D R A} (Q : call -> bool) (m : M D R A) : Prop :=
  forall w, exists t, calls (final_world (m w)) = calls w ++ t /\ forallb Q t = true.

(** Neither a negative number nor minus infinity. *)
Definition not_negative (x : double) : bool :=
  match x with
  | S754_finite true _ _ | S754_infinity true => false
  | _ => true
  end.

(** The file-scope variables as [dma] sets them. *)
Definition session {D} (accel_handle : fpga_handle) (is_ase_sim mapped : bool) (w : world D)
  : world D :=
  mkWorld accel_handle is_ase_sim mapped (s_error_count w) (dma_buf w) (device w)
          (calls w) (console w).

(** The four writes of [send_descriptor], with the 32-bit arithmetic of
    [dev_addr]. *)
Definition descriptor_writes (accel_handle : fpga_handle) (mmio_dst : Z)
           (desc : dma_descriptor_t) : list call :=
  [ CallWriteMMIO64 accel_handle 0 (u32 mmio_dst) (src_address desc);
    CallWriteMMIO64 accel_handle 0 (u32 (u32 mmio_dst + 8)) (dest_address desc);
    CallWriteMMIO64 accel_handle 0 (u32 (u32 (u32 mmio_dst + 8) + 8)) (len desc);
    CallWriteMMIO64 accel_handle 0 (u32 (u32 (u32 (u32 mmio_dst + 8) + 8) + 8))
                    (control desc) ].

(** The byte offsets of the four descriptor fields, as [send_descriptor]
    computes them from the descriptor base. *)
Definition descriptor_offsets (h : dma_h) : list Z :=
  let base := u32 (u64 (8 * DMA_CSR_IDX_SRC_ADDR h)) in
  [ base; u32 (base + 8); u32 (u32 (base + 8) + 8); u32 (u32 (u32 (base + 8) + 8) + 8) ].

(** The calls [run_basic_ddr_dma_test] may make: register reads, writes of
    descriptor fields through the library, the allocation of one buffer
    of [DMA_BUFFER_SIZE] bytes, the lookup of its address, its release. *)
Definition test_call_allowed (h : dma_h) (accel_handle : fpga_handle) (c : call) : bool :=
  match c with
  | CallReadMMIO64 _ _ _ | LoadMMIO _ => true
  | CallWriteMMIO64 a n off _ =>
    (a =? accel_handle) && (n =? 0) && existsb (Z.eqb off) (descriptor_offsets h)
  | CallPrepareBuffer a n flags => (a =? accel_handle) && (n =? DMA_BUFFER_SIZE) && (flags =? 0)
  | CallGetIOAddress a _ | CallReleaseBuffer a _ => a =? accel_handle
  | CallMapMMIO _ _ | StoreMMIO _ _ => false
  end.

(** The number of lines [run_basic_ddr_dma_test] asks the engine to move
    (line 308, and the conversion to the [int] parameter of
    [dma_transfer]). *)
Definition requested_lines (h : dma_h) (transfer_size : Z) : Z :=
  s32 (u32 (u32 (u32 transfer_size - 1) / DMA_LINE_SIZE h + 1)).

(** [completes m]: from every state [m] runs to its end and hands on a
    value. *)
Definition completes {D R A} (m : M D R A) : Prop :=
  forall w, exists a w', m w = Next a w'.

(** [keeps I m]: from a state whose device satisfies [I], [m] runs to its
    end in such a state; it takes nothing off the console. *)
Definition keeps {D R A} (I : D -> Prop) (m : M D R A) : Prop :=
  forall w, I (device w) ->
            exists a w', m w = Next a w' /\ I (device w') /\ incl (console w) (console w').

(** [hangs I m]: from a state whose device satisfies [I], [m] is still
    polling when its budget is spent. *)
Definition hangs {D R A} (I : D -> Prop) (m : M D R A) : Prop :=
  forall w, I (device w) -> exists w', m w = StillBusy w' /\ incl (console w) (console w').

(** A device whose engine takes three polls for each job: a register
    write starts a job, and each register read brings it one poll nearer
    its end.  The state is the number of polls still to come. *)
Definition patient_platform : platform nat :=
  {| opae_MapMMIO := fun _ _ d => (FPGA_OK, true, d);
     opae_ReadMMIO64 := fun _ _ _ d b => (FPGA_OK, if (d =? 0)%nat then 0 else 1, Nat.pred d, b);
     opae_WriteMMIO64 := fun _ _ _ _ d b => (FPGA_OK, 3%nat, b);
     window_load := fun _ d b => (0, d, b);
     window_store := fun _ _ d b => (d, b);
     opae_PrepareBuffer := fun _ _ _ d => (FPGA_OK, 7, fun _ => 0, d);
     opae_GetIOAddress := fun _ _ d => (FPGA_OK, 0x10000, d);
     opae_ReleaseBuffer := fun _ _ d => (FPGA_OK, d) |}.

(** A device whose engine is idle until a performance counter is read,
    and busy for ever after; the counters report 100 valid cycles out of
    1000.  The state is the number of counter reads so far. *)
Definition jamming_platform : platform nat :=
  {| opae_MapMMIO := fun _ _ d => (FPGA_OK, true, d);
     opae_ReadMMIO64 := fun _ _ offset d b =>
       if offset =? 8 * DMA_CSR_IDX_STATUS Sim.header
       then (FPGA_OK, if (d =? 0)%nat then 0 else 1, d, b)
       else (FPGA_OK, Sim.sample 100 1000, S d, b);
     opae_WriteMMIO64 := fun _ _ _ _ d b => (FPGA_OK, d, b);
     window_load := fun _ d b => (Sim.sample 100 1000, S d, b);
     window_store := fun _ _ d b => (d, b);
     opae_PrepareBuffer := fun _ _ _ d => (FPGA_OK, 7, fun _ => 0, d);
     opae_GetIOAddress := fun _ _ d => (FPGA_OK, 0x10000, d);
     opae_ReleaseBuffer := fun _ _ d => (FPGA_OK, d) |}.

(** The state of the process when the test is entered in simulation
    mode on a device in state [d]. *)
Definition fresh (d : nat) : world nat :=
  mkWorld 1 true false 0 (fun _ => 0) d [] [].

(** A device like the simulated one whose mapping succeeds and stores a
    null pointer. *)
Definition windowless_platform : platform Sim.state :=
  {| opae_MapMMIO := fun _ _ d => (FPGA_OK, false, d);
     opae_ReadMMIO64 := opae_ReadMMIO64 Sim.platform;
     opae_WriteMMIO64 := opae_WriteMMIO64 Sim.platform;
     window_load := window_load Sim.platform;
     window_store := window_store Sim.platform;
     opae_PrepareBuffer := opae_PrepareBuffer Sim.platform;
     opae_GetIOAddress := opae_GetIOAddress Sim.platform;
     opae_ReleaseBuffer := opae_ReleaseBuffer Sim.platform |}.

(** A device like the simulated one whose registers all read 1: its
    status register reports a busy engine for ever. *)
Definition stuck_platform : platform Sim.state :=
  {| opae_MapMMIO := opae_MapMMIO Sim.platform;
     opae_ReadMMIO64 := fun _ _ _ d b => (FPGA_OK, 1, d, b);
     opae_WriteMMIO64 := opae_WriteMMIO64 Sim.platform;
     window_load := window_load Sim.platform;
     window_store := window_store Sim.platform;
     opae_PrepareBuffer := opae_PrepareBuffer Sim.platform;
     opae_GetIOAddress := opae_GetIOAddress Sim.platform;
     opae_ReleaseBuffer := opae_ReleaseBuffer Sim.platform |}.



(** * Properties *)

(** ** The monad *)

Section MonadFacts.

Context {D R : Type}.

Lemma bind_Next_inv {A B} (m : M D R A) (k : A -> M D R B) w b w' :
  bind m k w = Next b w' ->
  exists a w1, m w = Next a w1 /\ k a w1 = Next b w'.
Proof.
  unfold bind. destruct (m w) as [a w1| | | |]; try discriminate.
  intros H. exists a, w1. split; [reflexivity | exact H].
Qed.

Lemma bind_Next {A B} (m : M D R A) (k : A -> M D R B) w a w1 :
  m w = Next a w1 -> bind m k w = k a w1.
Proof. unfold bind. intros ->. reflexivity. Qed.

Lemma assert_Next_inv (c : bool) e (w w' : world D) u :
  @assert_ D R c e w = Next u w' -> c = true /\ w' = w.
Proof.
  unfold assert_. destruct c; [|discriminate].
  intros H. inversion H. split; reflexivity.
Qed.

Lemma bind_assert_true {A} (c : bool) e (k : unit -> M D R A) w :
  c = true -> bind (assert_ c e) k w = k tt w.
Proof. intros ->. reflexivity. Qed.

Lemma final_world_call {R'} (m : M D R R) w :
  final_world (@call_ D R R' m w) = final_world (m w).
Proof. unfold call_. destruct (m w); reflexivity. Qed.

End MonadFacts.

(** ** Performance-counter fields *)

Lemma land_0xFFFFF (x : Z) : Z.land x 0xFFFFF = x mod 2 ^ 20.
Proof. change 0xFFFFF with (Z.ones 20). apply Z.land_ones. lia. Qed.

(** C9.  For every raw performance-counter sample, the valid-cycle count
    (the low 20 bits) and the total-cycle count (bits 20 to 39) that
    [get_bandwidth] extracts both lie between 0 and 2^20 - 1. *)
Theorem perf_counts_range (perf_cntr : Z) :
  0 <= perf_valid_cnt perf_cntr <= 2 ^ 20 - 1 /\
  0 <= perf_clk_cnt perf_cntr <= 2 ^ 20 - 1.
Proof.
  unfold perf_valid_cnt, perf_clk_cnt. rewrite !land_0xFFFFF.
  pose proof (Z.mod_pos_bound perf_cntr (2 ^ 20)).
  pose proof (Z.mod_pos_bound (Z.shiftr perf_cntr 20) (2 ^ 20)).
  lia.
Qed.


Lemma only_reads_app (s t : list call) : only_reads s -> only_reads t -> only_reads (s ++ t).
Proof. unfold only_reads. intros Hs Ht. rewrite forallb_app, Hs, Ht. reflexivity. Qed.

Section Tame.

Context {D : Type}.
Variable P : platform D.
Variable E : string -> Prop.

(** The only assertion in the polling code is the check of a register
    read; [E] has to admit it whenever a read can fail. *)
Hypothesis read_check :
  forall handle n off d b,
    is_FPGA_OK (fst (fst (fst (opae_ReadMMIO64 P handle n off d b)))) = false ->
    E "FPGA_OK == r".

Lemma tame_silent {R A} (m : M D R A) :
  (forall w, exists a w', m w = Next a w' /\ calls w' = calls w) -> tame E m.
Proof.
  intros H w. destruct (H w) as (a & w' & -> & Hc). split.
  - exists []. simpl. rewrite app_nil_r. split; [exact Hc | reflexivity].
  - discriminate.
Qed.

Lemma tame_ret {R A} (a : A) : tame E (@ret D R A a).
Proof. apply tame_silent. intros w. exists a, w. split; reflexivity. Qed.

Lemma tame_return {R A} (r : R) : tame E (@return_ D R A r).
Proof.
  intros w. split.
  - exists []. simpl. rewrite app_nil_r. split; reflexivity.
  - discriminate.
Qed.

Lemma tame_printf {R} fmt : tame E (@printf D R fmt).
Proof. apply tame_silent. intros w. exists tt, (print_line fmt w). split; reflexivity. Qed.

Lemma tame_get_s_mmio_buf {R} : tame E (@get_s_mmio_buf D R).
Proof. apply tame_silent. intros w. exists (s_mmio_buf w), w. split; reflexivity. Qed.

Lemma tame_get_s_accel_handle {R} : tame E (@get_s_accel_handle D R).
Proof. apply tame_silent. intros w. exists (s_accel_handle w), w. split; reflexivity. Qed.

Lemma tame_bind {R A B} (m : M D R A) (k : A -> M D R B) :
  tame E m -> (forall a, tame E (k a)) -> tame E (bind m k).
Proof.
  intros Hm Hk w. destruct (Hm w) as [(t & Ht & Hr) Ha]. unfold bind.
  destruct (m w) as [a w1|r w1|e w1|e w1|w1] eqn:Hmw; simpl in Ht.
  - destruct (Hk a w1) as [(t' & Ht' & Hr') Ha']. split.
    + exists (t ++ t'). rewrite Ht', Ht, app_assoc. split; [reflexivity|].
      apply only_reads_app; assumption.
    + exact Ha'.
  - split; [exists t; split; assumption | discriminate].
  - split; [exists t; split; assumption | ].
    intros e' w' H. inversion H; subst. apply (Ha e' w'). reflexivity.
  - split; [exists t; split; assumption | discriminate].
  - split; [exists t; split; assumption | discriminate].
Qed.

Lemma tame_call {R R'} (m : M D R R) : tame E m -> tame E (@call_ D R R' m).
Proof.
  intros Hm w. destruct (Hm w) as [(t & Ht & Hr) Ha]. unfold call_.
  destruct (m w) as [a w1|r w1|e w1|e w1|w1] eqn:Hmw; simpl in Ht;
    (split; [exists t; split; assumption | try discriminate]).
  intros e' w' H. inversion H; subst. apply (Ha e' w'). reflexivity.
Qed.

Lemma tame_when {R} (c : bool) (m : M D R unit) : tame E m -> tame E (when_ c m).
Proof. intros Hm. destruct c; [exact Hm | apply tame_ret]. Qed.

Lemma tame_load {R} idx : tame E (@load_s_mmio_buf D P R idx).
Proof.
  intros w. unfold load_s_mmio_buf.
  destruct (window_load P idx (device w) (dma_buf w)) as [[v d] b]. split.
  - exists [LoadMMIO idx]. split; reflexivity.
  - discriminate.
Qed.

(** A library read followed by its check. *)
Lemma tame_checked_read {R A} handle n off (k : Z -> M D R A) :
  (forall v, tame E (k v)) ->
  tame E ('(r, v) <- fpgaReadMMIO64 P handle n off ;;
          assert_ (is_FPGA_OK r) "FPGA_OK == r" ;;
          k v).
Proof.
  intros Hk w. unfold bind, fpgaReadMMIO64, assert_. cbv beta.
  pose proof (read_check handle n off (device w) (dma_buf w)) as Hc.
  destruct (opae_ReadMMIO64 P handle n off (device w) (dma_buf w)) as [[[r v] d] b].
  simpl in Hc.
  destruct (is_FPGA_OK r).
  - set (w1 := log_call _ d b w).
    destruct (Hk (u64 v) w1) as [(t & Ht & Hr) Ha]. split.
    + exists (CallReadMMIO64 handle n off :: t). rewrite Ht. unfold w1. simpl.
      rewrite <- app_assoc. split; [reflexivity | exact Hr].
    + exact Ha.
  - split.
    + exists [CallReadMMIO64 handle n off]. split; reflexivity.
    + intros e w' H. inversion H; subst. apply Hc. reflexivity.
Qed.

Lemma tame_readMMIO64 {R} idx : tame E (@readMMIO64 D P R idx).
Proof.
  unfold readMMIO64. apply tame_call. apply tame_bind; [apply tame_get_s_mmio_buf|].
  intros [|].
  - apply tame_bind; [apply tame_load | intros; apply tame_return].
  - apply tame_bind; [apply tame_get_s_accel_handle|]. intros handle.
    apply tame_checked_read. intros; apply tame_return.
Qed.

Lemma tame_mmio_read64 {R} accel addr name : tame E (@mmio_read64 D P R accel addr name).
Proof.
  unfold mmio_read64. apply tame_call. apply tame_checked_read. intros v.
  apply tame_bind; [apply tame_printf | intros; apply tame_ret].
Qed.

Lemma tame_mmio_read64_silent {R} accel addr :
  tame E (@mmio_read64_silent D P R accel addr).
Proof.
  unfold mmio_read64_silent. apply tame_call. apply tame_checked_read.
  intros; apply tame_ret.
Qed.

Lemma tame_print_csrs {R} h : tame E (@print_csrs D P h R).
Proof.
  unfold print_csrs. apply tame_call.
  repeat (apply tame_bind; [first [apply tame_printf | apply tame_readMMIO64] | intros ?]).
  apply tame_printf.
Qed.

Lemma tame_poll_status {R} h USE_ASE fuel accel verbose base mmio_data :
  tame E (@poll_status D P h USE_ASE R fuel accel verbose base mmio_data).
Proof.
  revert mmio_data. induction fuel as [|fuel IH]; intros mmio_data; simpl.
  - destruct (Z.land mmio_data 1 =? 1); [|apply tame_ret].
    intros w. split; [|discriminate].
    exists []. simpl. rewrite app_nil_r. split; reflexivity.
  - destruct (Z.land mmio_data 1 =? 1); [|apply tame_ret].
    apply tame_bind; [|exact IH].
    destruct USE_ASE.
    + apply tame_bind; [apply tame_when, tame_print_csrs | intros; apply tame_mmio_read64].
    + apply tame_mmio_read64_silent.
Qed.

End Tame.

(** ** Descriptor submission *)


Section Submission.

Context {D : Type}.
Variable P : platform D.
Variable h : dma_h.
Variable USE_ASE : bool.

Lemma send_descriptor_Next {R} accel_handle mmio_dst desc (w : world D) :
  mmio_dst mod 8 = 0 ->
  exists w',
    send_descriptor (R := R) P accel_handle mmio_dst desc w = Next tt w' /\
    calls w' = calls w ++
      [ CallWriteMMIO64 accel_handle 0 (u32 mmio_dst) (src_address desc);
        CallWriteMMIO64 accel_handle 0 (u32 (u32 mmio_dst + 8)) (dest_address desc);
        CallWriteMMIO64 accel_handle 0 (u32 (u32 (u32 mmio_dst + 8) + 8)) (len desc);
        CallWriteMMIO64 accel_handle 0 (u32 (u32 (u32 (u32 mmio_dst + 8) + 8) + 8))
                        (control desc) ].
Proof.
  intros Hal. unfold send_descriptor, call_.
  rewrite bind_assert_true by (apply Z.eqb_eq; exact Hal).
  unfold bind, fpgaWriteMMIO64, printf. cbv beta.
  repeat match goal with
         | |- context [opae_WriteMMIO64 P ?a ?n ?o ?v ?d ?b] =>
           destruct (opae_WriteMMIO64 P a n o v d b) as [[? ?] ?]; cbn
         end.
  eexists. split; [reflexivity|]. cbn. rewrite <- !app_assoc. reflexivity.
Qed.


Lemma u64_8_mod_8 (x : Z) : u64 (8 * x) mod 8 = 0.
Proof.
  unfold u64. change (2 ^ 64) with (8 * 2 ^ 61).
  rewrite Z.mul_mod_distr_l by lia.
  rewrite Z.mul_comm. apply Z.mod_mul. lia.
Qed.

(** With aligned addresses [dma_transfer] writes the descriptor twice
    and goes on to wait for the engine. *)
Lemma dma_transfer_aligned {R} fuel accel_handle mode dev_src dev_dest len verbose (w : world D) :
  dev_src mod 64 = 0 -> dev_dest mod 64 = 0 ->
  exists w',
    calls w' = calls w ++ submitted h accel_handle (built_descriptor h mode dev_src dev_dest len)
                       ++ submitted h accel_handle (built_descriptor h mode dev_src dev_dest len) /\
    dma_transfer (R := R) P h USE_ASE fuel accel_handle mode dev_src dev_dest len verbose w
    = call_ (await_idle P h USE_ASE fuel accel_handle verbose) w'.
Proof.
  intros Hs Hd. unfold dma_transfer, call_ at 1.
  rewrite bind_assert_true by (apply Z.eqb_eq; exact Hs).
  rewrite bind_assert_true by (apply Z.eqb_eq; exact Hd).
  cbv zeta. fold (built_descriptor h mode dev_src dev_dest len).
  set (desc := built_descriptor h mode dev_src dev_dest len).
  assert (Hv : exists w1, calls w1 = calls w /\
               forall A (k : unit -> M D unit A),
                 bind (when_ verbose
                         (printf "\nDescriptor size   = %d\n" ;;
                          printf "desc.src_address  = %04lX\n" ;;
                          printf "desc.dest_address = %04lX\n" ;;
                          printf "desc.len          = %d\n" ;;
                          printf "desc.control      = %04X\n")) k w = k tt w1).
  { destruct verbose; eexists; (split; [|intros; reflexivity]); reflexivity. }
  destruct Hv as (w1 & Hc1 & ->).
  unfold for_. change (Z.to_nat 2) with 2%nat. cbn [for_from].
  destruct (send_descriptor_Next (R := unit) accel_handle (u64 (8 * DMA_CSR_IDX_SRC_ADDR h)) desc w1
              (u64_8_mod_8 _)) as (w2 & Hw2 & Hc2).
  destruct (send_descriptor_Next (R := unit) accel_handle (u64 (8 * DMA_CSR_IDX_SRC_ADDR h)) desc w2
              (u64_8_mod_8 _)) as (w3 & Hw3 & Hc3).
  exists w3. split.
  - rewrite Hc3, Hc2, Hc1, <- app_assoc. reflexivity.
  - unfold bind at 1. unfold bind at 1. rewrite Hw2.
    unfold bind at 1. rewrite Hw3. unfold ret at 1. cbv beta iota.
    reflexivity.
Qed.

End Submission.

Lemma u32_small (x : Z) : 0 <= x < 2 ^ 32 -> u32 x = x.
Proof. intros H. unfold u32. apply Z.mod_small. exact H. Qed.

Lemma u32_lor (a b : Z) : u32 (Z.lor a b) = Z.lor (u32 a) (u32 b).
Proof.
  unfold u32. rewrite <- !Z.land_ones by lia. apply Z.land_lor_distr_l.
Qed.

Lemma submitted_as_documented (h : dma_h) accel_handle mode dev_src dev_dest lines :
  0 <= DMA_CSR_IDX_SRC_ADDR h ->
  8 * DMA_CSR_IDX_SRC_ADDR h + 24 < 2 ^ 32 ->
  0 <= Z.shiftl (e_dma_mode_value h mode) (MODE_SHIFT h) < 2 ^ 32 ->
  0 <= lines < 2 ^ 32 ->
  submitted h accel_handle (built_descriptor h mode dev_src dev_dest lines)
  = documented_submission h accel_handle mode dev_src dev_dest lines.
Proof.
  intros H0 H1 Hm Hl. unfold submitted, built_descriptor, documented_submission.
  cbn [src_address dest_address len control].
  assert (Hb : u64 (8 * DMA_CSR_IDX_SRC_ADDR h) = 8 * DMA_CSR_IDX_SRC_ADDR h).
  { unfold u64. apply Z.mod_small. lia. }
  rewrite Hb.
  rewrite (u32_small (8 * DMA_CSR_IDX_SRC_ADDR h)) by lia.
  rewrite (u32_small (8 * DMA_CSR_IDX_SRC_ADDR h + 8)) by lia.
  rewrite (u32_small (8 * DMA_CSR_IDX_SRC_ADDR h + 8 + 8)) by lia.
  rewrite (u32_small (8 * DMA_CSR_IDX_SRC_ADDR h + 8 + 8 + 8)) by lia.
  rewrite (u32_small lines) by exact Hl.
  rewrite u32_lor, (u32_small 0x80000000) by lia.
  rewrite (u32_small (Z.shiftl _ _)) by exact Hm.
  replace (8 * DMA_CSR_IDX_SRC_ADDR h + 8 + 8) with (8 * DMA_CSR_IDX_SRC_ADDR h + 16) by lia.
  replace (8 * DMA_CSR_IDX_SRC_ADDR h + 16 + 8) with (8 * DMA_CSR_IDX_SRC_ADDR h + 24) by lia.
  reflexivity.
Qed.

(** C7.  A descriptor whose source or destination address is not a
    multiple of 64 makes [dma_transfer] stop at one of its two alignment
    assertions with the state untouched, hence before any register write.
    With both addresses aligned neither alignment assertion fires: the
    only assertion that can still stop the transfer is the check of a
    register read, and none fires on a platform whose register reads
    succeed. *)
Theorem dma_transfer_alignment_assertions
        {D} (P : platform D) (h : dma_h) (USE_ASE : bool) {R}
        fuel accel_handle mode dev_src dev_dest len verbose (w : world D) :
  ((dev_src mod 64 <> 0 \/ dev_dest mod 64 <> 0) ->
   exists e,
     (e = "dev_src % 64 == 0" \/ e = "dev_dest % 64 == 0") /\
     dma_transfer (R := R) P h USE_ASE fuel accel_handle mode dev_src dev_dest len verbose w
     = AssertFail e w) /\
  (dev_src mod 64 = 0 -> dev_dest mod 64 = 0 ->
   (forall e w',
       dma_transfer (R := R) P h USE_ASE fuel accel_handle mode dev_src dev_dest len verbose w
       = AssertFail e w' -> e = "FPGA_OK == r") /\
   ((forall handle n off d b,
        is_FPGA_OK (fst (fst (fst (opae_ReadMMIO64 P handle n off d b)))) = true) ->
    forall e w',
      dma_transfer (R := R) P h USE_ASE fuel accel_handle mode dev_src dev_dest len verbose w
      <> AssertFail e w')).
Proof.
  split.
  - intros Hmis. unfold dma_transfer, call_, bind, assert_.
    destruct (dev_src mod 64 =? 0) eqn:Es.
    + destruct (dev_dest mod 64 =? 0) eqn:Ed.
      * apply Z.eqb_eq in Es, Ed. destruct Hmis; contradiction.
      * exists "dev_dest % 64 == 0". split; [right|]; reflexivity.
    + exists "dev_src % 64 == 0". split; [left|]; reflexivity.
  - intros Hs Hd.
    destruct (dma_transfer_aligned P h USE_ASE (R := R) fuel accel_handle mode
                dev_src dev_dest len verbose w Hs Hd) as (w1 & _ & ->).
    split.
    + intros e w' H.
      assert (T : tame (fun e => e = "FPGA_OK == r")
                       (@call_ D unit R (await_idle P h USE_ASE fuel accel_handle verbose))).
      { apply tame_call. unfold await_idle.
        apply tame_bind; [apply tame_mmio_read64_silent; intros; reflexivity|]. intros v.
        apply tame_bind; [apply tame_poll_status; intros; reflexivity|]. intros _.
        apply tame_printf. }
      exact (proj2 (T w1) e w' H).
    + intros Hok e w' H.
      assert (T : tame (fun _ => False)
                       (@call_ D unit R (await_idle P h USE_ASE fuel accel_handle verbose))).
      { assert (Hc : forall handle n off d b,
                   is_FPGA_OK (fst (fst (fst (opae_ReadMMIO64 P handle n off d b)))) = false ->
                   False).
        { intros handle n off d b Hf. rewrite Hok in Hf. discriminate. }
        apply tame_call. unfold await_idle.
        apply tame_bind; [apply (tame_mmio_read64_silent P _ Hc)|]. intros v.
        apply tame_bind; [apply (tame_poll_status P _ Hc)|]. intros _.
        apply tame_printf. }
      exact (proj2 (T w1) e w' H).
Qed.

(** C8.  With aligned addresses, and header constants and a length that
    are in the range of their C types and fit their 32-bit fields, the calls [dma_transfer] makes are exactly
    two submissions of the same descriptor followed by the polling, which
    only reads registers.  One submission writes, at the offsets
    [8 * DMA_CSR_IDX_SRC_ADDR], [+ 8], [+ 16] and [+ 24], the source
    address masked to 32 bits, the destination address masked to 32 bits,
    the length in lines and [0x80000000 | (mode << MODE_SHIFT)]. *)
Theorem dma_transfer_submits_descriptor_twice
        {D} (P : platform D) (h : dma_h) (USE_ASE : bool) {R}
        fuel accel_handle mode dev_src dev_dest len verbose (w : world D) :
  dev_src mod 64 = 0 -> dev_dest mod 64 = 0 ->
  0 <= DMA_CSR_IDX_SRC_ADDR h ->
  8 * DMA_CSR_IDX_SRC_ADDR h + 24 < 2 ^ 32 ->
  0 <= MODE_SHIFT h < 32 ->
  0 <= e_dma_mode_value h mode ->
  Z.shiftl (e_dma_mode_value h mode) (MODE_SHIFT h) < 2 ^ 32 ->
  0 <= len < 2 ^ 31 ->
  exists polling,
    calls (final_world
             (dma_transfer (R := R) P h USE_ASE fuel accel_handle mode dev_src dev_dest len
                           verbose w))
    = calls w
      ++ documented_submission h accel_handle mode dev_src dev_dest len
      ++ documented_submission h accel_handle mode dev_src dev_dest len
      ++ polling /\
    polling <> [] /\
    only_reads polling.
Proof.
  intros Hs Hd H0 H1 Hsh Hv Hm Hl.
  destruct (dma_transfer_aligned P h USE_ASE (R := R) fuel accel_handle mode
              dev_src dev_dest len verbose w Hs Hd) as (w1 & Hc & ->).
  rewrite submitted_as_documented in Hc;
    [ | assumption | assumption | | lia ].
  2:{ split; [apply Z.shiftl_nonneg; exact Hv | exact Hm]. }
  rewrite final_world_call. unfold await_idle, mmio_read64_silent.
  assert (T : forall v, tame (fun _ => True)
                (poll_status (R := unit) P h USE_ASE fuel accel_handle verbose
                             (u64 (8 * DMA_CSR_IDX_STATUS h)) v ;;
                 printf "\nApparent Transfer Bandwidth: %4.5fGB/s")).
  { intros v. apply tame_bind; [apply tame_poll_status; intros; exact I|].
    intros _. apply tame_printf. }
  unfold bind at 1. unfold call_ at 1. unfold bind at 1. unfold fpgaReadMMIO64.
  destruct (opae_ReadMMIO64 P accel_handle 0 (u64 (8 * DMA_CSR_IDX_STATUS h))
                            (device w1) (dma_buf w1)) as [[[r v] d] b].
  set (rd := CallReadMMIO64 accel_handle 0 (u64 (8 * DMA_CSR_IDX_STATUS h))).
  unfold bind at 1. unfold assert_.
  destruct (is_FPGA_OK r).
  - unfold ret. cbv beta iota.
    destruct (T (u64 v) (log_call rd d b w1)) as [(t & Ht & Hr) _].
    exists (rd :: t). rewrite Ht. cbn [calls log_call]. rewrite Hc, <- !app_assoc.
    split; [reflexivity|]. split; [discriminate | exact Hr].
  - exists [rd]. cbn [final_world calls log_call]. rewrite Hc, <- !app_assoc.
    split; [reflexivity|]. split; [discriminate | reflexivity].
Qed.

(** ** Bandwidth measurement *)


Section Bandwidth.

Context {D : Type}.
Variable P : platform D.
Variable h : dma_h.


Lemma get_bandwidth_read_fails {R} mode (w : world D) e w1 :
  readMMIO64 P (R := double) (DMA_CSR_IDX_RD_SRC_PERF_CNTR h) w = AssertFail e w1 ->
  get_bandwidth P h (R := R) mode w = AssertFail e w1.
Proof.
  intros H. unfold get_bandwidth, call_, bind. rewrite H. reflexivity.
Qed.

Lemma get_bandwidth_read_low {R} mode (w : world D) rd w1 :
  readMMIO64 P (R := double) (DMA_CSR_IDX_RD_SRC_PERF_CNTR h) w = Next rd w1 ->
  Double.ltb (sample_bandwidth h rd) (MIN_TRPT_GBPS h) = true ->
  get_bandwidth P h (R := R) mode w
  = Next (Double.of_Z (-1)) (print_line bandwidth_error_message (read_reported h mode w1)).
Proof.
  intros H Hlt. unfold get_bandwidth, call_. rewrite (bind_Next _ _ _ _ _ H). cbv zeta.
  fold (sample_bandwidth h rd). rewrite Hlt.
  unfold read_reported. destruct (e_dma_mode_value h mode =? e_dma_mode_value h ddr_to_host); reflexivity.
Qed.


Lemma get_bandwidth_write_low {R} mode (w : world D) rd w1 wr w2 :
  readMMIO64 P (R := double) (DMA_CSR_IDX_RD_SRC_PERF_CNTR h) w = Next rd w1 ->
  Double.ltb (sample_bandwidth h rd) (MIN_TRPT_GBPS h) = false ->
  readMMIO64 P (R := double) (DMA_CSR_IDX_WR_DEST_PERF_CNTR h) (read_reported h mode w1)
  = Next wr w2 ->
  Double.ltb (sample_bandwidth h wr) (MIN_TRPT_GBPS h) = true ->
  get_bandwidth P h (R := R) mode w
  = Next (Double.of_Z (-1)) (print_line bandwidth_error_message (write_reported h mode w2)).
Proof.
  intros H Hlt H2 Hlt2. unfold get_bandwidth, call_. rewrite (bind_Next _ _ _ _ _ H). cbv zeta.
  fold (sample_bandwidth h rd). rewrite Hlt.
  unfold read_reported in H2. unfold write_reported.
  destruct (e_dma_mode_value h mode =? e_dma_mode_value h ddr_to_host);
    unfold bind, printf, when_, ret; rewrite H2; cbv zeta;
    fold (sample_bandwidth h wr); rewrite Hlt2; reflexivity.
Qed.

Lemma get_bandwidth_average {R} mode (w : world D) rd w1 wr w2 :
  readMMIO64 P (R := double) (DMA_CSR_IDX_RD_SRC_PERF_CNTR h) w = Next rd w1 ->
  Double.ltb (sample_bandwidth h rd) (MIN_TRPT_GBPS h) = false ->
  readMMIO64 P (R := double) (DMA_CSR_IDX_WR_DEST_PERF_CNTR h) (read_reported h mode w1)
  = Next wr w2 ->
  Double.ltb (sample_bandwidth h wr) (MIN_TRPT_GBPS h) = false ->
  get_bandwidth P h (R := R) mode w = Next (average_bw h rd wr) (write_reported h mode w2).
Proof.
  intros H Hlt H2 Hlt2. unfold get_bandwidth, call_. rewrite (bind_Next _ _ _ _ _ H). cbv zeta.
  fold (sample_bandwidth h rd). rewrite Hlt.
  unfold read_reported in H2. unfold write_reported, average_bw.
  destruct (e_dma_mode_value h mode =? e_dma_mode_value h ddr_to_host);
    unfold bind, printf, when_, ret; rewrite H2; cbv zeta;
    fold (sample_bandwidth h wr); rewrite Hlt2; reflexivity.
Qed.

End Bandwidth.

(** ** The round-trip test *)

Lemma memcmp_from_zero (a b : bytes) (n : nat) (off : Z) :
  memcmp_from a b off n = 0 <-> count_mismatches_from a b off n = 0.
Proof.
  revert off. induction n as [|n IH]; intros off; simpl.
  - tauto.
  - assert (Hnn : forall k o, 0 <= count_mismatches_from a b o k).
    { induction k as [|k IHk]; intros o; simpl; [lia|].
      specialize (IHk (o + 1)). destruct (a o =? b o); lia. }
    specialize (Hnn n (off + 1)).
    destruct (a off =? b off) eqn:Eab.
    + rewrite IH. lia.
    + apply Z.eqb_neq in Eab. lia.
Qed.

Lemma memcmp_zero (a b : bytes) (n : Z) :
  (memcmp a b n =? 0) = (count_mismatches a b n =? 0).
Proof.
  unfold memcmp, count_mismatches.
  pose proof (memcmp_from_zero a b (Z.to_nat n) 0) as H.
  destruct (memcmp_from a b 0 (Z.to_nat n) =? 0) eqn:E1;
    destruct (count_mismatches_from a b 0 (Z.to_nat n) =? 0) eqn:E2; try reflexivity.
  - apply Z.eqb_eq in E1. apply Z.eqb_neq in E2. tauto.
  - apply Z.eqb_neq in E1. apply Z.eqb_eq in E2. tauto.
Qed.

Lemma u32_multiple_of_64 (x : Z) : Z.rem x 64 = 0 -> u32 x = 8 * (u32 x / 8).
Proof.
  intros H. apply Z.rem_divide in H; [|lia]. destruct H as [k ->].
  unfold u32. change (2 ^ 32) with (2 ^ 26 * 64).
  rewrite Z.mul_mod_distr_r by lia.
  replace (k mod 2 ^ 26 * 64) with ((k mod 2 ^ 26 * 8) * 8) by lia.
  rewrite Z.div_mul by lia. lia.
Qed.

Section RoundTrip.

Context {D : Type}.
Variable P : platform D.
Variable h : dma_h.
Variable USE_ASE : bool.

Lemma release_buf_Return {A} accel_handle wsid n (w : world D) :
  exists w', release_buf P (A := A) accel_handle wsid n w = Return n w' /\
             calls w' = calls w ++ [CallReleaseBuffer accel_handle wsid] /\
             dma_buf w' = dma_buf w /\ s_error_count w' = s_error_count w.
Proof.
  unfold release_buf, bind, fpgaReleaseBuffer, return_.
  destruct (opae_ReleaseBuffer P accel_handle wsid (device w)) as [r d].
  eexists. split; [reflexivity|]. repeat split.
Qed.

Lemma ON_ERR_GOTO_release_Next accel_handle wsid n res desc (w w' : world D) u :
  ON_ERR_GOTO res (release_buf P accel_handle wsid n) desc w = Next u w' ->
  is_FPGA_OK res = true /\ w' = w.
Proof.
  unfold ON_ERR_GOTO. destruct (is_FPGA_OK res); simpl.
  - unfold ret. intros H. inversion H. split; reflexivity.
  - unfold bind, print_err, fprintf_stderr, printf, incr_s_error_count.
    cbn [s_error_count print_line].
    destruct (s_error_count w <? INT_MAX); [|discriminate].
    match goal with
    | |- context [release_buf P accel_handle wsid n ?w0] =>
      destruct (release_buf_Return (A := unit) accel_handle wsid n w0) as (w1 & -> & _)
    end.
    discriminate.
Qed.

(** A fill loop that runs to its end stayed inside the buffer. *)
Lemma fill_from_Next {R} (count : nat) (i : Z) (w w' : world D) :
  for_from (R := R) i count (fun i => store_dma_buf i (u64 i)) w = Next tt w' ->
  forall j, i <= j < i + Z.of_nat count -> 0 <= j /\ 8 * j + 8 <= DMA_BUFFER_SIZE.
Proof.
  revert i w. induction count as [|count IH]; intros i w H j Hj.
  - simpl in Hj. lia.
  - cbn [for_from] in H. apply bind_Next_inv in H. destruct H as (u & w1 & Hs & Hrest).
    destruct (Z.eq_dec j i) as [->|Hne].
    + unfold store_dma_buf in Hs.
      destruct ((0 <=? i) && (8 * i + 8 <=? DMA_BUFFER_SIZE)) eqn:Eb; [|discriminate].
      apply andb_true_iff in Eb. destruct Eb as [E1 E2].
      apply Z.leb_le in E1, E2. lia.
    + apply (IH (i + 1) w1 Hrest). lia.
Qed.

Lemma fill_Next_size {R} (n : Z) (w w' : world D) :
  for_ (R := R) n (fun i => store_dma_buf i (u64 i)) w = Next tt w' ->
  0 <= n -> 8 * n <= DMA_BUFFER_SIZE.
Proof.
  intros H Hn. unfold for_ in H.
  destruct (Z.eq_dec n 0) as [->|Hne]; [unfold DMA_BUFFER_SIZE; lia|].
  pose proof (fill_from_Next _ _ _ _ H (n - 1)) as Hb.
  rewrite Z2Nat.id in Hb by lia. lia.
Qed.

(** The fill loop stays inside the buffer exactly when the words fit; it
    makes no call. *)
Lemma fill_from_in_bounds {R} (count : nat) (i : Z) (w : world D) :
  0 <= i -> 8 * (i + Z.of_nat count) <= DMA_BUFFER_SIZE ->
  exists w',
    for_from (R := R) i count (fun i => store_dma_buf i (u64 i)) w = Next tt w' /\
    calls w' = calls w /\ device w' = device w.
Proof.
  revert i w. induction count as [|count IH]; intros i w Hi Hb.
  - exists w. repeat split.
  - cbn [for_from]. unfold bind at 1, store_dma_buf at 1.
    replace ((0 <=? i) && (8 * i + 8 <=? DMA_BUFFER_SIZE)) with true
      by (symmetry; apply andb_true_iff; split; apply Z.leb_le; lia).
    unfold set_dma_buf at 1.
    match goal with
    | |- context [for_from (i + 1) count ?body ?w0] =>
      destruct (IH (i + 1) w0) as (w' & Hw' & Hc & Hd); [lia | lia |]
    end.
    exists w'. split; [exact Hw' | split; [exact Hc | exact Hd]].
Qed.

Lemma fill_from_overruns {R} (count : nat) (i : Z) (w : world D) :
  0 <= i -> 8 * i <= DMA_BUFFER_SIZE -> DMA_BUFFER_SIZE < 8 * (i + Z.of_nat count) ->
  exists w',
    for_from (R := R) i count (fun i => store_dma_buf i (u64 i)) w
    = Undefined "dma_buf_ptr[i]" w' /\
    calls w' = calls w.
Proof.
  revert i w. induction count as [|count IH]; intros i w Hi Hlo Hb.
  - exfalso. change (Z.of_nat 0) with 0 in Hb. lia.
  - cbn [for_from]. unfold bind at 1, store_dma_buf at 1.
    destruct ((0 <=? i) && (8 * i + 8 <=? DMA_BUFFER_SIZE)) eqn:Eb.
    + apply andb_true_iff in Eb. destruct Eb as [_ Eb]. apply Z.leb_le in Eb.
      unfold set_dma_buf at 1.
      match goal with
      | |- context [for_from (i + 1) count ?body ?w0] =>
        destruct (IH (i + 1) w0) as (w' & Hw' & Hc); [lia | lia | lia |]
      end.
      exists w'. split; [exact Hw' | exact Hc].
    + exists w. split; reflexivity.
Qed.

(** The fill loop of line 333 is safe for [n] words if and only if they
    fit into [DMA_BUFFER_SIZE] bytes. *)
Lemma fill_safe_iff {R} (n : Z) (w : world D) :
  0 <= n ->
  (8 * n <= DMA_BUFFER_SIZE ->
   exists w', for_ (R := R) n (fun i => store_dma_buf i (u64 i)) w = Next tt w' /\
              calls w' = calls w) /\
  (DMA_BUFFER_SIZE < 8 * n ->
   exists w', for_ (R := R) n (fun i => store_dma_buf i (u64 i)) w
              = Undefined "dma_buf_ptr[i]" w' /\
              calls w' = calls w).
Proof.
  intros Hn. unfold for_. split; intros Hb.
  - destruct (fill_from_in_bounds (R := R) (Z.to_nat n) 0 w) as (w' & Hw' & Hc & _);
      [lia | rewrite Z2Nat.id by lia; lia |].
    exists w'. split; assumption.
  - apply fill_from_overruns; [lia | unfold DMA_BUFFER_SIZE; lia |].
    rewrite Z2Nat.id by lia. lia.
Qed.

(** What is known at line 351. *)
Lemma transfers_Next fuel accel_handle transfer_size verbose test_buffer_size_0
      (w : world D) l w1 :
  run_basic_ddr_dma_test_transfers P h USE_ASE fuel accel_handle transfer_size verbose
                                   test_buffer_size_0 w = Next l w1 ->
  num_errors l = 0 /\
  test_buffer_size l = u32 transfer_size /\
  expected_result l = ascending_words (fun _ => 0) (u32 transfer_size / 8) /\
  Z.rem transfer_size 64 = 0 /\
  u32 transfer_size <= DMA_BUFFER_SIZE.
Proof.
  unfold run_basic_ddr_dma_test_transfers. cbv zeta. intros H.
  apply bind_Next_inv in H. destruct H as (u1 & w2 & H1 & H).
  apply assert_Next_inv in H1. destruct H1 as [Hrem _]. apply Z.eqb_eq in Hrem.
  do 5 (apply bind_Next_inv in H; destruct H as (? & ? & _ & H)).
  apply bind_Next_inv in H. destruct H as ([res wsid] & w3 & _ & H).
  apply bind_Next_inv in H. destruct H as (? & ? & _ & H).
  apply bind_Next_inv in H. destruct H as (? & ? & _ & H).
  apply bind_Next_inv in H. destruct H as ([res' iova] & w4 & _ & H).
  apply bind_Next_inv in H. destruct H as (? & ? & _ & H).
  apply bind_Next_inv in H. destruct H as ([] & w5 & Hfill & H).
  do 5 (apply bind_Next_inv in H; destruct H as (? & ? & _ & H)).
  unfold ret in H. inversion H; subst l. cbn.
  assert (Hsz : 8 * (u32 transfer_size / 8) <= DMA_BUFFER_SIZE).
  { apply (fill_Next_size _ _ _ Hfill). apply Z.div_pos; [|lia].
    unfold u32. apply Z.mod_pos_bound. lia. }
  rewrite <- (u32_multiple_of_64 _ Hrem) in Hsz.
  repeat split; assumption.
Qed.

(** Line 351 onwards, when a bandwidth is the sentinel. *)
Lemma verdict_sentinel accel_handle l (w : world D) :
  Double.eqb (a2h_bw l) (Double.of_Z (-1)) || Double.eqb (h2a_bw l) (Double.of_Z (-1)) = true ->
  run_basic_ddr_dma_test_verdict P accel_handle l w
  = Return (-1) (print_line "Error: Minimum bandwidth requirement violation detected.\n" w).
Proof.
  intros H. unfold run_basic_ddr_dma_test_verdict. rewrite H. reflexivity.
Qed.

(** Line 356 onwards. *)
Lemma verdict_compare accel_handle l (w : world D) :
  Double.eqb (a2h_bw l) (Double.of_Z (-1)) || Double.eqb (h2a_bw l) (Double.of_Z (-1)) = false ->
  0 <= test_buffer_size l <= DMA_BUFFER_SIZE ->
  exists w',
    run_basic_ddr_dma_test_verdict P accel_handle l w
    = Return (if count_mismatches (dma_buf w) (expected_result l) (test_buffer_size l) =? 0
              then num_errors l else num_errors l + 1) w' /\
    dma_buf w' = dma_buf w /\
    calls w' = calls w ++ [CallReleaseBuffer accel_handle (dma_buf_wsid l)].
Proof.
  intros H Hsz. unfold run_basic_ddr_dma_test_verdict. rewrite H.
  unfold when_, bind at 1, ret at 1. unfold bind at 1, memcmp_dma_buf.
  replace ((0 <=? test_buffer_size l) && (test_buffer_size l <=? DMA_BUFFER_SIZE)) with true
    by (symmetry; apply andb_true_iff; split; apply Z.leb_le; lia).
  rewrite memcmp_zero.
  destruct (count_mismatches (dma_buf w) (expected_result l) (test_buffer_size l) =? 0);
    cbn [negb]; unfold bind, printf, ret;
    match goal with
    | |- context [release_buf P accel_handle ?i ?n ?w0] =>
      destruct (release_buf_Return (A := Z) accel_handle i n w0) as (w1 & -> & Hc & Hb & _)
    end;
    exists w1; (split; [reflexivity|]); split; assumption.
Qed.

(** The first lines of the test, up to the allocation of the buffer. *)
Ltac run_prologue Hrem Hcap :=
  unfold run_basic_ddr_dma_test, call_, run_basic_ddr_dma_test_transfers; cbv zeta;
  unfold bind at 1; rewrite bind_assert_true by (apply Z.eqb_eq; exact Hrem);
  unfold bind at 1, get_s_is_ase_sim at 1; unfold bind at 1;
  match goal with
  | |- context [(if s_is_ase_sim ?w then ?a else ?b) ?w] =>
    replace ((if s_is_ase_sim w then a else b) w) with (@Next D Z unit tt w)
      by (unfold assert_; destruct (s_is_ase_sim w);
          rewrite (proj2 (Z.leb_le _ _) Hcap); reflexivity)
  end;
  do 3 (unfold bind at 1, printf at 1);
  unfold bind at 1, fpgaPrepareBuffer at 1; cbn [device print_line].

(** A size that is not a multiple of 64 is turned down before anything
    else happens, and so is, in simulation mode, a size above the cap. *)
Lemma run_rejects_bad_size {R} fuel accel_handle transfer_size verbose test_buffer_size_0
      (w : world D) :
  (Z.rem transfer_size 64 <> 0 ->
   run_basic_ddr_dma_test P h USE_ASE (R := R) fuel accel_handle transfer_size verbose
                          test_buffer_size_0 w
   = AssertFail "transfer_size%64==0" w) /\
  (Z.rem transfer_size 64 = 0 -> s_is_ase_sim w = true ->
   TEST_BUFFER_SIZE_ASE < transfer_size ->
   run_basic_ddr_dma_test P h USE_ASE (R := R) fuel accel_handle transfer_size verbose
                          test_buffer_size_0 w
   = AssertFail "transfer_size <= TEST_BUFFER_SIZE_ASE" w).
Proof.
  split.
  - intros Hrem. apply Z.eqb_neq in Hrem.
    unfold run_basic_ddr_dma_test, call_, run_basic_ddr_dma_test_transfers. cbv zeta.
    unfold bind, assert_. rewrite Hrem. reflexivity.
  - intros Hrem Hase Hbig.
    unfold run_basic_ddr_dma_test, call_, run_basic_ddr_dma_test_transfers. cbv zeta.
    unfold bind at 1. rewrite bind_assert_true by (apply Z.eqb_eq; exact Hrem).
    unfold bind, get_s_is_ase_sim, assert_. rewrite Hase.
    replace (transfer_size <=? TEST_BUFFER_SIZE_ASE) with false
      by (symmetry; apply Z.leb_gt; exact Hbig).
    reflexivity.
Qed.

(** When the allocation fails the test counts the error, calls the release
    and returns 0. *)
Lemma run_allocation_fails {R} fuel accel_handle transfer_size verbose test_buffer_size_0
      (w : world D) res wsid b d1 :
  Z.rem transfer_size 64 = 0 ->
  (if s_is_ase_sim w then transfer_size <= TEST_BUFFER_SIZE_ASE
   else test_buffer_size_0 <= TEST_BUFFER_SIZE_HW) ->
  s_error_count w < INT_MAX ->
  opae_PrepareBuffer P accel_handle DMA_BUFFER_SIZE 0 (device w) = (res, wsid, b, d1) ->
  is_FPGA_OK res = false ->
  exists w',
    run_basic_ddr_dma_test P h USE_ASE (R := R) fuel accel_handle transfer_size verbose
                           test_buffer_size_0 w
    = Next 0 w' /\
    s_error_count w' = s_error_count w + 1 /\
    calls w' = calls w ++ [CallPrepareBuffer accel_handle DMA_BUFFER_SIZE 0;
                           CallReleaseBuffer accel_handle (u64 wsid)].
Proof.
  intros Hrem Hcap Herr Hprep Hres.
  run_prologue Hrem Hcap. rewrite Hprep. rewrite Hres.
  unfold bind at 1, ON_ERR_GOTO at 1. rewrite Hres. cbn [negb].
  unfold bind at 1, print_err at 1, fprintf_stderr at 1, printf at 1.
  unfold bind at 1, incr_s_error_count at 1.
  cbn [s_error_count print_line log_call]. rewrite (proj2 (Z.ltb_lt _ _) Herr).
  match goal with
  | |- context [release_buf P accel_handle ?i ?n ?w0] =>
    destruct (release_buf_Return (A := unit) accel_handle i n w0) as (w' & -> & Hc & _ & He)
  end.
  exists w'. split; [reflexivity|]. split.
  - rewrite He. reflexivity.
  - rewrite Hc. cbn [calls print_line log_call]. rewrite <- app_assoc. reflexivity.
Qed.

(** A size above [DMA_BUFFER_SIZE] that passes the checks takes the fill
    loop of line 333 out of the buffer. *)
Lemma run_overruns_buffer {R} fuel accel_handle transfer_size verbose test_buffer_size_0
      (w : world D) wsid b d1 iova d2 :
  Z.rem transfer_size 64 = 0 ->
  (if s_is_ase_sim w then transfer_size <= TEST_BUFFER_SIZE_ASE
   else test_buffer_size_0 <= TEST_BUFFER_SIZE_HW) ->
  opae_PrepareBuffer P accel_handle DMA_BUFFER_SIZE 0 (device w) = (FPGA_OK, wsid, b, d1) ->
  opae_GetIOAddress P accel_handle (u64 wsid) d1 = (FPGA_OK, iova, d2) ->
  DMA_BUFFER_SIZE < u32 transfer_size ->
  exists w',
    run_basic_ddr_dma_test P h USE_ASE (R := R) fuel accel_handle transfer_size verbose
                           test_buffer_size_0 w
    = Undefined "dma_buf_ptr[i]" w' /\
    calls w' = calls w ++ [CallPrepareBuffer accel_handle DMA_BUFFER_SIZE 0;
                           CallGetIOAddress accel_handle (u64 wsid)].
Proof.
  intros Hrem Hcap Hprep Hio Hbig.
  run_prologue Hrem Hcap. rewrite Hprep.
  cbn [is_FPGA_OK]. unfold bind at 1, ON_ERR_GOTO at 1. cbn [is_FPGA_OK negb]. unfold ret at 1.
  unfold bind at 1, memset_dma_buf at 1.
  replace ((0 <=? DMA_BUFFER_SIZE) && (DMA_BUFFER_SIZE <=? DMA_BUFFER_SIZE)) with true
    by reflexivity.
  unfold set_dma_buf at 1.
  unfold bind at 1, fpgaGetIOAddress at 1. cbn [device log_call]. rewrite Hio.
  unfold bind at 1, ON_ERR_GOTO at 1. cbn [is_FPGA_OK negb]. unfold ret at 1.
  unfold bind at 1.
  match goal with
  | |- context [for_ ?n ?body ?w0] =>
    destruct (proj2 (fill_safe_iff (R := Z) n w0
                (Z.div_pos _ 8 (proj1 (Z.mod_pos_bound transfer_size (2 ^ 32) eq_refl)) eq_refl)))
      as (w' & Hfill & Hc)
  end.
  { rewrite <- (u32_multiple_of_64 _ Hrem). exact Hbig. }
  rewrite Hfill. exists w'. split; [reflexivity|].
  rewrite Hc. cbn [calls print_line log_call]. rewrite <- app_assoc. reflexivity.
Qed.

End RoundTrip.

(** C4, as the code has it.  [get_bandwidth] returns the sentinel -1 as
    soon as a bandwidth is below [MIN_TRPT_GBPS]: when the bandwidth
    derived from the read counter is below it, and when that one is not
    but the bandwidth derived from the write counter is.  The test looks
    at the two results only at line 351, after both transfers: when it
    gets there and either result is the sentinel, it returns -1 right
    after its error message, without comparing the buffer. *)
Theorem bandwidth_below_minimum_aborts
        {D} (P : platform D) (h : dma_h) (USE_ASE : bool) {R} :
  (forall mode (w : world D) rd w1,
      readMMIO64 P (R := double) (DMA_CSR_IDX_RD_SRC_PERF_CNTR h) w = Next rd w1 ->
      Double.ltb (sample_bandwidth h rd) (MIN_TRPT_GBPS h) = true ->
      exists w', get_bandwidth P h (R := R) mode w = Next (Double.of_Z (-1)) w') /\
  (forall mode (w : world D) rd w1 wr w2,
      readMMIO64 P (R := double) (DMA_CSR_IDX_RD_SRC_PERF_CNTR h) w = Next rd w1 ->
      Double.ltb (sample_bandwidth h rd) (MIN_TRPT_GBPS h) = false ->
      readMMIO64 P (R := double) (DMA_CSR_IDX_WR_DEST_PERF_CNTR h) (read_reported h mode w1)
      = Next wr w2 ->
      Double.ltb (sample_bandwidth h wr) (MIN_TRPT_GBPS h) = true ->
      exists w', get_bandwidth P h (R := R) mode w = Next (Double.of_Z (-1)) w') /\
  (forall fuel accel_handle transfer_size verbose test_buffer_size_0 (w : world D) l w1,
      run_basic_ddr_dma_test_transfers P h USE_ASE fuel accel_handle transfer_size verbose
                                       test_buffer_size_0 w = Next l w1 ->
      h2a_bw l = Double.of_Z (-1) \/ a2h_bw l = Double.of_Z (-1) ->
      run_basic_ddr_dma_test P h USE_ASE (R := R) fuel accel_handle transfer_size verbose
                             test_buffer_size_0 w
      = Next (-1) (print_line "Error: Minimum bandwidth requirement violation detected.\n" w1)).
Proof.
  split; [|split].
  - intros mode w rd w1 H Hlt. eexists. apply (get_bandwidth_read_low P h mode w rd w1 H Hlt).
  - intros mode w rd w1 wr w2 H Hlt H2 Hlt2. eexists.
    apply (get_bandwidth_write_low P h mode w rd w1 wr w2 H Hlt H2 Hlt2).
  - intros fuel accel_handle transfer_size verbose test_buffer_size_0 w l w1 H Hs.
    unfold run_basic_ddr_dma_test, call_. rewrite (bind_Next _ _ _ _ _ H).
    rewrite verdict_sentinel; [reflexivity|].
    destruct Hs as [-> | ->].
    + apply orb_true_r.
    + reflexivity.
Qed.

(** C1, as the code has it.  When [run_basic_ddr_dma_test] gets to the
    comparison of line 357 (the transfers are done and neither bandwidth
    is the sentinel), it returns 0 if no byte of the host buffer differs
    from the ascending pattern over the requested size and 1 if at least
    one does, however many differ; the buffer it compared is the buffer
    it leaves behind. *)
Theorem run_basic_ddr_dma_test_returns_indicator
        {D} (P : platform D) (h : dma_h) (USE_ASE : bool) {R}
        fuel accel_handle transfer_size verbose test_buffer_size_0 (w : world D) l w1 :
  run_basic_ddr_dma_test_transfers P h USE_ASE fuel accel_handle transfer_size verbose
                                   test_buffer_size_0 w = Next l w1 ->
  Double.eqb (h2a_bw l) (Double.of_Z (-1)) = false ->
  Double.eqb (a2h_bw l) (Double.of_Z (-1)) = false ->
  exists w',
    run_basic_ddr_dma_test P h USE_ASE (R := R) fuel accel_handle transfer_size verbose
                           test_buffer_size_0 w
    = Next (if count_mismatches (dma_buf w1)
                                (ascending_words (fun _ => 0) (u32 transfer_size / 8))
                                (u32 transfer_size) =? 0
            then 0 else 1) w' /\
    dma_buf w' = dma_buf w1.
Proof.
  intros H Hh Ha.
  destruct (transfers_Next P h USE_ASE _ _ _ _ _ _ _ _ H) as (Hn & Ht & He & _ & Hsz).
  assert (Hb : 0 <= test_buffer_size l <= DMA_BUFFER_SIZE).
  { rewrite Ht. split; [|exact Hsz]. unfold u32. apply Z.mod_pos_bound. lia. }
  assert (Hor : Double.eqb (a2h_bw l) (Double.of_Z (-1))
                || Double.eqb (h2a_bw l) (Double.of_Z (-1)) = false).
  { rewrite Hh, Ha. reflexivity. }
  destruct (verdict_compare P accel_handle l w1 Hor Hb) as (w' & Hv & Hbuf & _).
  exists w'. split; [|exact Hbuf].
  unfold run_basic_ddr_dma_test, call_. rewrite (bind_Next _ _ _ _ _ H), Hv.
  rewrite Hn, Ht, He. reflexivity.
Qed.

(** ** A zero total-cycle count *)

Module DoubleFacts.







End DoubleFacts.





(** * The model at work

    The properties above at concrete inputs, and the inputs at which the
    program departs from its documentation. *)


Lemma Next_intro {D R A} (o : outcome D R A) (d : A) :
  is_Next o = true -> o = Next (next_or d o) (final_world o).
Proof. destruct o; try discriminate. reflexivity. Qed.


(** A healthy device passes the test. *)
Example healthy_run_passes :
  result_value (Runs.test 0 128 (Runs.ase Sim.healthy)) = Some 0 /\
  result_value (Runs.test 0 128 (Runs.hw Sim.healthy)) = Some 0.
Proof. split; vm_compute; reflexivity. Qed.

(** C1, counterexample.  With an engine that moves no data the 128-byte
    buffer comes back zeroed and differs from the ascending pattern in
    15 bytes; the test returns 1, not 15. *)
Lemma run_returns_one_for_fifteen_mismatches :
  result_value (Runs.test 0 128 (Runs.ase Runs.engine_off)) = Some 1 /\
  count_mismatches (dma_buf (final_world (Runs.test 0 128 (Runs.ase Runs.engine_off))))
                   (ascending_words (fun _ => 0) (128 / 8)) 128 = 15.
Proof. split; vm_compute; reflexivity. Qed.

(** C2, at the failing input.  When the read bandwidth is below the
    minimum the test returns -1 with the buffer allocated and never
    released. *)
Lemma bandwidth_abort_leaks_buffer :
  let o := Runs.test 0 64 (Runs.ase Runs.slow) in
  result_value o = Some (-1) /\
  existsb is_prepare_buffer (calls (final_world o)) = true /\
  existsb is_release_buffer (calls (final_world o)) = false.
Proof. repeat split; vm_compute; reflexivity. Qed.


(** C5, at the failing inputs.  When the buffer cannot be allocated, or
    its device address cannot be had, the error counter goes up by one
    and the buffer release is called, but the test returns 0, the value
    of a test that passed. *)
Lemma fatal_error_returns_zero :
  let failed := Runs.test 0 64 (Runs.ase Runs.no_memory) in
  let failed' := Runs.test 0 64 (Runs.ase Runs.no_address) in
  let passed := Runs.test 0 64 (Runs.ase Sim.healthy) in
  (result_value failed = Some 0 /\ s_error_count (final_world failed) = 1 /\
   calls (final_world failed) = [CallPrepareBuffer 1 DMA_BUFFER_SIZE 0; CallReleaseBuffer 1 7]) /\
  (result_value failed' = Some 0 /\ s_error_count (final_world failed') = 1 /\
   calls (final_world failed')
   = [CallPrepareBuffer 1 DMA_BUFFER_SIZE 0; CallGetIOAddress 1 7; CallReleaseBuffer 1 7]) /\
  (result_value passed = Some 0 /\ s_error_count (final_world passed) = 0).
Proof. repeat split; vm_compute; reflexivity. Qed.

(** C6, at the failing input.  In hardware mode a request of
    2048 * 1024 + 64 bytes, above [TEST_BUFFER_SIZE_HW], passes line 302
    whenever the unassigned [test_buffer_size] holds a small value (here
    0): the buffer is allocated, and the fill loop then leaves it. *)
Lemma oversize_request_reaches_allocation :
  let o := run_basic_ddr_dma_test Sim.platform Sim.header false (R := Z) 0 1
                                  (2048 * 1024 + 64) false 0 (Runs.hw Sim.healthy) in
  (TEST_BUFFER_SIZE_HW <? 2048 * 1024 + 64) = true /\
  calls (final_world o) = [CallPrepareBuffer 1 DMA_BUFFER_SIZE 0; CallGetIOAddress 1 7] /\
  undefined_at o = Some "dma_buf_ptr[i]".
Proof. repeat split; vm_compute; reflexivity. Qed.

(** C10, at the failing input.  A request of 2048 * 1024 bytes passes the
    checks of lines 297-302, and the fill loop of line 334 writes past
    the end of the buffer of [DMA_BUFFER_SIZE] bytes. *)
Lemma full_size_request_overruns_buffer :
  let o := Runs.test 0 (2048 * 1024) (Runs.ase Sim.healthy) in
  Z.rem (2048 * 1024) 64 = 0 /\
  (2048 * 1024 <=? TEST_BUFFER_SIZE_ASE) = true /\
  undefined_at o = Some "dma_buf_ptr[i]".
Proof. repeat split; vm_compute; reflexivity. Qed.


(** C7 at a source address of 1, and at the aligned address 0x10000 on
    the simulated device, whose register reads succeed. *)
Lemma dma_transfer_alignment_assertions_witness :
  (exists e,
      (e = "dev_src % 64 == 0" \/ e = "dev_dest % 64 == 0") /\
      Witness.transfer 1 = AssertFail e (Runs.ase Sim.healthy)) /\
  (forall e w', Witness.transfer 0x10000 <> AssertFail e w').
Proof.
  split.
  - apply (proj1 (dma_transfer_alignment_assertions
                    Sim.platform Sim.header false (R := Z) 0 1 host_to_ddr 1 0 2 false
                    (Runs.ase Sim.healthy))).
    left. vm_compute. discriminate.
  - apply (proj2 (dma_transfer_alignment_assertions
                    Sim.platform Sim.header false (R := Z) 0 1 host_to_ddr 0x10000 0 2 false
                    (Runs.ase Sim.healthy)));
      [reflexivity | reflexivity | intros; reflexivity].
Defined.

(** C8 for a two-line transfer from 0x10000 with the simulated header. *)
Lemma dma_transfer_submits_descriptor_twice_witness :
  exists polling,
    calls (final_world (Witness.transfer 0x10000))
    = calls (Runs.ase Sim.healthy)
      ++ documented_submission Sim.header 1 host_to_ddr 0x10000 0 2
      ++ documented_submission Sim.header 1 host_to_ddr 0x10000 0 2
      ++ polling /\
    polling <> [] /\
    only_reads polling.
Proof.
  apply (dma_transfer_submits_descriptor_twice
           Sim.platform Sim.header false (R := Z) 0 1 host_to_ddr 0x10000 0 2 false
           (Runs.ase Sim.healthy)).
  - reflexivity.
  - reflexivity.
  - vm_compute. discriminate.
  - reflexivity.
  - vm_compute. split; [discriminate | reflexivity].
  - vm_compute. discriminate.
  - reflexivity.
  - vm_compute. split; [discriminate | reflexivity].
Defined.

(** C4 on a device with a slow read side, on one with a slow write
    side, and for a whole test on the former. *)
Lemma bandwidth_below_minimum_aborts_witness :
  (exists w', get_bandwidth Sim.platform Sim.header (R := Z) host_to_ddr (Runs.hw Runs.slow)
              = Next (Double.of_Z (-1)) w') /\
  (exists w', get_bandwidth Sim.platform Sim.header (R := Z) host_to_ddr
                            (Runs.hw Witness.slow_writes)
              = Next (Double.of_Z (-1)) w') /\
  run_basic_ddr_dma_test Sim.platform Sim.header false (R := Z) 0 1 64 false 0
                         (Runs.ase Runs.slow)
  = Next (-1) (print_line "Error: Minimum bandwidth requirement violation detected.\n"
                          (final_world (run_basic_ddr_dma_test_transfers Sim.platform Sim.header false 0 1 64 false 0 (Runs.ase Runs.slow)))).
Proof.
  pose proof (bandwidth_below_minimum_aborts Sim.platform Sim.header false (R := Z))
    as (Hread & Hwrite & Hrun).
  split; [|split].
  - apply (Hread host_to_ddr (Runs.hw Runs.slow) _ _
                 (Next_intro (readMMIO64 Sim.platform (R := double) 17 (Runs.hw Runs.slow)) 0 ltac:(vm_compute; reflexivity))).
    vm_compute. reflexivity.
  - set (o1 := readMMIO64 Sim.platform (R := double) 17 (Runs.hw Witness.slow_writes)).
    set (o2 := readMMIO64 Sim.platform (R := double) 18 (read_reported Sim.header host_to_ddr (final_world o1))).
    apply (Hwrite host_to_ddr (Runs.hw Witness.slow_writes)
                  (next_or 0 o1) (final_world o1) (next_or 0 o2) (final_world o2)
                  (Next_intro o1 0 ltac:(vm_compute; reflexivity))).
    + vm_compute. reflexivity.
    + exact (Next_intro o2 0 ltac:(vm_compute; reflexivity)).
    + vm_compute. reflexivity.
  - apply (Hrun 0%nat 1 64 false 0 (Runs.ase Runs.slow) _ _
                (Next_intro (run_basic_ddr_dma_test_transfers Sim.platform Sim.header false 0 1 64 false 0 (Runs.ase Runs.slow)) Witness.no_locals
                            ltac:(vm_compute; reflexivity))).
    left. vm_compute. reflexivity.
Defined.

(** C1 as amended, for a 128-byte test on a device that moves no data. *)
Lemma run_basic_ddr_dma_test_returns_indicator_witness :
  exists w',
    run_basic_ddr_dma_test Sim.platform Sim.header false (R := Z) 0 1 128 false 0
                           (Runs.ase Runs.engine_off)
    = Next (if count_mismatches
                 (dma_buf (final_world (run_basic_ddr_dma_test_transfers Sim.platform Sim.header false 0 1 128 false 0 (Runs.ase Runs.engine_off))))
                 (ascending_words (fun _ => 0) (u32 128 / 8)) (u32 128) =? 0
            then 0 else 1) w' /\
    dma_buf w' = dma_buf (final_world (run_basic_ddr_dma_test_transfers Sim.platform Sim.header false 0 1 128 false 0 (Runs.ase Runs.engine_off))).
Proof.
  apply (run_basic_ddr_dma_test_returns_indicator
           Sim.platform Sim.header false (R := Z) 0 1 128 false 0 (Runs.ase Runs.engine_off) _ _
           (Next_intro (run_basic_ddr_dma_test_transfers Sim.platform Sim.header false 0 1 128 false 0 (Runs.ase Runs.engine_off)) Witness.no_locals
                       ltac:(vm_compute; reflexivity))).
  - vm_compute. reflexivity.
  - vm_compute. reflexivity.
Defined.



(** * Further properties of the code *)

(** ** [send_descriptor] and [dma_transfer] *)

(** X1.  [send_descriptor] stops at its assertion, before any write, when
    the destination offset is not a multiple of 8.  Otherwise it makes its
    four writes and returns whatever the library reports for them: a
    failed register write goes unnoticed.  The offsets are computed in 32
    bits. *)
Theorem send_descriptor_writes
        {D} (P : platform D) {R} accel_handle mmio_dst desc (w : world D) :
  (mmio_dst mod 8 <> 0 ->
   send_descriptor P (R := R) accel_handle mmio_dst desc w
   = AssertFail "mmio_dst % 8 == 0" w) /\
  (mmio_dst mod 8 = 0 ->
   exists w',
     send_descriptor P (R := R) accel_handle mmio_dst desc w = Next tt w' /\
     calls w' = calls w ++ descriptor_writes accel_handle mmio_dst desc).
Proof.
  split.
  - intros Hmis. apply Z.eqb_neq in Hmis.
    unfold send_descriptor, call_, bind, assert_. rewrite Hmis. reflexivity.
  - intros Hal. apply (send_descriptor_Next P accel_handle mmio_dst desc w Hal).
Qed.

Lemma land_32_high_bits (x k : Z) :
  Z.land (x + 2 ^ 32 * k) 0xFFFFFFFF = Z.land x 0xFFFFFFFF.
Proof.
  change 0xFFFFFFFF with (Z.ones 32). rewrite !Z.land_ones by lia.
  rewrite Z.mul_comm. apply Z.mod_add. lia.
Qed.

Lemma mod_64_high_bits (x k : Z) : (x + 2 ^ 32 * k) mod 64 = x mod 64.
Proof.
  replace (x + 2 ^ 32 * k) with (x + (2 ^ 26 * k) * 64) by lia.
  apply Z.mod_add. lia.
Qed.

(** X2.  Only the low 32 bits of the two addresses count: a transfer
    whose source or destination differs by a multiple of 2^32 is the same
    transfer, assertions included. *)
Theorem dma_transfer_ignores_high_address_bits
        {D} (P : platform D) (h : dma_h) (USE_ASE : bool) {R}
        fuel accel_handle mode dev_src dev_dest len verbose (w : world D) (j k : Z) :
  dma_transfer (R := R) P h USE_ASE fuel accel_handle mode
               (dev_src + 2 ^ 32 * j) (dev_dest + 2 ^ 32 * k) len verbose w
  = dma_transfer (R := R) P h USE_ASE fuel accel_handle mode dev_src dev_dest len verbose w.
Proof.
  unfold dma_transfer. cbv zeta.
  rewrite !land_32_high_bits, !mod_64_high_bits. reflexivity.
Qed.

Lemma confined_of_tame {D R A} (Q : call -> bool) (E : string -> Prop) (m : M D R A) :
  (forall c, is_register_read c = true -> Q c = true) ->
  tame E m -> confined Q m.
Proof.
  intros HQ Hm w. destruct (Hm w) as [(t & Ht & Hr) _].
  exists t. split; [exact Ht|].
  unfold only_reads in Hr. rewrite forallb_forall in Hr. apply forallb_forall.
  intros c Hc. apply HQ, Hr, Hc.
Qed.

Lemma await_idle_tame {D} (P : platform D) (h : dma_h) (USE_ASE : bool) {R}
      fuel accel_handle verbose :
  tame (fun _ => True) (@call_ D unit R (await_idle P h USE_ASE fuel accel_handle verbose)).
Proof.
  apply tame_call. unfold await_idle.
  apply tame_bind; [apply tame_mmio_read64_silent; intros; exact I|]. intros v.
  apply tame_bind; [apply tame_poll_status; intros; exact I|]. intros _.
  apply tame_printf.
Qed.

Lemma u32_range (x : Z) : 0 <= u32 x < 2 ^ 32.
Proof. unfold u32. apply Z.mod_pos_bound. lia. Qed.

Lemma land_32_range (x : Z) : 0 <= Z.land x 0xFFFFFFFF < 2 ^ 32.
Proof.
  change 0xFFFFFFFF with (Z.ones 32). rewrite Z.land_ones by lia.
  apply Z.mod_pos_bound. lia.
Qed.

Lemma land_32_aligned (x : Z) : x mod 64 = 0 -> Z.land x 0xFFFFFFFF mod 64 = 0.
Proof.
  intros H. change 0xFFFFFFFF with (Z.ones 32). rewrite Z.land_ones by lia.
  apply Z.mod_divide in H; [|lia]. destruct H as [q ->].
  change (2 ^ 32) with (2 ^ 26 * 64).
  rewrite Z.mul_mod_distr_r by lia. apply Z.mod_mul. lia.
Qed.

(** X3.  Whatever the header says, the descriptor [dma_transfer] submits
    for aligned addresses is well formed: its four fields fit in 32 bits,
    its two addresses are multiples of 64 and bit 31 of its control word,
    the valid flag, is set.  The calls of the transfer are two
    submissions of that descriptor followed by register reads. *)
Theorem dma_transfer_descriptor_well_formed
        {D} (P : platform D) (h : dma_h) (USE_ASE : bool) {R}
        fuel accel_handle mode dev_src dev_dest lines verbose (w : world D) :
  dev_src mod 64 = 0 -> dev_dest mod 64 = 0 ->
  exists desc polling,
    calls (final_world
             (dma_transfer (R := R) P h USE_ASE fuel accel_handle mode dev_src dev_dest lines
                           verbose w))
    = calls w
      ++ descriptor_writes accel_handle (u64 (8 * DMA_CSR_IDX_SRC_ADDR h)) desc
      ++ descriptor_writes accel_handle (u64 (8 * DMA_CSR_IDX_SRC_ADDR h)) desc
      ++ polling /\
    only_reads polling /\
    (0 <= src_address desc < 2 ^ 32 /\ src_address desc mod 64 = 0) /\
    (0 <= dest_address desc < 2 ^ 32 /\ dest_address desc mod 64 = 0) /\
    0 <= len desc < 2 ^ 32 /\
    (0 <= control desc < 2 ^ 32 /\ Z.testbit (control desc) 31 = true).
Proof.
  intros Hs Hd.
  destruct (dma_transfer_aligned P h USE_ASE (R := R) fuel accel_handle mode
              dev_src dev_dest lines verbose w Hs Hd) as (w1 & Hc & ->).
  destruct (await_idle_tame P h USE_ASE (R := R) fuel accel_handle verbose w1)
    as [(t & Ht & Hr) _].
  exists (built_descriptor h mode dev_src dev_dest lines), t.
  split; [|split; [exact Hr|]].
  - rewrite Ht, Hc, <- !app_assoc. reflexivity.
  - unfold built_descriptor. cbn [src_address dest_address len control].
    repeat split; try apply land_32_range; try apply u32_range;
      try (apply land_32_aligned; assumption).
    unfold u32. rewrite Z.mod_pow2_bits_low by lia.
    rewrite Z.lor_spec. reflexivity.
Qed.

(** ** The sentinel of [get_bandwidth] *)

Lemma binary_round_aux_sign (mx ex : Z) (lx : location) :
  not_negative (binary_round_aux Double.prec Double.emax false mx ex lx) = true.
Proof.
  unfold binary_round_aux.
  destruct (shr_fexp Double.prec Double.emax mx ex lx) as [mrs' e'].
  destruct (shr_fexp Double.prec Double.emax _ e' loc_Exact) as [mrs'' e''].
  destruct (shr_m mrs''); try reflexivity.
  destruct (e'' <=? Double.emax - Double.prec); reflexivity.
Qed.

Lemma not_below_positive (x : double) (m : positive) (e : Z) :
  Double.ltb x (S754_finite false m e) = false ->
  x = S754_nan \/ x = S754_infinity false \/ exists mx ex, x = S754_finite false mx ex.
Proof.
  destruct x as [s | [|] | | [|] mx ex]; cbn; try discriminate; intros _.
  - right. left. reflexivity.
  - left. reflexivity.
  - right. right. exists mx, ex. reflexivity.
Qed.

Lemma add_not_negative (x y : double) (m : positive) (e : Z) :
  Double.ltb x (S754_finite false m e) = false ->
  Double.ltb y (S754_finite false m e) = false ->
  not_negative (Double.add x y) = true.
Proof.
  intros Hx Hy.
  destruct (not_below_positive x m e Hx) as [-> | [-> | (mx & ex & ->)]];
    destruct (not_below_positive y m e Hy) as [-> | [-> | (my & ey & ->)]];
    try reflexivity.
  unfold Double.add, SFadd, binary_normalize, cond_Zopp. cbn [Z.add].
  unfold binary_round.
  destruct (shl_align _ _ _) as [mz ez].
  apply binary_round_aux_sign.
Qed.

Lemma half_not_negative (x : double) :
  not_negative x = true -> not_negative (Double.div x (Double.of_Z 2)) = true.
Proof.
  change (Double.of_Z 2) with (S754_finite false 4503599627370496 (-51)).
  destruct x as [s | [|] | | [|] mx ex]; try discriminate; intros _; try reflexivity.
  unfold Double.div, SFdiv.
  destruct (SFdiv_core_binary _ _ _ _ _ _) as [[mz ez] lz].
  apply binary_round_aux_sign.
Qed.

Lemma not_negative_is_not_minus_one (x : double) :
  not_negative x = true -> Double.eqb x (Double.of_Z (-1)) = false.
Proof.
  change (Double.of_Z (-1)) with (S754_finite true 4503599627370496 (-52)).
  destruct x as [s | [|] | | [|] mx ex]; try discriminate; reflexivity.
Qed.

(** X4.  The sentinel cannot be mistaken for a measurement.  With a
    positive minimum, when both counters are read and neither bandwidth
    is below the minimum, [get_bandwidth] returns their average, and the
    average does not compare equal to -1: the test that follows goes on
    to the comparison of the data. *)
Theorem get_bandwidth_average_is_not_sentinel
        {D} (P : platform D) (h : dma_h) {R} mode (w : world D) rd w1 wr w2 m e :
  MIN_TRPT_GBPS h = S754_finite false m e ->
  readMMIO64 P (R := double) (DMA_CSR_IDX_RD_SRC_PERF_CNTR h) w = Next rd w1 ->
  Double.ltb (sample_bandwidth h rd) (MIN_TRPT_GBPS h) = false ->
  readMMIO64 P (R := double) (DMA_CSR_IDX_WR_DEST_PERF_CNTR h) (read_reported h mode w1)
  = Next wr w2 ->
  Double.ltb (sample_bandwidth h wr) (MIN_TRPT_GBPS h) = false ->
  get_bandwidth P h (R := R) mode w = Next (average_bw h rd wr) (write_reported h mode w2) /\
  Double.eqb (average_bw h rd wr) (Double.of_Z (-1)) = false.
Proof.
  intros Hmin H Hlt H2 Hlt2. split.
  - apply (get_bandwidth_average P h mode w rd w1 wr w2 H Hlt H2 Hlt2).
  - apply not_negative_is_not_minus_one. unfold average_bw. apply half_not_negative.
    rewrite Hmin in Hlt, Hlt2. apply (add_not_negative _ _ m e Hlt Hlt2).
Qed.

(** ** The payload and the expected result *)

Lemma fill_from_buffer {D R} (count : nat) (i : Z) (w w' : world D) :
  for_from (R := R) i count (fun i => store_dma_buf i (u64 i)) w = Next tt w' ->
  dma_buf w' = ascending_words_from (dma_buf w) i count.
Proof.
  revert i w. induction count as [|count IH]; intros i w H.
  - cbn in H. unfold ret in H. inversion H. reflexivity.
  - cbn [for_from] in H. apply bind_Next_inv in H. destruct H as (u & w1 & Hs & Hrest).
    unfold store_dma_buf in Hs.
    destruct ((0 <=? i) && (8 * i + 8 <=? DMA_BUFFER_SIZE)); [|discriminate].
    unfold set_dma_buf in Hs. inversion Hs; subst w1. clear Hs.
    rewrite (IH _ _ Hrest). reflexivity.
Qed.

Lemma ascending_words_from_byte (count : nat) (m : bytes) (i a : Z) :
  ascending_words_from m i count a
  = if (8 * i <=? a) && (a <? 8 * (i + Z.of_nat count))
    then byte_of_word (u64 (a / 8)) (a mod 8)
    else m a.
Proof.
  revert m i. induction count as [|count IH]; intros m i.
  - cbn [ascending_words_from].
    destruct ((8 * i <=? a) && (a <? 8 * (i + Z.of_nat 0))) eqn:E; [|reflexivity].
    apply andb_true_iff in E. destruct E as [E1 E2].
    apply Z.leb_le in E1. apply Z.ltb_lt in E2. change (Z.of_nat 0) with 0 in E2. lia.
  - cbn [ascending_words_from]. rewrite IH. unfold store64.
    destruct ((8 * (i + 1) <=? a) && (a <? 8 * (i + 1 + Z.of_nat count))) eqn:E.
    + apply andb_true_iff in E. destruct E as [E1 E2].
      apply Z.leb_le in E1. apply Z.ltb_lt in E2.
      replace ((8 * i <=? a) && (a <? 8 * (i + Z.of_nat (S count)))) with true; [reflexivity|].
      symmetry. apply andb_true_iff. split; [apply Z.leb_le | apply Z.ltb_lt]; lia.
    + destruct ((8 * i <=? a) && (a <? 8 * i + 8)) eqn:E'.
      * apply andb_true_iff in E'. destruct E' as [E1 E2].
        apply Z.leb_le in E1. apply Z.ltb_lt in E2.
        replace ((8 * i <=? a) && (a <? 8 * (i + Z.of_nat (S count)))) with true
          by (symmetry; apply andb_true_iff; split; [apply Z.leb_le | apply Z.ltb_lt]; lia).
        assert (Hq : a / 8 = i) by (symmetry; apply Z.div_unique_pos with (r := a - 8 * i); lia).
        assert (Hr : a mod 8 = a - 8 * i) by (symmetry; apply Z.mod_unique_pos with (q := i); lia).
        rewrite Hq, Hr. reflexivity.
      * replace ((8 * i <=? a) && (a <? 8 * (i + Z.of_nat (S count)))) with false; [reflexivity|].
        symmetry. apply andb_false_iff.
        apply andb_false_iff in E. apply andb_false_iff in E'.
        rewrite Z.leb_gt, Z.ltb_ge in *. lia.
Qed.

(** X5.  What the test sends is what it expects back.  When the fill
    loop of lines 333-335 has run over [n] words, byte [a] of the host
    buffer, for [a] below [8 * n], is byte [a mod 8] of the number
    [a / 8], and it is equal to byte [a] of [expected_result] as lines
    312-317 build it; the loop leaves the rest of the buffer alone. *)
Theorem fill_writes_expected_pattern
        {D R} (n : Z) (w w' : world D) :
  0 <= n ->
  for_ (R := R) n (fun i => store_dma_buf i (u64 i)) w = Next tt w' ->
  (forall a, 0 <= a < 8 * n ->
             dma_buf w' a = byte_of_word (a / 8) (a mod 8) /\
             dma_buf w' a = ascending_words (fun _ => 0) n a) /\
  (forall a, a < 0 \/ 8 * n <= a -> dma_buf w' a = dma_buf w a) /\
  count_mismatches (dma_buf w') (ascending_words (fun _ => 0) n) (8 * n) = 0.
Proof.
  intros Hn H.
  pose proof (fill_Next_size _ _ _ H Hn) as Hsz. unfold DMA_BUFFER_SIZE in Hsz.
  unfold for_ in H. apply fill_from_buffer in H.
  assert (Hin : forall a, 0 <= a < 8 * n ->
                          (8 * 0 <=? a) && (a <? 8 * (0 + Z.of_nat (Z.to_nat n))) = true).
  { intros a Ha. rewrite Z2Nat.id by lia.
    apply andb_true_iff. split; [apply Z.leb_le | apply Z.ltb_lt]; lia. }
  assert (Hout : forall a, a < 0 \/ 8 * n <= a ->
                           (8 * 0 <=? a) && (a <? 8 * (0 + Z.of_nat (Z.to_nat n))) = false).
  { intros a Ha. rewrite Z2Nat.id by lia.
    apply andb_false_iff. rewrite Z.leb_gt, Z.ltb_ge. lia. }
  assert (Hagree : forall a, 0 <= a < 8 * n ->
                             dma_buf w' a = ascending_words (fun _ => 0) n a).
  { intros a Ha. rewrite H. unfold ascending_words.
    rewrite !ascending_words_from_byte, (Hin a Ha). reflexivity. }
  split; [|split].
  - intros a Ha. split; [|apply Hagree, Ha].
    rewrite H, ascending_words_from_byte, (Hin a Ha).
    unfold u64. rewrite Z.mod_small; [reflexivity|].
    split; [apply Z.div_pos; lia|].
    apply Z.div_lt_upper_bound; lia.
  - intros a Ha. rewrite H, ascending_words_from_byte, (Hout a Ha). reflexivity.
  - unfold count_mismatches.
    assert (Hcount : forall (k : nat) (off : Z),
               0 <= off -> off + Z.of_nat k <= 8 * n ->
               count_mismatches_from (dma_buf w') (ascending_words (fun _ => 0) n) off k = 0).
    { induction k as [|k IHk]; intros off Ho Hk; [reflexivity|].
      cbn [count_mismatches_from]. rewrite (Hagree off) by lia.
      rewrite Z.eqb_refl, (IHk (off + 1)) by lia. reflexivity. }
    apply Hcount; [lia|]. rewrite Z2Nat.id by lia. lia.
Qed.

(** ** The calls a piece of code makes *)

Section Confined.

Context {D : Type}.
Variable P : platform D.
Variable Q : call -> bool.

Lemma confined_silent {R A} (m : M D R A) :
  (forall w, calls (final_world (m w)) = calls w) -> confined Q m.
Proof.
  intros H w. exists []. rewrite app_nil_r. split; [apply H | reflexivity].
Qed.

Lemma confined_one {R A} (m : M D R A) (c : call) :
  Q c = true -> (forall w, calls (final_world (m w)) = calls w ++ [c]) -> confined Q m.
Proof.
  intros Hq H w. exists [c]. split; [apply H|]. cbn. rewrite Hq. reflexivity.
Qed.

Lemma confined_bind {R A B} (m : M D R A) (k : A -> M D R B) :
  confined Q m -> (forall a, confined Q (k a)) -> confined Q (bind m k).
Proof.
  intros Hm Hk w. destruct (Hm w) as (t & Ht & Hq). unfold bind.
  destruct (m w) as [a w1|r w1|e w1|e w1|w1]; cbn [final_world] in Ht;
    try (exists t; split; assumption).
  destruct (Hk a w1) as (t' & Ht' & Hq').
  exists (t ++ t'). rewrite Ht', Ht, app_assoc. split; [reflexivity|].
  rewrite forallb_app, Hq, Hq'. reflexivity.
Qed.

Lemma confined_call {R R'} (m : M D R R) : confined Q m -> confined Q (@call_ D R R' m).
Proof.
  intros Hm w. destruct (Hm w) as (t & Ht & Hq). exists t. split; [|exact Hq].
  rewrite final_world_call. exact Ht.
Qed.

Lemma confined_when {R} (c : bool) (m : M D R unit) : confined Q m -> confined Q (when_ c m).
Proof.
  intros Hm. destruct c; [exact Hm|]. apply confined_silent. reflexivity.
Qed.

Lemma confined_for_from {R} (count : nat) (i : Z) (body : Z -> M D R unit) :
  (forall j, confined Q (body j)) -> confined Q (for_from i count body).
Proof.
  intros Hb. revert i. induction count as [|count IH]; intros i; cbn [for_from].
  - apply confined_silent. reflexivity.
  - apply confined_bind; [apply Hb | intros _; apply IH].
Qed.

Lemma confined_ret {R A} (a : A) : confined Q (@ret D R A a).
Proof. apply confined_silent. reflexivity. Qed.

Lemma confined_return {R A} (r : R) : confined Q (@return_ D R A r).
Proof. apply confined_silent. reflexivity. Qed.

Lemma confined_printf {R} fmt : confined Q (@printf D R fmt).
Proof. apply confined_silent. reflexivity. Qed.

Lemma confined_assert {R} c e : confined Q (@assert_ D R c e).
Proof. apply confined_silent. intros w. unfold assert_. destruct c; reflexivity. Qed.

Lemma confined_store_dma_buf {R} i v : confined Q (@store_dma_buf D R i v).
Proof.
  apply confined_silent. intros w. unfold store_dma_buf.
  destruct ((0 <=? i) && (8 * i + 8 <=? DMA_BUFFER_SIZE)); reflexivity.
Qed.

Lemma confined_memset_dma_buf {R} c n : confined Q (@memset_dma_buf D R c n).
Proof.
  apply confined_silent. intros w. unfold memset_dma_buf.
  destruct ((0 <=? n) && (n <=? DMA_BUFFER_SIZE)); reflexivity.
Qed.

Lemma confined_memcmp_dma_buf {R} other n : confined Q (@memcmp_dma_buf D R other n).
Proof.
  apply confined_silent. intros w. unfold memcmp_dma_buf.
  destruct ((0 <=? n) && (n <=? DMA_BUFFER_SIZE)); reflexivity.
Qed.

Lemma confined_write {R} handle n off v :
  Q (CallWriteMMIO64 handle n off v) = true ->
  confined Q (@fpgaWriteMMIO64 D P R handle n off v).
Proof.
  intros Hq. apply (confined_one _ _ Hq). intros w. unfold fpgaWriteMMIO64.
  destruct (opae_WriteMMIO64 P handle n off v (device w) (dma_buf w)) as [[r d] b].
  reflexivity.
Qed.



Lemma confined_release {R} handle wsid :
  Q (CallReleaseBuffer handle wsid) = true ->
  confined Q (@fpgaReleaseBuffer D P R handle wsid).
Proof.
  intros Hq. apply (confined_one _ _ Hq). intros w. unfold fpgaReleaseBuffer.
  destruct (opae_ReleaseBuffer P handle wsid (device w)) as [r d].
  reflexivity.
Qed.

End Confined.

Section TestCalls.

Context {D : Type}.
Variable P : platform D.
Variable h : dma_h.
Variable USE_ASE : bool.

Lemma get_bandwidth_tame {R} (E : string -> Prop) mode :
  E "FPGA_OK == r" -> tame E (get_bandwidth P h (R := R) mode).
Proof.
  intros HE.
  assert (Hc : forall handle n off d b,
             is_FPGA_OK (fst (fst (fst (opae_ReadMMIO64 P handle n off d b)))) = false ->
             E "FPGA_OK == r") by (intros; exact HE).
  unfold get_bandwidth. apply tame_call.
  apply tame_bind; [apply (tame_readMMIO64 P E Hc)|]. intros rd. cbv zeta.
  apply tame_bind;
    [destruct (e_dma_mode_value h mode =? e_dma_mode_value h ddr_to_host); apply tame_printf|].
  intros _. apply tame_bind; [apply tame_printf|]. intros _.
  apply tame_bind.
  { apply tame_when. apply tame_bind; [apply tame_printf | intros _; apply tame_return]. }
  intros _. apply tame_bind; [apply (tame_readMMIO64 P E Hc)|]. intros wr.
  apply tame_bind;
    [destruct (e_dma_mode_value h mode =? e_dma_mode_value h ddr_to_host); apply tame_printf|].
  intros _. apply tame_bind; [apply tame_printf|]. intros _.
  apply tame_bind.
  { apply tame_when. apply tame_bind; [apply tame_printf | intros _; apply tame_return]. }
  intros _. apply tame_return.
Qed.

Variable accel_handle : fpga_handle.

Section RegisterCalls.

Variable Q : call -> bool.
Hypothesis Q_read : forall c, is_register_read c = true -> Q c = true.
Hypothesis Q_write :
  forall off v, In off (descriptor_offsets h) -> Q (CallWriteMMIO64 accel_handle 0 off v) = true.

Lemma send_descriptor_confined {R} desc :
  confined Q (send_descriptor P (R := R) accel_handle (u64 (8 * DMA_CSR_IDX_SRC_ADDR h)) desc).
Proof.
  unfold send_descriptor. apply confined_call.
  apply confined_bind; [apply confined_assert|]. intros _. cbv zeta.
  apply confined_bind; [apply confined_write, Q_write; cbn; tauto|]. intros _.
  apply confined_bind; [apply confined_printf|]. intros _.
  apply confined_bind; [apply confined_write, Q_write; cbn; tauto|]. intros _.
  apply confined_bind; [apply confined_printf|]. intros _.
  apply confined_bind; [apply confined_write, Q_write; cbn; tauto|]. intros _.
  apply confined_bind; [apply confined_printf|]. intros _.
  apply confined_bind; [apply confined_write, Q_write; cbn; tauto|]. intros _.
  apply confined_printf.
Qed.

Lemma dma_transfer_confined {R} fuel mode dev_src dev_dest lines verbose :
  confined Q (dma_transfer P h USE_ASE (R := R) fuel accel_handle mode dev_src dev_dest lines
                           verbose).
Proof.
  unfold dma_transfer. apply confined_call.
  apply confined_bind; [apply confined_assert|]. intros _.
  apply confined_bind; [apply confined_assert|]. intros _. cbv zeta.
  apply confined_bind.
  { apply confined_when. repeat (apply confined_bind; [apply confined_printf | intros _]).
    apply confined_printf. }
  intros _. apply confined_bind.
  { apply confined_for_from. intros _. apply send_descriptor_confined. }
  intros _. apply confined_bind.
  { apply (confined_of_tame _ (fun _ => True)); [apply Q_read|].
    apply tame_mmio_read64_silent. intros; exact I. }
  intros v. apply confined_bind; [|intros _; apply confined_printf].
  apply (confined_of_tame _ (fun _ => True)); [apply Q_read|].
  apply tame_poll_status. intros; exact I.
Qed.

Lemma get_bandwidth_confined {R} mode : confined Q (get_bandwidth P h (R := R) mode).
Proof.
  apply (confined_of_tame _ (fun _ => True)); [apply Q_read|].
  apply get_bandwidth_tame. exact I.
Qed.

End RegisterCalls.

Lemma reads_allowed (c : call) :
  is_register_read c = true -> test_call_allowed h accel_handle c = true.
Proof. destruct c; try discriminate; reflexivity. Qed.

Lemma descriptor_write_allowed (off v : Z) :
  In off (descriptor_offsets h) ->
  test_call_allowed h accel_handle (CallWriteMMIO64 accel_handle 0 off v) = true.
Proof.
  intros Hin. cbn [test_call_allowed]. rewrite Z.eqb_refl. cbn [andb Z.eqb].
  apply existsb_exists. exists off. split; [exact Hin | apply Z.eqb_refl].
Qed.

Lemma dma_transfer_allowed {R} fuel mode dev_src dev_dest lines verbose :
  confined (test_call_allowed h accel_handle)
           (dma_transfer P h USE_ASE (R := R) fuel accel_handle mode dev_src dev_dest lines
                         verbose).
Proof. apply dma_transfer_confined; [apply reads_allowed | apply descriptor_write_allowed]. Qed.

Lemma get_bandwidth_allowed {R} mode :
  confined (test_call_allowed h accel_handle) (get_bandwidth P h (R := R) mode).
Proof. apply get_bandwidth_confined. apply reads_allowed. Qed.

Lemma reads_are_accesses (c : call) : is_register_read c = true -> is_register_access c = true.
Proof. destruct c; try discriminate; reflexivity. Qed.

Lemma release_buf_allowed {A} wsid n :
  confined (test_call_allowed h accel_handle) (release_buf P (A := A) accel_handle wsid n).
Proof.
  unfold release_buf. apply confined_bind; [|intros _; apply confined_return].
  apply confined_release. cbn. apply Z.eqb_refl.
Qed.



Lemma confined_Next {R A} (Q : call -> bool) (m : M D R A) (w : world D) a w' :
  confined Q m -> m w = Next a w' -> exists t, calls w' = calls w ++ t /\ forallb Q t = true.
Proof.
  intros Hm H. destruct (Hm w) as (t & Ht & Hq). rewrite H in Ht. exists t. split; assumption.
Qed.

Lemma silent_Next {R A} (m : M D R A) (w : world D) a w' :
  confined (fun _ => false) m -> m w = Next a w' -> calls w' = calls w.
Proof.
  intros Hm H. destruct (confined_Next _ _ _ _ _ Hm H) as (t & Ht & Hq).
  destruct t as [|c t]; [|discriminate]. rewrite app_nil_r in Ht. exact Ht.
Qed.

(** The calls made up to line 349, when the test gets there. *)
Lemma transfers_calls fuel transfer_size verbose test_buffer_size_0 (w : world D) l w1 :
  run_basic_ddr_dma_test_transfers P h USE_ASE fuel accel_handle transfer_size verbose
                                   test_buffer_size_0 w = Next l w1 ->
  exists regs,
    calls w1 = calls w
               ++ [CallPrepareBuffer accel_handle DMA_BUFFER_SIZE 0;
                   CallGetIOAddress accel_handle (dma_buf_wsid l)]
               ++ regs /\
    forallb is_register_access regs = true.
Proof.
  unfold run_basic_ddr_dma_test_transfers. cbv zeta. intros H.
  apply bind_Next_inv in H. destruct H as (u1 & w2 & H1 & H).
  apply assert_Next_inv in H1. destruct H1 as [_ ->].
  apply bind_Next_inv in H. destruct H as (sim & w3 & H1 & H).
  unfold get_s_is_ase_sim in H1. inversion H1; subst sim w3. clear H1.
  apply bind_Next_inv in H. destruct H as (u2 & w4 & H1 & H).
  assert (w4 = w) as ->.
  { destruct (s_is_ase_sim w); apply assert_Next_inv in H1; apply H1. }
  clear H1.
  apply bind_Next_inv in H. destruct H as (u3 & w5 & H1 & H).
  apply silent_Next in H1; [|apply confined_printf]. rename H1 into C5.
  apply bind_Next_inv in H. destruct H as (u4 & w6 & H1 & H).
  apply silent_Next in H1; [|apply confined_printf]. rename H1 into C6.
  apply bind_Next_inv in H. destruct H as (u5 & w7 & H1 & H).
  apply silent_Next in H1; [|apply confined_printf]. rename H1 into C7.
  apply bind_Next_inv in H. destruct H as ([res wsid] & w8 & H1 & H).
  assert (C8 : calls w8 = calls w7 ++ [CallPrepareBuffer accel_handle DMA_BUFFER_SIZE 0]).
  { unfold fpgaPrepareBuffer in H1.
    destruct (opae_PrepareBuffer P accel_handle DMA_BUFFER_SIZE 0 (device w7))
      as [[[r0 i0] b0] d0].
    inversion H1. reflexivity. }
  clear H1.
  apply bind_Next_inv in H. destruct H as (u6 & w9 & H1 & H).
  apply ON_ERR_GOTO_release_Next in H1. destruct H1 as [_ ->].
  apply bind_Next_inv in H. destruct H as (u7 & w10 & H1 & H).
  apply silent_Next in H1; [|apply confined_memset_dma_buf]. rename H1 into C10.
  apply bind_Next_inv in H. destruct H as ([res' iova] & w11 & H1 & H).
  assert (C11 : calls w11 = calls w10 ++ [CallGetIOAddress accel_handle wsid]).
  { unfold fpgaGetIOAddress in H1.
    destruct (opae_GetIOAddress P accel_handle wsid (device w10)) as [[r0 a0] d0].
    inversion H1. reflexivity. }
  clear H1.
  apply bind_Next_inv in H. destruct H as (u8 & w12 & H1 & H).
  apply ON_ERR_GOTO_release_Next in H1. destruct H1 as [_ ->].
  apply bind_Next_inv in H. destruct H as (u9 & w13 & H1 & H).
  apply silent_Next in H1;
    [|apply confined_for_from; intros j; apply confined_store_dma_buf].
  rename H1 into C13.
  apply bind_Next_inv in H. destruct H as (u10 & w14 & H1 & H).
  apply (confined_Next is_register_access) in H1;
    [|apply dma_transfer_confined; [apply reads_are_accesses | reflexivity]].
  destruct H1 as (t14 & C14 & Q14).
  apply bind_Next_inv in H. destruct H as (h2a & w15 & H1 & H).
  apply (confined_Next is_register_access) in H1;
    [|apply get_bandwidth_confined; apply reads_are_accesses].
  destruct H1 as (t15 & C15 & Q15).
  apply bind_Next_inv in H. destruct H as (u11 & w16 & H1 & H).
  apply silent_Next in H1; [|apply confined_memset_dma_buf]. rename H1 into C16.
  apply bind_Next_inv in H. destruct H as (u12 & w17 & H1 & H).
  apply (confined_Next is_register_access) in H1;
    [|apply dma_transfer_confined; [apply reads_are_accesses | reflexivity]].
  destruct H1 as (t17 & C17 & Q17).
  apply bind_Next_inv in H. destruct H as (a2h & w18 & H1 & H).
  apply (confined_Next is_register_access) in H1;
    [|apply get_bandwidth_confined; apply reads_are_accesses].
  destruct H1 as (t18 & C18 & Q18).
  unfold ret in H. inversion H; subst l w18. cbn [dma_buf_wsid].
  exists (t14 ++ t15 ++ t17 ++ t18). split.
  - rewrite C18, C17, C16, C15, C14, C13, C11, C10, C8, C7, C6, C5.
    rewrite <- !app_assoc. reflexivity.
  - rewrite !forallb_app, Q14, Q15, Q17, Q18. reflexivity.
Qed.

(** X7.  A test that gets to the comparison has asked for its buffer
    first and releases that same buffer last; every call in between is a
    register access. *)
Theorem run_basic_ddr_dma_test_releases_its_buffer
        {R} fuel transfer_size verbose test_buffer_size_0 (w : world D) l w1 :
  run_basic_ddr_dma_test_transfers P h USE_ASE fuel accel_handle transfer_size verbose
                                   test_buffer_size_0 w = Next l w1 ->
  Double.eqb (h2a_bw l) (Double.of_Z (-1)) = false ->
  Double.eqb (a2h_bw l) (Double.of_Z (-1)) = false ->
  exists r w' regs,
    run_basic_ddr_dma_test P h USE_ASE (R := R) fuel accel_handle transfer_size verbose
                           test_buffer_size_0 w = Next r w' /\
    calls w' = calls w
               ++ [CallPrepareBuffer accel_handle DMA_BUFFER_SIZE 0;
                   CallGetIOAddress accel_handle (dma_buf_wsid l)]
               ++ regs
               ++ [CallReleaseBuffer accel_handle (dma_buf_wsid l)] /\
    forallb is_register_access regs = true.
Proof.
  intros H Hh Ha.
  destruct (transfers_Next P h USE_ASE _ _ _ _ _ _ _ _ H) as (_ & Ht & _ & _ & Hsz).
  destruct (transfers_calls _ _ _ _ _ _ _ H) as (regs & Hc & Hq).
  assert (Hb : 0 <= test_buffer_size l <= DMA_BUFFER_SIZE).
  { rewrite Ht. split; [apply u32_range | exact Hsz]. }
  assert (Hor : Double.eqb (a2h_bw l) (Double.of_Z (-1))
                || Double.eqb (h2a_bw l) (Double.of_Z (-1)) = false).
  { rewrite Hh, Ha. reflexivity. }
  destruct (verdict_compare P accel_handle l w1 Hor Hb) as (w' & Hv & _ & Hrel).
  eexists _, w', regs. split; [|split; [|exact Hq]].
  - unfold run_basic_ddr_dma_test, call_. rewrite (bind_Next _ _ _ _ _ H), Hv. reflexivity.
  - rewrite Hrel, Hc, <- !app_assoc. reflexivity.
Qed.

End TestCalls.

(** ** Failures of the library *)

(** The first lines of the test, when the size checks pass. *)
Ltac enter_test Hrem Hcap :=
  unfold run_basic_ddr_dma_test, call_, run_basic_ddr_dma_test_transfers; cbv zeta;
  unfold bind at 1; rewrite bind_assert_true by (apply Z.eqb_eq; exact Hrem);
  unfold bind at 1, get_s_is_ase_sim at 1; unfold bind at 1;
  match goal with
  | |- context [(if s_is_ase_sim ?w then ?a else ?b) ?w] =>
    replace ((if s_is_ase_sim w then a else b) w) with (@Next _ Z unit tt w)
      by (unfold assert_; destruct (s_is_ase_sim w);
          rewrite (proj2 (Z.leb_le _ _) Hcap); reflexivity)
  end;
  do 3 (unfold bind at 1, printf at 1);
  unfold bind at 1, fpgaPrepareBuffer at 1; cbn [device print_line].

(** X8.  For a size that the buffer holds (so that the array of line 313
    is no larger than the buffer) and an error counter below [INT_MAX]:
    when the device address of the buffer cannot be had, the test counts
    one error, releases the buffer it had allocated and returns 0; it has
    touched no register. *)
Theorem run_basic_ddr_dma_test_address_lookup_fails
        {D} (P : platform D) (h : dma_h) (USE_ASE : bool) {R}
        fuel accel_handle transfer_size verbose test_buffer_size_0
        (w : world D) wsid b d1 res iova d2 :
  Z.rem transfer_size 64 = 0 ->
  0 < transfer_size <= DMA_BUFFER_SIZE ->
  (if s_is_ase_sim w then transfer_size <= TEST_BUFFER_SIZE_ASE
   else test_buffer_size_0 <= TEST_BUFFER_SIZE_HW) ->
  s_error_count w < INT_MAX ->
  opae_PrepareBuffer P accel_handle DMA_BUFFER_SIZE 0 (device w) = (FPGA_OK, wsid, b, d1) ->
  opae_GetIOAddress P accel_handle (u64 wsid) d1 = (res, iova, d2) ->
  is_FPGA_OK res = false ->
  exists w',
    run_basic_ddr_dma_test P h USE_ASE (R := R) fuel accel_handle transfer_size verbose
                           test_buffer_size_0 w
    = Next 0 w' /\
    s_error_count w' = s_error_count w + 1 /\
    calls w' = calls w ++ [CallPrepareBuffer accel_handle DMA_BUFFER_SIZE 0;
                           CallGetIOAddress accel_handle (u64 wsid);
                           CallReleaseBuffer accel_handle (u64 wsid)].
Proof.
  intros Hrem _ Hcap Herr Hprep Hio Hres.
  enter_test Hrem Hcap. rewrite Hprep.
  cbn [is_FPGA_OK]. unfold bind at 1, ON_ERR_GOTO at 1. cbn [is_FPGA_OK negb]. unfold ret at 1.
  unfold bind at 1, memset_dma_buf at 1.
  replace ((0 <=? DMA_BUFFER_SIZE) && (DMA_BUFFER_SIZE <=? DMA_BUFFER_SIZE)) with true
    by reflexivity.
  unfold set_dma_buf at 1.
  unfold bind at 1, fpgaGetIOAddress at 1. cbn [device log_call]. rewrite Hio.
  unfold bind at 1, ON_ERR_GOTO at 1. rewrite Hres. cbn [negb].
  unfold bind at 1, print_err at 1, fprintf_stderr at 1, printf at 1.
  unfold bind at 1, incr_s_error_count at 1.
  cbn [s_error_count print_line log_call]. rewrite (proj2 (Z.ltb_lt _ _) Herr).
  match goal with
  | |- context [release_buf P accel_handle ?i ?n ?w0] =>
    destruct (release_buf_Return P (A := unit) accel_handle i n w0) as (w' & -> & Hc & _ & He)
  end.
  exists w'. split; [reflexivity|]. split.
  - rewrite He. reflexivity.
  - rewrite Hc. cbn [calls print_line log_call]. rewrite <- !app_assoc. reflexivity.
Qed.

(** ** The entry point [dma] *)

Lemma call_of_call {D R} (m : M D Z Z) (w : world D) :
  @call_ D Z R (r <- @call_ D Z Z m ;; return_ r) w = @call_ D Z R m w.
Proof. unfold call_, bind, return_. destruct (m w); reflexivity. Qed.

(** X9.  [dma] records the handle and the mode and then runs the test.
    In simulation mode it maps nothing and clears the register-window
    pointer, whatever it was.  In hardware mode it maps the window first:
    when the mapping fails it stops at its assertion, before any buffer
    is asked for, with the pointer as it was; when it succeeds the test
    runs with the pointer the library stored, and that pointer may be
    null: the test then reads its registers through the library. *)
Theorem dma_sets_up_the_session
        {D} (P : platform D) (h : dma_h) (USE_ASE : bool) {R}
        fuel accel_handle transfer_size verbose test_buffer_size_0 (w : world D) :
  dma P h USE_ASE (R := R) fuel accel_handle true transfer_size verbose test_buffer_size_0 w
  = run_basic_ddr_dma_test P h USE_ASE fuel accel_handle (s32 transfer_size) verbose
                           test_buffer_size_0 (session accel_handle true false w) /\
  (forall r tmp_ptr d,
      opae_MapMMIO P accel_handle 0 (device w) = (r, tmp_ptr, d) ->
      dma P h USE_ASE (R := R) fuel accel_handle false transfer_size verbose
          test_buffer_size_0 w
      = if is_FPGA_OK r
        then run_basic_ddr_dma_test
               P h USE_ASE fuel accel_handle (s32 transfer_size) verbose test_buffer_size_0
               (session accel_handle false tmp_ptr
                        (log_call (CallMapMMIO accel_handle 0) d (dma_buf w) w))
        else AssertFail "FPGA_OK == r"
                        (log_call (CallMapMMIO accel_handle 0) d (dma_buf w)
                                  (session accel_handle false (s_mmio_buf w) w))).
Proof.
  split.
  - unfold dma. unfold call_ at 1. unfold bind at 1, set_session at 1.
    unfold bind at 1, set_s_mmio_buf at 1.
    unfold bind at 1, get_s_accel_handle at 1.
    cbn [s_accel_handle s_is_ase_sim s_mmio_buf s_error_count dma_buf device calls console].
    fold (session accel_handle true false w).
    unfold run_basic_ddr_dma_test.
    apply (call_of_call (R := R)).
  - intros r tmp_ptr d Hmap. unfold dma. unfold call_ at 1. unfold bind at 1, set_session at 1.
    unfold bind at 1. unfold bind at 1, fpgaMapMMIO at 1. cbn [device]. rewrite Hmap.
    unfold bind at 1, assert_ at 1.
    destruct (is_FPGA_OK r).
    + unfold set_s_mmio_buf at 1. unfold bind at 1, get_s_accel_handle at 1.
      cbn [s_accel_handle s_is_ase_sim s_mmio_buf s_error_count dma_buf device calls console
           log_call].
      unfold run_basic_ddr_dma_test.
      apply (call_of_call (R := R)).
    + reflexivity.
Qed.

(** ** The end of the polling loop *)

Section Keeps.

Context {D : Type}.
Variable P : platform D.
Variable h : dma_h.
Variable I : D -> Prop.

Hypothesis reads_keep :
  forall handle n off d b,
    I d -> let '(r, _, d', _) := opae_ReadMMIO64 P handle n off d b in
           is_FPGA_OK r = true /\ I d'.

Hypothesis loads_keep :
  forall idx d b, I d -> let '(_, d', _) := window_load P idx d b in I d'.

Lemma keeps_bind {R A B} (m : M D R A) (k : A -> M D R B) :
  keeps I m -> (forall a, keeps I (k a)) -> keeps I (bind m k).
Proof.
  intros Hm Hk w Hw. destruct (Hm w Hw) as (a & w1 & E & H1 & C1).
  destruct (Hk a w1 H1) as (b & w2 & E2 & H2 & C2).
  exists b, w2. unfold bind. rewrite E. split; [exact E2|]. split; [exact H2|].
  intros s Hs. apply C2, C1, Hs.
Qed.

Lemma keeps_call {R R'} (m : M D R R) : keeps I m -> keeps I (@call_ D R R' m).
Proof.
  intros Hm w Hw. destruct (Hm w Hw) as (a & w1 & E & H1 & C1).
  exists a, w1. unfold call_. rewrite E. split; [reflexivity|]. split; assumption.
Qed.

Lemma keeps_ret {R A} (a : A) : keeps I (@ret D R A a).
Proof. intros w Hw. exists a, w. split; [reflexivity|]. split; [exact Hw | apply incl_refl]. Qed.

Lemma keeps_printf {R} fmt : keeps I (@printf D R fmt).
Proof.
  intros w Hw. eexists _, _. split; [reflexivity|]. split; [exact Hw|].
  cbn [console print_line]. apply incl_appl, incl_refl.
Qed.

Lemma keeps_when {R} (c : bool) (m : M D R unit) : keeps I m -> keeps I (when_ c m).
Proof. intros Hm. destruct c; [exact Hm | apply keeps_ret]. Qed.

Lemma keeps_assert {R} (c : bool) e : c = true -> keeps I (@assert_ D R c e).
Proof.
  intros -> w Hw. exists tt, w. split; [reflexivity|]. split; [exact Hw | apply incl_refl].
Qed.

Lemma keeps_read {R} handle n off : keeps I (@fpgaReadMMIO64 D P R handle n off).
Proof.
  intros w Hw. unfold fpgaReadMMIO64.
  pose proof (reads_keep handle n off (device w) (dma_buf w) Hw) as Hk.
  destruct (opae_ReadMMIO64 P handle n off (device w) (dma_buf w)) as [[[r v] d] b].
  eexists _, _. split; [reflexivity|]. split; [apply Hk | apply incl_refl].
Qed.

Lemma readMMIO64_keeps {R} idx : keeps I (readMMIO64 P (R := R) idx).
Proof.
  intros w Hw.
  unfold readMMIO64, call_, bind, get_s_mmio_buf, get_s_accel_handle, load_s_mmio_buf,
    fpgaReadMMIO64, assert_, return_.
  cbv zeta. destruct (s_mmio_buf w).
  - pose proof (loads_keep (u32 idx) (device w) (dma_buf w) Hw) as Hk.
    destruct (window_load P (u32 idx) (device w) (dma_buf w)) as [[v d] b].
    eexists _, _. split; [reflexivity|]. split; [exact Hk | apply incl_refl].
  - pose proof (reads_keep (s_accel_handle w) 0 (u32 (8 * u32 idx)) (device w) (dma_buf w) Hw)
      as Hk.
    destruct (opae_ReadMMIO64 P (s_accel_handle w) 0 (u32 (8 * u32 idx)) (device w) (dma_buf w))
      as [[[r v] d] b].
    destruct Hk as [Hok Hd]. rewrite Hok.
    eexists _, _. split; [reflexivity|]. split; [exact Hd | apply incl_refl].
Qed.

Lemma print_csrs_keeps {R} : keeps I (print_csrs P h (R := R)).
Proof.
  unfold print_csrs. apply keeps_call.
  repeat first [ apply keeps_printf
               | apply keeps_bind; [| intros ?]
               | apply readMMIO64_keeps ].
Qed.

(** The status read of the polling loop, in either form, with what the
    library answered. *)
Lemma status_read_keeps {R} (verbose_read : bool) accel_handle addr (w : world D) :
  I (device w) ->
  exists v w',
    (if verbose_read
     then mmio_read64 P (R := R) accel_handle addr "dma_csr_base"
     else mmio_read64_silent P accel_handle addr) w = Next (u64 v) w' /\
    incl (console w) (console w') /\
    opae_ReadMMIO64 P accel_handle 0 addr (device w) (dma_buf w)
    = (FPGA_OK, v, device w', dma_buf w').
Proof.
  intros Hw.
  pose proof (reads_keep accel_handle 0 addr (device w) (dma_buf w) Hw) as Hk.
  destruct verbose_read;
    unfold mmio_read64, mmio_read64_silent, call_, bind, fpgaReadMMIO64, assert_, printf, ret;
    destruct (opae_ReadMMIO64 P accel_handle 0 addr (device w) (dma_buf w)) as [[[r v] d] b];
    destruct Hk as [Hok Hd]; rewrite Hok;
    (eexists _, _; split; [reflexivity|]); cbn [console print_line log_call device dma_buf];
    destruct r; try discriminate;
    (split; [|reflexivity]).
  - apply incl_appl, incl_refl.
  - apply incl_refl.
Qed.

End Keeps.

Lemma dma_transfer_submitted
      {D} (P : platform D) (h : dma_h) (USE_ASE : bool) {R}
      accel_handle mode dev_src dev_dest lines verbose (w : world D) :
  dev_src mod 64 = 0 -> dev_dest mod 64 = 0 ->
  exists w',
    forall fuel,
      dma_transfer (R := R) P h USE_ASE fuel accel_handle mode dev_src dev_dest lines verbose w
      = call_ (await_idle P h USE_ASE fuel accel_handle verbose) w'.
Proof.
  intros Hs Hd.
  set (desc := built_descriptor h mode dev_src dev_dest lines).
  assert (Hv : exists w1,
               forall A (k : unit -> M D unit A),
                 bind (when_ verbose
                         (printf "\nDescriptor size   = %d\n" ;;
                          printf "desc.src_address  = %04lX\n" ;;
                          printf "desc.dest_address = %04lX\n" ;;
                          printf "desc.len          = %d\n" ;;
                          printf "desc.control      = %04X\n")) k w = k tt w1).
  { destruct verbose; eexists; intros; reflexivity. }
  destruct Hv as (w1 & Hw1).
  destruct (send_descriptor_Next P (R := unit) accel_handle (u64 (8 * DMA_CSR_IDX_SRC_ADDR h))
              desc w1 (u64_8_mod_8 _)) as (w2 & Hw2 & _).
  destruct (send_descriptor_Next P (R := unit) accel_handle (u64 (8 * DMA_CSR_IDX_SRC_ADDR h))
              desc w2 (u64_8_mod_8 _)) as (w3 & Hw3 & _).
  exists w3. intros fuel. unfold dma_transfer, call_ at 1.
  rewrite bind_assert_true by (apply Z.eqb_eq; exact Hs).
  rewrite bind_assert_true by (apply Z.eqb_eq; exact Hd).
  cbv zeta. fold (built_descriptor h mode dev_src dev_dest lines). fold desc.
  rewrite Hw1.
  unfold for_. change (Z.to_nat 2) with 2%nat. cbn [for_from].
  unfold bind at 1. unfold bind at 1. rewrite Hw2.
  unfold bind at 1. rewrite Hw3. unfold ret at 1. cbv beta iota.
  reflexivity.
Qed.

Section Patience.

Context {D : Type}.
Variable P : platform D.
Variable h : dma_h.
Variable USE_ASE : bool.
Variable remaining : D -> nat.

Hypothesis reads_succeed :
  forall handle n off d b,
    let '(r, _, d', _) := opae_ReadMMIO64 P handle n off d b in
    is_FPGA_OK r = true /\ (remaining d' <= remaining d)%nat.

Hypothesis busy_is_progress :
  forall handle d b,
    let '(_, v, d', _) := opae_ReadMMIO64 P handle 0 (u64 (8 * DMA_CSR_IDX_STATUS h)) d b in
    Z.land (u64 v) 1 = 1 -> (remaining d' < remaining d)%nat.

Hypothesis loads_steady :
  forall idx d b,
    let '(_, d', _) := window_load P idx d b in (remaining d' <= remaining d)%nat.

Lemma level_reads (k : nat) handle n off d b :
  (remaining d <= k)%nat ->
  let '(r, _, d', _) := opae_ReadMMIO64 P handle n off d b in
  is_FPGA_OK r = true /\ (remaining d' <= k)%nat.
Proof.
  intros Hk. pose proof (reads_succeed handle n off d b) as H.
  destruct (opae_ReadMMIO64 P handle n off d b) as [[[r v] d'] b'].
  split; [apply H | lia].
Qed.

Lemma level_loads (k : nat) idx d b :
  (remaining d <= k)%nat ->
  let '(_, d', _) := window_load P idx d b in (remaining d' <= k)%nat.
Proof.
  intros Hk. pose proof (loads_steady idx d b) as H.
  destruct (window_load P idx d b) as [[v d'] b']. lia.
Qed.

Lemma status_read_progress {R} (verbose_read : bool) accel_handle (w : world D) :
  exists v w',
    (if verbose_read
     then mmio_read64 P (R := R) accel_handle (u64 (8 * DMA_CSR_IDX_STATUS h)) "dma_csr_base"
     else mmio_read64_silent P accel_handle (u64 (8 * DMA_CSR_IDX_STATUS h))) w = Next v w' /\
    (remaining (device w') <= remaining (device w))%nat /\
    (Z.land v 1 = 1 -> (remaining (device w') < remaining (device w))%nat).
Proof.
  destruct (status_read_keeps P (fun d => (remaining d <= remaining (device w))%nat)
              (level_reads (remaining (device w))) (R := R) verbose_read accel_handle
              (u64 (8 * DMA_CSR_IDX_STATUS h)) w (le_n _)) as (v & w' & E & _ & Hread).
  pose proof (reads_succeed accel_handle 0 (u64 (8 * DMA_CSR_IDX_STATUS h)) (device w)
                            (dma_buf w)) as H1.
  pose proof (busy_is_progress accel_handle (device w) (dma_buf w)) as H2.
  rewrite Hread in H1, H2.
  exists (u64 v), w'. split; [exact E|]. split; [apply H1 | exact H2].
Qed.

Lemma poll_step_progress {R} accel_handle verbose (w : world D) :
  exists v w',
    (if USE_ASE
     then when_ verbose (print_csrs P h) ;;
          mmio_read64 P (R := R) accel_handle (u64 (8 * DMA_CSR_IDX_STATUS h)) "dma_csr_base"
     else mmio_read64_silent P accel_handle (u64 (8 * DMA_CSR_IDX_STATUS h))) w = Next v w' /\
    (Z.land v 1 = 1 -> (remaining (device w') < remaining (device w))%nat).
Proof.
  destruct USE_ASE.
  - destruct (keeps_when (fun d => (remaining d <= remaining (device w))%nat) verbose
                (print_csrs P h (R := R))
                (print_csrs_keeps P h _ (level_reads (remaining (device w)))
                                  (level_loads (remaining (device w))))
                w (le_n _)) as ([] & w1 & E1 & H1 & _).
    destruct (status_read_progress (R := R) true accel_handle w1) as (v & w2 & E2 & H2 & H3).
    exists v, w2. unfold bind at 1. rewrite E1. split; [exact E2|].
    intros Hb. specialize (H3 Hb). lia.
  - destruct (status_read_progress (R := R) false accel_handle w) as (v & w2 & E2 & H2 & H3).
    exists v, w2. split; [exact E2 | exact H3].
Qed.

(** With polls enough for what remains, the loop ends, and in the same
    state whatever more it is allowed. *)
Lemma poll_status_ends {R} (fuel : nat) accel_handle verbose mmio_data (w : world D) :
  (Z.land mmio_data 1 = 1 -> (remaining (device w) < fuel)%nat) ->
  exists w',
    forall fuel', (fuel <= fuel')%nat ->
                  poll_status P h USE_ASE (R := R) fuel' accel_handle verbose
                              (u64 (8 * DMA_CSR_IDX_STATUS h)) mmio_data w = Next tt w'.
Proof.
  revert mmio_data w. induction fuel as [|fuel IH]; intros mmio_data w Hb;
    destruct (Z.land mmio_data 1 =? 1) eqn:E.
  - apply Z.eqb_eq in E. specialize (Hb E). lia.
  - exists w. intros [|fuel'] _; cbn [poll_status]; rewrite E; reflexivity.
  - apply Z.eqb_eq in E. specialize (Hb E).
    destruct (poll_step_progress (R := R) accel_handle verbose w) as (v & w1 & E1 & H1).
    destruct (IH v w1) as (w' & Hw'); [intros Hv; specialize (H1 Hv); lia|].
    exists w'. intros [|fuel'] Hf; [lia|].
    cbn [poll_status]. rewrite (proj2 (Z.eqb_eq _ _) E).
    unfold bind at 1. rewrite E1. apply Hw'. lia.
  - exists w. intros [|fuel'] _; cbn [poll_status]; rewrite E; reflexivity.
Qed.

(** X10.  The polling loop ends when the engine does.  On a device
    whose register reads succeed and whose busy answers are progress
    (some measure of the device goes down with every status read that
    reports busy, and up with no read), a transfer with aligned
    addresses returns once it has been allowed enough polls, and in the
    same state however many more it is allowed. *)
Theorem dma_transfer_returns_once_idle
        {R} accel_handle mode dev_src dev_dest lines verbose (w : world D) :
  dev_src mod 64 = 0 -> dev_dest mod 64 = 0 ->
  exists (n : nat) (w' : world D),
    forall fuel, (n <= fuel)%nat ->
                 dma_transfer P h USE_ASE (R := R) fuel accel_handle mode dev_src dev_dest
                              lines verbose w
                 = Next tt w'.
Proof.
  intros Hs Hd.
  destruct (dma_transfer_submitted P h USE_ASE (R := R) accel_handle mode dev_src dev_dest
              lines verbose w Hs Hd) as (w1 & Hsub).
  destruct (status_read_progress (R := unit) false accel_handle w1) as (v & w2 & E2 & H2 & H3).
  destruct (poll_status_ends (R := unit) (remaining (device w1)) accel_handle verbose v w2)
    as (w3 & E3).
  { intros Hb. specialize (H3 Hb). lia. }
  exists (remaining (device w1)), (print_line "\nApparent Transfer Bandwidth: %4.5fGB/s" w3).
  intros fuel Hfuel. rewrite Hsub.
  unfold call_, await_idle.
  unfold bind at 1. rewrite E2.
  unfold bind at 1. rewrite (E3 fuel Hfuel). reflexivity.
Qed.

End Patience.

(** ** The length of the transfers *)

Lemma bind_bind_Next {D R A B C} (m : M D R A) (k : A -> M D R B) (k2 : B -> M D R C)
      (w : world D) a w1 :
  m w = Next a w1 -> bind (bind m k) k2 w = bind (k a) k2 w1.
Proof. unfold bind. intros ->. reflexivity. Qed.

Lemma bind_bind_at {D R A B C} (m m' : M D R A) (k : A -> M D R B) (k2 : B -> M D R C)
      (w w' : world D) :
  m w = m' w' -> bind (bind m k) k2 w = bind (bind m' k) k2 w'.
Proof. unfold bind. intros ->. reflexivity. Qed.

Lemma requested_lines_cover (h : dma_h) (transfer_size : Z) :
  DMA_LINE_SIZE h = 64 -> 0 < transfer_size < 2 ^ 31 -> Z.rem transfer_size 64 = 0 ->
  64 * u32 (requested_lines h transfer_size) = transfer_size.
Proof.
  intros HL Hs Hrem. unfold requested_lines. rewrite HL.
  rewrite Z.rem_mod_nonneg in Hrem by lia.
  assert (Hq : transfer_size = 64 * (transfer_size / 64)).
  { pose proof (Z.div_mod transfer_size 64 ltac:(lia)). lia. }
  set (q := transfer_size / 64) in *.
  assert (Hqr : 1 <= q < 2 ^ 25) by lia.
  assert (E1 : u32 transfer_size = transfer_size) by (unfold u32; apply Z.mod_small; lia).
  rewrite E1.
  assert (E2 : u32 (transfer_size - 1) = transfer_size - 1)
    by (unfold u32; apply Z.mod_small; lia).
  rewrite E2.
  assert (E3 : (transfer_size - 1) / 64 = q - 1).
  { symmetry. apply (Z.div_unique_pos _ _ _ 63); lia. }
  rewrite E3. replace (q - 1 + 1) with q by lia.
  assert (E4 : u32 q = q) by (unfold u32; apply Z.mod_small; lia).
  rewrite E4.
  assert (E5 : s32 q = q).
  { unfold s32. rewrite Z.mod_small by lia. lia. }
  rewrite E5, E4. lia.
Qed.

Lemma requested_lines_of_nothing (h : dma_h) :
  DMA_LINE_SIZE h = 64 -> u32 (requested_lines h 0) = 2 ^ 26.
Proof. intros HL. unfold requested_lines. rewrite HL. reflexivity. Qed.

Lemma verdict_allowed {D} (P : platform D) (h : dma_h) accel_handle l :
  confined (test_call_allowed h accel_handle) (run_basic_ddr_dma_test_verdict P accel_handle l).
Proof.
  unfold run_basic_ddr_dma_test_verdict.
  apply confined_bind.
  { apply confined_when. apply confined_bind; [apply confined_printf|].
    intros _. apply confined_return. }
  intros _. apply confined_bind; [apply confined_memcmp_dma_buf|]. intros c.
  apply confined_bind.
  { destruct (negb (c =? 0));
      (apply confined_bind; [apply confined_printf | intros _; apply confined_ret]). }
  intros n. apply release_buf_allowed.
Qed.

(** X11.  The length the test programs covers the payload.  When the
    buffer and its address are had and the size fits the buffer, the
    first calls after the address lookup are the two submissions of a
    host-to-DDR descriptor from the buffer address to DDR address 0,
    whose length is the line count of line 308.  With 64-byte lines that
    count times 64 is the transfer size, for every accepted size but 0:
    a size of 0 wraps in line 308 and asks the engine for 2 ^ 26 lines. *)
Theorem run_basic_ddr_dma_test_requests_whole_lines
        {D} (P : platform D) (h : dma_h) (USE_ASE : bool) {R}
        fuel accel_handle transfer_size verbose test_buffer_size_0
        (w : world D) wsid b d1 iova d2 :
  Z.rem transfer_size 64 = 0 ->
  (if s_is_ase_sim w then transfer_size <= TEST_BUFFER_SIZE_ASE
   else test_buffer_size_0 <= TEST_BUFFER_SIZE_HW) ->
  0 <= transfer_size <= DMA_BUFFER_SIZE ->
  opae_PrepareBuffer P accel_handle DMA_BUFFER_SIZE 0 (device w) = (FPGA_OK, wsid, b, d1) ->
  opae_GetIOAddress P accel_handle (u64 wsid) d1 = (FPGA_OK, iova, d2) ->
  u64 (Z.lor (u64 iova) (DMA_HOST_MASK h)) mod 64 = 0 ->
  let desc := built_descriptor h host_to_ddr (u64 (Z.lor (u64 iova) (DMA_HOST_MASK h))) 0
                               (requested_lines h transfer_size) in
  (exists rest,
      calls (final_world
               (run_basic_ddr_dma_test P h USE_ASE (R := R) fuel accel_handle transfer_size
                                       verbose test_buffer_size_0 w))
      = calls w
        ++ [CallPrepareBuffer accel_handle DMA_BUFFER_SIZE 0;
            CallGetIOAddress accel_handle (u64 wsid)]
        ++ submitted h accel_handle desc ++ submitted h accel_handle desc ++ rest /\
      forallb (test_call_allowed h accel_handle) rest = true) /\
  (DMA_LINE_SIZE h = 64 -> 0 < transfer_size -> 64 * len desc = transfer_size) /\
  (DMA_LINE_SIZE h = 64 -> transfer_size = 0 -> len desc = 2 ^ 26).
Proof.
  intros Hrem Hcap Hfit Hprep Hio Hal desc.
  split; [|split].
  2: { intros HL Hpos. apply requested_lines_cover; [exact HL | | exact Hrem].
       unfold DMA_BUFFER_SIZE in Hfit. lia. }
  2: { intros HL ->. apply requested_lines_of_nothing, HL. }
  unfold run_basic_ddr_dma_test. rewrite final_world_call.
  unfold run_basic_ddr_dma_test_transfers. cbv zeta.
  rewrite (bind_bind_Next _ _ _ w tt w)
    by (unfold assert_; rewrite (proj2 (Z.eqb_eq _ _) Hrem); reflexivity).
  rewrite (bind_bind_Next _ _ _ w (s_is_ase_sim w) w) by reflexivity.
  rewrite (bind_bind_Next _ _ _ w tt w)
    by (unfold assert_; destruct (s_is_ase_sim w);
        rewrite (proj2 (Z.leb_le _ _) Hcap); reflexivity).
  do 3 (erewrite bind_bind_Next by (unfold printf; reflexivity)).
  erewrite bind_bind_Next
    by (unfold fpgaPrepareBuffer; cbn [device print_line]; rewrite Hprep; reflexivity).
  cbv beta iota.
  erewrite bind_bind_Next by reflexivity.
  erewrite bind_bind_Next by reflexivity.
  erewrite bind_bind_Next
    by (unfold fpgaGetIOAddress; cbn [device print_line log_call is_FPGA_OK];
        rewrite Hio; reflexivity).
  cbv beta iota.
  erewrite bind_bind_Next by reflexivity.
  match goal with
  | |- context [final_world (bind _ _ ?w0)] => remember w0 as w4 eqn:Hw4
  end.
  assert (Hc4 : calls w4 = calls w ++ [CallPrepareBuffer accel_handle DMA_BUFFER_SIZE 0;
                                       CallGetIOAddress accel_handle (u64 wsid)]).
  { subst w4. cbn [calls log_call print_line]. rewrite <- app_assoc. reflexivity. }
  clear Hw4.
  assert (Hu : u32 transfer_size = transfer_size).
  { unfold u32. apply Z.mod_small. unfold DMA_BUFFER_SIZE in Hfit. lia. }
  assert (Hw8 : 0 <= u32 transfer_size / 8 /\ 8 * (u32 transfer_size / 8) <= DMA_BUFFER_SIZE).
  { rewrite Hu. split; [apply Z.div_pos; lia|].
    pose proof (Z.mul_div_le transfer_size 8 ltac:(lia)). lia. }
  destruct (fill_safe_iff (R := Z) (u32 transfer_size / 8) w4 (proj1 Hw8)) as [Hin _].
  destruct (Hin (proj2 Hw8)) as (w5 & Hfill & Hc5).
  rewrite (bind_bind_Next _ _ _ w4 tt w5 Hfill).
  fold (requested_lines h transfer_size).
  destruct (dma_transfer_aligned P h USE_ASE (R := Z) fuel accel_handle host_to_ddr
              (u64 (Z.lor (u64 iova) (DMA_HOST_MASK h))) 0 (requested_lines h transfer_size)
              verbose w5 Hal eq_refl) as (w6 & Hc6 & Heq).
  rewrite (bind_bind_at _ _ _ _ w5 w6 Heq).
  match goal with
  | |- context [final_world (?m w6)] =>
    assert (Hconf : confined (test_call_allowed h accel_handle) m)
  end.
  { apply confined_bind; [|intros l; apply verdict_allowed].
    apply confined_bind.
    { apply (confined_of_tame _ (fun _ => True)); [apply reads_allowed|].
      apply await_idle_tame. }
    intros _.
    apply confined_bind; [apply get_bandwidth_allowed|]. intros h2a.
    apply confined_bind; [apply confined_memset_dma_buf|]. intros _.
    apply confined_bind; [apply dma_transfer_allowed|]. intros _.
    apply confined_bind; [apply get_bandwidth_allowed|]. intros a2h.
    apply confined_ret. }
  destruct (Hconf w6) as (t & Ht & Hq). exists t. split; [|exact Hq].
  rewrite Ht, Hc6, Hc5, Hc4. fold desc. rewrite <- !app_assoc. reflexivity.
Qed.

(** ** Register access through the mapped window *)

(** X12.  With the register window mapped, as [dma] leaves it in
    hardware mode, [get_bandwidth] cannot stop at an assertion and makes
    no call to the library: it returns after one load through the window
    (with -1) or after two, and leaves the window mapped. *)
Theorem get_bandwidth_through_the_window
        {D} (P : platform D) (h : dma_h) {R} mode (w : world D) :
  s_mmio_buf w = true ->
  exists v w',
    get_bandwidth P h (R := R) mode w = Next v w' /\
    s_mmio_buf w' = true /\
    (calls w' = calls w ++ [LoadMMIO (u32 (DMA_CSR_IDX_RD_SRC_PERF_CNTR h))]
     /\ v = Double.of_Z (-1)
     \/ calls w' = calls w ++ [LoadMMIO (u32 (DMA_CSR_IDX_RD_SRC_PERF_CNTR h));
                               LoadMMIO (u32 (DMA_CSR_IDX_WR_DEST_PERF_CNTR h))]).
Proof.
  intros Hm.
  assert (Hread : forall idx (w0 : world D),
             s_mmio_buf w0 = true ->
             exists v w1, readMMIO64 P (R := double) idx w0 = Next v w1 /\
                          s_mmio_buf w1 = true /\
                          calls w1 = calls w0 ++ [LoadMMIO (u32 idx)]).
  { intros idx w0 H0.
    unfold readMMIO64, call_, bind, get_s_mmio_buf, load_s_mmio_buf, return_. cbv zeta.
    rewrite H0.
    destruct (window_load P (u32 idx) (device w0) (dma_buf w0)) as [[v d] b].
    eexists _, _. split; [reflexivity|]. split; [exact H0 | reflexivity]. }
  destruct (Hread (DMA_CSR_IDX_RD_SRC_PERF_CNTR h) w Hm) as (rd & w1 & Hrd & Hm1 & Hc1).
  destruct (Double.ltb (sample_bandwidth h rd) (MIN_TRPT_GBPS h)) eqn:Hlow.
  - eexists _, _. split; [apply (get_bandwidth_read_low P h mode w rd w1 Hrd Hlow)|].
    split; [exact Hm1|]. left. split; [exact Hc1 | reflexivity].
  - destruct (Hread (DMA_CSR_IDX_WR_DEST_PERF_CNTR h) (read_reported h mode w1) Hm1)
      as (wr & w2 & Hwr & Hm2 & Hc2).
    destruct (Double.ltb (sample_bandwidth h wr) (MIN_TRPT_GBPS h)) eqn:Hlow2.
    + eexists _, _.
      split; [apply (get_bandwidth_write_low P h mode w rd w1 wr w2 Hrd Hlow Hwr Hlow2)|].
      split; [exact Hm2|]. right. unfold write_reported. cbn [calls print_line]. rewrite Hc2.
      unfold read_reported. cbn [calls print_line].
      rewrite Hc1, <- app_assoc. reflexivity.
    + eexists _, _.
      split; [apply (get_bandwidth_average P h mode w rd w1 wr w2 Hrd Hlow Hwr Hlow2)|].
      split; [exact Hm2|]. right. unfold write_reported. cbn [calls print_line]. rewrite Hc2.
      unfold read_reported. cbn [calls print_line].
      rewrite Hc1, <- app_assoc. reflexivity.
Qed.

(** ** A device that stays busy *)

Section NoTimeout.

Context {D : Type}.
Variable P : platform D.
Variable h : dma_h.
Variable USE_ASE : bool.

Hypothesis reads_succeed :
  forall handle n off d b,
    let '(r, _, _, _) := opae_ReadMMIO64 P handle n off d b in is_FPGA_OK r = true.

Hypothesis engine_busy :
  forall handle d b,
    let '(_, v, _, _) := opae_ReadMMIO64 P handle 0 (u64 (8 * DMA_CSR_IDX_STATUS h)) d b in
    Z.land (u64 v) 1 = 1.

Lemma completes_bind {R A B} (m : M D R A) (k : A -> M D R B) :
  completes m -> (forall a, completes (k a)) -> completes (bind m k).
Proof.
  intros Hm Hk w. destruct (Hm w) as (a & w1 & E). unfold bind. rewrite E. apply Hk.
Qed.

Lemma completes_call {R R'} (m : M D R R) : completes m -> completes (@call_ D R R' m).
Proof.
  intros Hm w. destruct (Hm w) as (a & w1 & E). unfold call_. rewrite E.
  eexists _, _. reflexivity.
Qed.

Lemma completes_printf {R} fmt : completes (@printf D R fmt).
Proof. intros w. eexists _, _. reflexivity. Qed.

Lemma readMMIO64_completes {R} idx : completes (readMMIO64 P (R := R) idx).
Proof.
  intros w.
  unfold readMMIO64, call_, bind, get_s_mmio_buf, get_s_accel_handle, load_s_mmio_buf,
    fpgaReadMMIO64, assert_, return_.
  cbv zeta. destruct (s_mmio_buf w).
  - destruct (window_load P (u32 idx) (device w) (dma_buf w)) as [[v d] b].
    eexists _, _. reflexivity.
  - pose proof (reads_succeed (s_accel_handle w) 0 (u32 (8 * u32 idx)) (device w) (dma_buf w))
      as Hok.
    destruct (opae_ReadMMIO64 P (s_accel_handle w) 0 (u32 (8 * u32 idx)) (device w) (dma_buf w))
      as [[[r v] d] b].
    rewrite Hok. eexists _, _. reflexivity.
Qed.

Lemma print_csrs_completes {R} : completes (print_csrs P h (R := R)).
Proof.
  unfold print_csrs. apply completes_call.
  repeat first [ apply completes_printf
               | apply completes_bind; [| intros ?] 
               | apply readMMIO64_completes ].
Qed.

Lemma poll_step_busy {R} accel_handle verbose (w : world D) :
  exists v w',
    (if USE_ASE
     then when_ verbose (print_csrs P h) ;;
          mmio_read64 P (R := R) accel_handle (u64 (8 * DMA_CSR_IDX_STATUS h)) "dma_csr_base"
     else mmio_read64_silent P accel_handle (u64 (8 * DMA_CSR_IDX_STATUS h))) w = Next v w' /\
    Z.land v 1 = 1.
Proof.
  assert (Hs : forall w0 : world D,
             exists v w', mmio_read64_silent P (R := R) accel_handle
                                             (u64 (8 * DMA_CSR_IDX_STATUS h)) w0 = Next v w' /\
                          Z.land v 1 = 1).
  { intros w0. unfold mmio_read64_silent, call_, bind, fpgaReadMMIO64, assert_, ret.
    pose proof (reads_succeed accel_handle 0 (u64 (8 * DMA_CSR_IDX_STATUS h)) (device w0)
                              (dma_buf w0)) as Hok.
    pose proof (engine_busy accel_handle (device w0) (dma_buf w0)) as Hb.
    destruct (opae_ReadMMIO64 P accel_handle 0 (u64 (8 * DMA_CSR_IDX_STATUS h)) (device w0)
                              (dma_buf w0)) as [[[r v] d] b].
    rewrite Hok. eexists _, _. split; [reflexivity | exact Hb]. }
  assert (Hl : forall w0 : world D,
             exists v w', mmio_read64 P (R := R) accel_handle
                                      (u64 (8 * DMA_CSR_IDX_STATUS h)) "dma_csr_base" w0
                          = Next v w' /\
                          Z.land v 1 = 1).
  { intros w0. unfold mmio_read64, call_, bind, fpgaReadMMIO64, assert_, printf, ret.
    pose proof (reads_succeed accel_handle 0 (u64 (8 * DMA_CSR_IDX_STATUS h)) (device w0)
                              (dma_buf w0)) as Hok.
    pose proof (engine_busy accel_handle (device w0) (dma_buf w0)) as Hb.
    destruct (opae_ReadMMIO64 P accel_handle 0 (u64 (8 * DMA_CSR_IDX_STATUS h)) (device w0)
                              (dma_buf w0)) as [[[r v] d] b].
    rewrite Hok. eexists _, _. split; [reflexivity | exact Hb]. }
  destruct USE_ASE; [|apply Hs].
  assert (Hp : exists w1, when_ (R := R) verbose (print_csrs P h) w = Next tt w1).
  { destruct verbose; [|eexists; reflexivity].
    destruct (print_csrs_completes (R := R) w) as ([] & w1 & E). exists w1. exact E. }
  destruct Hp as (w1 & E). unfold bind at 1. rewrite E. apply Hl.
Qed.

Lemma poll_status_busy {R} (fuel : nat) accel_handle verbose mmio_data (w : world D) :
  Z.land mmio_data 1 = 1 ->
  exists w', poll_status P h USE_ASE (R := R) fuel accel_handle verbose
                         (u64 (8 * DMA_CSR_IDX_STATUS h)) mmio_data w = StillBusy w'.
Proof.
  revert mmio_data w. induction fuel as [|fuel IH]; intros mmio_data w Hb;
    cbn [poll_status]; rewrite (proj2 (Z.eqb_eq _ _) Hb).
  - exists w. reflexivity.
  - destruct (poll_step_busy (R := R) accel_handle verbose w) as (v & w1 & E & Hv).
    unfold bind at 1. rewrite E. apply IH, Hv.
Qed.

(** X13.  [dma_transfer] has no timeout: on a device whose status register
    keeps reporting busy (register reads succeeding), the polling loop is
    still running after any number of polls. *)
Theorem dma_transfer_waits_for_ever
        {R} (fuel : nat) accel_handle mode dev_src dev_dest lines verbose (w : world D) :
  dev_src mod 64 = 0 -> dev_dest mod 64 = 0 ->
  exists w',
    dma_transfer P h USE_ASE (R := R) fuel accel_handle mode dev_src dev_dest lines verbose w
    = StillBusy w'.
Proof.
  intros Hs Hd.
  destruct (dma_transfer_aligned P h USE_ASE (R := R) fuel accel_handle mode dev_src dev_dest
              lines verbose w Hs Hd) as (w1 & _ & ->).
  unfold call_, await_idle.
  assert (Hfirst : exists v w2,
             mmio_read64_silent P (R := unit) accel_handle (u64 (8 * DMA_CSR_IDX_STATUS h)) w1
             = Next v w2 /\ Z.land v 1 = 1).
  { unfold mmio_read64_silent, call_, bind, fpgaReadMMIO64, assert_, ret.
    pose proof (reads_succeed accel_handle 0 (u64 (8 * DMA_CSR_IDX_STATUS h)) (device w1)
                              (dma_buf w1)) as Hok.
    pose proof (engine_busy accel_handle (device w1) (dma_buf w1)) as Hb.
    destruct (opae_ReadMMIO64 P accel_handle 0 (u64 (8 * DMA_CSR_IDX_STATUS h)) (device w1)
                              (dma_buf w1)) as [[[r v] d] b].
    rewrite Hok. eexists _, _. split; [reflexivity | exact Hb]. }
  destruct Hfirst as (v & w2 & E & Hv).
  unfold bind at 1. rewrite E.
  destruct (poll_status_busy (R := unit) fuel accel_handle verbose v w2 Hv) as (w3 & E3).
  unfold bind at 1. rewrite E3. exists w3. reflexivity.
Qed.

End NoTimeout.

(** ** A failed allocation *)

(** X14.  For a size that the buffer holds (so that the array of line
    313 is no larger than the buffer) and an error counter below
    [INT_MAX]: when the buffer cannot be allocated, the test counts one
    error, calls the release with the workspace id as the failed call
    left it, and returns 0; it has touched neither a register nor the
    host memory. *)
Theorem run_basic_ddr_dma_test_allocation_fails
        {D} (P : platform D) (h : dma_h) (USE_ASE : bool) {R}
        fuel accel_handle transfer_size verbose test_buffer_size_0
        (w : world D) res wsid b d1 :
  Z.rem transfer_size 64 = 0 ->
  0 < transfer_size <= DMA_BUFFER_SIZE ->
  (if s_is_ase_sim w then transfer_size <= TEST_BUFFER_SIZE_ASE
   else test_buffer_size_0 <= TEST_BUFFER_SIZE_HW) ->
  s_error_count w < INT_MAX ->
  opae_PrepareBuffer P accel_handle DMA_BUFFER_SIZE 0 (device w) = (res, wsid, b, d1) ->
  is_FPGA_OK res = false ->
  exists w',
    run_basic_ddr_dma_test P h USE_ASE (R := R) fuel accel_handle transfer_size verbose
                           test_buffer_size_0 w
    = Next 0 w' /\
    s_error_count w' = s_error_count w + 1 /\
    dma_buf w' = dma_buf w /\
    calls w' = calls w ++ [CallPrepareBuffer accel_handle DMA_BUFFER_SIZE 0;
                           CallReleaseBuffer accel_handle (u64 wsid)].
Proof.
  intros Hrem _ Hcap Herr Hprep Hres.
  enter_test Hrem Hcap. rewrite Hprep. rewrite Hres.
  unfold bind at 1, ON_ERR_GOTO at 1. rewrite Hres. cbn [negb].
  unfold bind at 1, print_err at 1, fprintf_stderr at 1, printf at 1.
  unfold bind at 1, incr_s_error_count at 1.
  cbn [s_error_count print_line log_call]. rewrite (proj2 (Z.ltb_lt _ _) Herr).
  match goal with
  | |- context [release_buf P accel_handle ?i ?n ?w0] =>
    destruct (release_buf_Return P (A := unit) accel_handle i n w0) as (w' & -> & Hc & Hb & He)
  end.
  exists w'. split; [reflexivity|]. split; [|split].
  - rewrite He. reflexivity.
  - rewrite Hb. reflexivity.
  - rewrite Hc. cbn [calls print_line log_call]. rewrite <- !app_assoc. reflexivity.
Qed.

(** ** Register indices *)

Lemma wrapped_offset (idx k : Z) : u32 (8 * u32 (idx + 2 ^ 29 * k)) = u32 (8 * u32 idx).
Proof.
  unfold u32. rewrite !Z.mul_mod_idemp_r by lia.
  replace (8 * (idx + 2 ^ 29 * k)) with (8 * idx + k * 2 ^ 32) by lia.
  apply Z.mod_add. lia.
Qed.

(** X15.  Without the mapped window, [readMMIO64] and [writeMMIO64]
    compute the byte offset [8 * idx] in 32 bits: bits 29 and up of a
    register index are lost, so index [idx + 2 ^ 29 * k] reaches the
    register of index [idx]. *)
Theorem register_index_wraps_through_the_library
        {D} (P : platform D) {R} (idx k v : Z) (w : world D) :
  s_mmio_buf w = false ->
  readMMIO64 P (R := R) (idx + 2 ^ 29 * k) w = readMMIO64 P idx w /\
  writeMMIO64 P (R := R) (idx + 2 ^ 29 * k) v w = writeMMIO64 P idx v w.
Proof.
  intros Hm. unfold readMMIO64, writeMMIO64, call_, bind, get_s_mmio_buf. cbv zeta.
  rewrite Hm, wrapped_offset. split; reflexivity.
Qed.

(** ** The second transfer after a sentinel *)

Section Jammed.

Context {D : Type}.
Variable P : platform D.
Variable h : dma_h.
Variable USE_ASE : bool.
Variable jam : D -> Prop.

Hypothesis reads_keep :
  forall handle n off d b,
    jam d -> let '(r, _, d', _) := opae_ReadMMIO64 P handle n off d b in
             is_FPGA_OK r = true /\ jam d'.

Hypothesis loads_keep :
  forall idx d b, jam d -> let '(_, d', _) := window_load P idx d b in jam d'.

Hypothesis writes_keep :
  forall handle n off v d b,
    jam d -> let '(_, d', _) := opae_WriteMMIO64 P handle n off v d b in jam d'.

Hypothesis status_busy :
  forall handle d b,
    jam d ->
    let '(_, v, _, _) := opae_ReadMMIO64 P handle 0 (u64 (8 * DMA_CSR_IDX_STATUS h)) d b in
    Z.land (u64 v) 1 = 1.

Lemma hangs_first {R A B} (m : M D R A) (k : A -> M D R B) :
  hangs jam m -> hangs jam (bind m k).
Proof.
  intros Hm w Hw. destruct (Hm w Hw) as (w' & E & C). exists w'.
  unfold bind. rewrite E. split; [reflexivity | exact C].
Qed.

Lemma hangs_after {R A B} (m : M D R A) (k : A -> M D R B) :
  keeps jam m -> (forall a, hangs jam (k a)) -> hangs jam (bind m k).
Proof.
  intros Hm Hk w Hw. destruct (Hm w Hw) as (a & w1 & E & H1 & C1).
  destruct (Hk a w1 H1) as (w2 & E2 & C2). exists w2.
  unfold bind. rewrite E. split; [exact E2|]. intros s Hs. apply C2, C1, Hs.
Qed.

Lemma hangs_call {R R'} (m : M D R R) : hangs jam m -> hangs jam (@call_ D R R' m).
Proof.
  intros Hm w Hw. destruct (Hm w Hw) as (w' & E & C). exists w'.
  unfold call_. rewrite E. split; [reflexivity | exact C].
Qed.

Lemma write_keeps {R} handle n off v : keeps jam (@fpgaWriteMMIO64 D P R handle n off v).
Proof.
  intros w Hw. unfold fpgaWriteMMIO64.
  pose proof (writes_keep handle n off v (device w) (dma_buf w) Hw) as Hk.
  destruct (opae_WriteMMIO64 P handle n off v (device w) (dma_buf w)) as [[r d] b].
  eexists _, _. split; [reflexivity|]. split; [exact Hk | apply incl_refl].
Qed.

Lemma send_descriptor_keeps {R} accel_handle mmio_dst desc :
  mmio_dst mod 8 = 0 -> keeps jam (send_descriptor P (R := R) accel_handle mmio_dst desc).
Proof.
  intros Hal. unfold send_descriptor. apply keeps_call.
  apply keeps_bind; [apply keeps_assert, Z.eqb_eq, Hal|]. intros _. cbv zeta.
  repeat first [ apply keeps_printf
               | apply keeps_bind; [| intros ?]
               | apply write_keeps ].
Qed.

Lemma status_read_busy {R} (verbose_read : bool) accel_handle (w : world D) :
  jam (device w) ->
  exists v w',
    (if verbose_read
     then mmio_read64 P (R := R) accel_handle (u64 (8 * DMA_CSR_IDX_STATUS h)) "dma_csr_base"
     else mmio_read64_silent P accel_handle (u64 (8 * DMA_CSR_IDX_STATUS h))) w = Next v w' /\
    jam (device w') /\ incl (console w) (console w') /\ Z.land v 1 = 1.
Proof.
  intros Hw.
  destruct (status_read_keeps P jam reads_keep (R := R) verbose_read accel_handle
              (u64 (8 * DMA_CSR_IDX_STATUS h)) w Hw) as (v & w' & E & C & Hread).
  pose proof (reads_keep accel_handle 0 (u64 (8 * DMA_CSR_IDX_STATUS h)) (device w)
                         (dma_buf w) Hw) as H1.
  pose proof (status_busy accel_handle (device w) (dma_buf w) Hw) as H2.
  rewrite Hread in H1, H2.
  exists (u64 v), w'. split; [exact E|]. split; [apply H1|]. split; [exact C | exact H2].
Qed.

Lemma poll_status_hangs {R} (fuel : nat) accel_handle verbose mmio_data :
  Z.land mmio_data 1 = 1 ->
  hangs jam (poll_status P h USE_ASE (R := R) fuel accel_handle verbose
                         (u64 (8 * DMA_CSR_IDX_STATUS h)) mmio_data).
Proof.
  revert mmio_data. induction fuel as [|fuel IH]; intros mmio_data Hb w Hw;
    cbn [poll_status]; rewrite (proj2 (Z.eqb_eq _ _) Hb).
  - exists w. split; [reflexivity | apply incl_refl].
  - assert (Hstep : exists v w1,
               (if USE_ASE
                then when_ verbose (print_csrs P h) ;;
                     mmio_read64 P (R := R) accel_handle (u64 (8 * DMA_CSR_IDX_STATUS h))
                                 "dma_csr_base"
                else mmio_read64_silent P accel_handle (u64 (8 * DMA_CSR_IDX_STATUS h))) w
               = Next v w1 /\
               jam (device w1) /\ incl (console w) (console w1) /\ Z.land v 1 = 1).
    { destruct USE_ASE.
      - destruct (keeps_when jam verbose (print_csrs P h (R := R))
                    (print_csrs_keeps P h jam reads_keep loads_keep) w Hw)
          as ([] & w1 & E1 & H1 & C1).
        destruct (status_read_busy (R := R) true accel_handle w1 H1)
          as (v & w2 & E2 & H2 & C2 & Hv).
        exists v, w2. unfold bind at 1. rewrite E1. split; [exact E2|].
        split; [exact H2|]. split; [|exact Hv]. intros s Hs. apply C2, C1, Hs.
      - apply (status_read_busy (R := R) false accel_handle w Hw). }
    destruct Hstep as (v & w1 & E1 & H1 & C1 & Hv).
    destruct (IH v Hv w1 H1) as (w2 & E2 & C2).
    exists w2. unfold bind at 1. rewrite E1. split; [exact E2|].
    intros s Hs. apply C2, C1, Hs.
Qed.

(** On a jammed device a transfer with aligned addresses is still polling
    when its budget is spent, whatever the budget. *)
Lemma dma_transfer_hangs {R} (fuel : nat) accel_handle mode dev_src dev_dest lines verbose :
  dev_src mod 64 = 0 -> dev_dest mod 64 = 0 ->
  hangs jam (dma_transfer P h USE_ASE (R := R) fuel accel_handle mode dev_src dev_dest lines
                          verbose).
Proof.
  intros Hs Hd. unfold dma_transfer. apply hangs_call.
  apply hangs_after; [apply keeps_assert, Z.eqb_eq, Hs|]. intros _.
  apply hangs_after; [apply keeps_assert, Z.eqb_eq, Hd|]. intros _. cbv zeta.
  apply hangs_after.
  { apply keeps_when.
    repeat first [ apply keeps_printf | apply keeps_bind; [| intros ?] ]. }
  intros _. apply hangs_after.
  { unfold for_. change (Z.to_nat 2) with 2%nat. cbn [for_from].
    apply keeps_bind; [apply send_descriptor_keeps, u64_8_mod_8|]. intros _.
    apply keeps_bind; [apply send_descriptor_keeps, u64_8_mod_8|]. intros _.
    apply keeps_ret. }
  intros _ w Hw.
  destruct (status_read_busy (R := unit) false accel_handle w Hw) as (v & w1 & E1 & H1 & C1 & Hv).
  destruct (poll_status_hangs (R := unit) fuel accel_handle verbose v Hv w1 H1) as (w2 & E2 & C2).
  exists w2. unfold bind at 1. rewrite E1. unfold bind at 1. rewrite E2.
  split; [reflexivity|]. intros s Hin. apply C2, C1, Hin.
Qed.

End Jammed.

(** One step of a run whose outcome is known by evaluation. *)
Lemma bind_bind_run {D R A B C} (m : M D R A) (k : A -> M D R B) (k2 : B -> M D R C)
      (w : world D) (d : A) :
  is_Next (m w) = true ->
  bind (bind m k) k2 w = bind (k (next_or d (m w))) k2 (final_world (m w)).
Proof. unfold bind. destruct (m w); try discriminate. reflexivity. Qed.

(** The jamming device stays jammed, and reports busy while it is. *)
Lemma jamming_reads handle n off (d : nat) b :
  (1 <= d)%nat ->
  let '(r, _, d', _) := opae_ReadMMIO64 jamming_platform handle n off d b in
  is_FPGA_OK r = true /\ (1 <= d')%nat.
Proof.
  intros Hd. cbn [opae_ReadMMIO64 jamming_platform].
  destruct (off =? 8 * DMA_CSR_IDX_STATUS Sim.header); split; try reflexivity; lia.
Qed.

Lemma jamming_status handle (d : nat) b :
  (1 <= d)%nat ->
  let '(_, v, _, _) :=
    opae_ReadMMIO64 jamming_platform handle 0 (u64 (8 * DMA_CSR_IDX_STATUS Sim.header)) d b in
  Z.land (u64 v) 1 = 1.
Proof.
  intros Hd. cbn [opae_ReadMMIO64 jamming_platform].
  change (u64 (8 * DMA_CSR_IDX_STATUS Sim.header) =? 8 * DMA_CSR_IDX_STATUS Sim.header)
    with true.
  cbv iota. destruct d as [|d]; [lia | reflexivity].
Qed.

(** C4, at the failing input.  The read counter of this device reports
    100 valid cycles out of 1000, a bandwidth below the minimum, so the
    first [get_bandwidth] of the test prints its message and returns -1.
    The test does not stop there: it goes on to the second transfer
    (lines 343-346), the engine stays busy, and the test is still
    polling after any number of polls.  It returns no result, negative
    or other. *)
Lemma sentinel_before_a_busy_engine :
  Double.ltb (sample_bandwidth Sim.header (Sim.sample 100 1000)) (MIN_TRPT_GBPS Sim.header)
  = true /\
  forall fuel,
    exists w',
      run_basic_ddr_dma_test jamming_platform Sim.header false (R := Z) fuel 1 64 false 0
                             (fresh 0)
      = StillBusy w' /\
      In bandwidth_error_message (console w').
Proof.
  split; [vm_compute; reflexivity|].
  intros fuel. unfold run_basic_ddr_dma_test, call_.
  unfold run_basic_ddr_dma_test_transfers. cbv zeta.
  destruct fuel as [|fuel].
  all: do 6 (erewrite bind_bind_Next by (vm_compute; reflexivity)).
  all: erewrite bind_bind_Next by (vm_compute; reflexivity); cbv beta iota.
  all: do 2 (erewrite bind_bind_Next by reflexivity).
  all: erewrite bind_bind_Next by reflexivity; cbv beta iota.
  all: erewrite bind_bind_Next by reflexivity.
  all: do 2 (rewrite (bind_bind_run _ _ _ _ tt) by (vm_compute; reflexivity)).
  all: rewrite (bind_bind_run _ _ _ _ S754_nan) by (vm_compute; reflexivity).
  all: erewrite bind_bind_Next by reflexivity.
  all: match goal with
       | |- context [bind (bind (dma_transfer _ _ _ ?f _ _ _ _ _ _) _) _ ?W] =>
         set (W0 := W);
           assert (Hjam : (1 <= device W0)%nat) by (vm_compute; apply le_n);
           assert (Hmsg : In bandwidth_error_message (console W0))
             by (vm_compute; repeat (first [left; reflexivity | right]));
           assert (Ha : u64 (Z.lor (u64 65536) (DMA_HOST_MASK Sim.header)) mod 64 = 0)
             by (vm_compute; reflexivity);
           destruct (dma_transfer_hangs
                       jamming_platform Sim.header false (fun d => (1 <= d)%nat)
                       jamming_reads
                       (fun _ d _ (H : (1 <= d)%nat) => le_S _ _ H)
                       (fun _ _ _ _ d _ (H : (1 <= d)%nat) => H)
                       jamming_status
                       (R := Z) f 1 ddr_to_host 0
                       (u64 (Z.lor (u64 65536) (DMA_HOST_MASK Sim.header)))
                       (s32 (u32 (u32 (u32 64 - 1) / DMA_LINE_SIZE Sim.header + 1))) false
                       eq_refl Ha W0 Hjam) as (w' & E & C)
       end.
  all: exists w'; (split; [|apply C, Hmsg]).
  all: unfold bind at 1; unfold bind at 1; rewrite E; reflexivity.
Qed.

(** ** The further properties at concrete inputs *)

(** X1 at the offsets 41 and 40 on the simulated device. *)
Lemma send_descriptor_writes_witness :
  send_descriptor Sim.platform (R := Z) 1 41
                  (built_descriptor Sim.header host_to_ddr 0x10000 0 2) (Runs.ase Sim.healthy)
  = AssertFail "mmio_dst % 8 == 0" (Runs.ase Sim.healthy) /\
  exists w',
    send_descriptor Sim.platform (R := Z) 1 40
                    (built_descriptor Sim.header host_to_ddr 0x10000 0 2) (Runs.ase Sim.healthy)
    = Next tt w' /\
    calls w' = calls (Runs.ase Sim.healthy)
               ++ descriptor_writes 1 40 (built_descriptor Sim.header host_to_ddr 0x10000 0 2).
Proof.
  split.
  - apply (proj1 (send_descriptor_writes
                    Sim.platform (R := Z) 1 41
                    (built_descriptor Sim.header host_to_ddr 0x10000 0 2)
                    (Runs.ase Sim.healthy))).
    vm_compute. discriminate.
  - apply (proj2 (send_descriptor_writes
                    Sim.platform (R := Z) 1 40
                    (built_descriptor Sim.header host_to_ddr 0x10000 0 2)
                    (Runs.ase Sim.healthy))).
    reflexivity.
Defined.

(** X3 for a two-line transfer from 0x10000 on the simulated device. *)
Lemma dma_transfer_descriptor_well_formed_witness :
  exists desc polling,
    calls (final_world
             (dma_transfer (R := Z) Sim.platform Sim.header false 0 1 host_to_ddr 0x10000 0 2
                           false (Runs.ase Sim.healthy)))
    = calls (Runs.ase Sim.healthy)
      ++ descriptor_writes 1 (u64 (8 * DMA_CSR_IDX_SRC_ADDR Sim.header)) desc
      ++ descriptor_writes 1 (u64 (8 * DMA_CSR_IDX_SRC_ADDR Sim.header)) desc
      ++ polling /\
    only_reads polling /\
    (0 <= src_address desc < 2 ^ 32 /\ src_address desc mod 64 = 0) /\
    (0 <= dest_address desc < 2 ^ 32 /\ dest_address desc mod 64 = 0) /\
    0 <= len desc < 2 ^ 32 /\
    (0 <= control desc < 2 ^ 32 /\ Z.testbit (control desc) 31 = true).
Proof.
  apply (dma_transfer_descriptor_well_formed
           Sim.platform Sim.header false (R := Z) 0 1 host_to_ddr 0x10000 0 2 false
           (Runs.ase Sim.healthy)); reflexivity.
Defined.

(** X4 on the healthy device, whose counters both report 900 valid
    cycles out of 1000. *)
Lemma get_bandwidth_average_is_not_sentinel_witness :
  let w := Runs.hw Sim.healthy in
  let o1 := readMMIO64 Sim.platform (R := double) 17 w in
  let o2 := readMMIO64 Sim.platform (R := double) 18
                       (read_reported Sim.header host_to_ddr (final_world o1)) in
  get_bandwidth Sim.platform Sim.header (R := Z) host_to_ddr w
  = Next (average_bw Sim.header (next_or 0 o1) (next_or 0 o2))
         (write_reported Sim.header host_to_ddr (final_world o2)) /\
  Double.eqb (average_bw Sim.header (next_or 0 o1) (next_or 0 o2)) (Double.of_Z (-1)) = false.
Proof.
  intros w o1 o2.
  eapply (get_bandwidth_average_is_not_sentinel
            Sim.platform Sim.header (R := Z) host_to_ddr w
            (next_or 0 o1) (final_world o1) (next_or 0 o2) (final_world o2)).
  - vm_compute. reflexivity.
  - apply (Next_intro o1 0). vm_compute. reflexivity.
  - vm_compute. reflexivity.
  - apply (Next_intro o2 0). vm_compute. reflexivity.
  - vm_compute. reflexivity.
Defined.

(** X5 for a fill of two words. *)
Lemma fill_writes_expected_pattern_witness :
  let w := Runs.ase Sim.healthy in
  let w' := final_world (for_ (R := Z) 2 (fun i => store_dma_buf i (u64 i)) w) in
  (forall a, 0 <= a < 8 * 2 ->
             dma_buf w' a = byte_of_word (a / 8) (a mod 8) /\
             dma_buf w' a = ascending_words (fun _ => 0) 2 a) /\
  (forall a, a < 0 \/ 8 * 2 <= a -> dma_buf w' a = dma_buf w a) /\
  count_mismatches (dma_buf w') (ascending_words (fun _ => 0) 2) (8 * 2) = 0.
Proof.
  intros w w'.
  apply (fill_writes_expected_pattern (R := Z) 2 w w').
  - lia.
  - apply (Next_intro (for_ (R := Z) 2 (fun i => store_dma_buf i (u64 i)) w) tt).
    vm_compute. reflexivity.
Defined.

(** X7 for a 128-byte test on the healthy device. *)
Lemma run_basic_ddr_dma_test_releases_its_buffer_witness :
  let w := Runs.ase Sim.healthy in
  let o := run_basic_ddr_dma_test_transfers Sim.platform Sim.header false 0 1 128 false 0 w in
  exists r w' regs,
    run_basic_ddr_dma_test Sim.platform Sim.header false (R := Z) 0 1 128 false 0 w
    = Next r w' /\
    calls w' = calls w
               ++ [CallPrepareBuffer 1 DMA_BUFFER_SIZE 0;
                   CallGetIOAddress 1 (dma_buf_wsid (next_or Witness.no_locals o))]
               ++ regs
               ++ [CallReleaseBuffer 1 (dma_buf_wsid (next_or Witness.no_locals o))] /\
    forallb is_register_access regs = true.
Proof.
  intros w o.
  apply (run_basic_ddr_dma_test_releases_its_buffer
           Sim.platform Sim.header false 1 (R := Z) 0 128 false 0 w
           (next_or Witness.no_locals o) (final_world o)).
  - apply (Next_intro o Witness.no_locals). vm_compute. reflexivity.
  - vm_compute. reflexivity.
  - vm_compute. reflexivity.
Defined.

(** X8 on a device that allocates the buffer and refuses its address. *)
Lemma run_basic_ddr_dma_test_address_lookup_fails_witness :
  exists w',
    run_basic_ddr_dma_test Sim.platform Sim.header false (R := Z) 0 1 64 false 0
                           (Runs.ase Runs.no_address)
    = Next 0 w' /\
    s_error_count w' = s_error_count (Runs.ase Runs.no_address) + 1 /\
    calls w' = calls (Runs.ase Runs.no_address)
               ++ [CallPrepareBuffer 1 DMA_BUFFER_SIZE 0;
                   CallGetIOAddress 1 (u64 7);
                   CallReleaseBuffer 1 (u64 7)].
Proof.
  eapply (run_basic_ddr_dma_test_address_lookup_fails
            Sim.platform Sim.header false (R := Z) 0 1 64 false 0 (Runs.ase Runs.no_address) 7).
  - reflexivity.
  - vm_compute. split; [reflexivity | discriminate].
  - vm_compute. discriminate.
  - reflexivity.
  - reflexivity.
  - reflexivity.
  - reflexivity.
Defined.

(** X9 in hardware mode on the healthy device, whose window maps, and
    on the device whose mapping succeeds with a null pointer. *)
Lemma dma_sets_up_the_session_witness :
  dma Sim.platform Sim.header false (R := Z) 0 1 false 64 false 0 (Runs.hw Sim.healthy)
  = (if is_FPGA_OK FPGA_OK
     then run_basic_ddr_dma_test
            Sim.platform Sim.header false 0 1 (s32 64) false 0
            (session 1 false true
                     (log_call (CallMapMMIO 1 0) Sim.healthy (dma_buf (Runs.hw Sim.healthy))
                               (Runs.hw Sim.healthy)))
     else AssertFail "FPGA_OK == r"
                     (log_call (CallMapMMIO 1 0) Sim.healthy (dma_buf (Runs.hw Sim.healthy))
                               (session 1 false (s_mmio_buf (Runs.hw Sim.healthy))
                                        (Runs.hw Sim.healthy)))) /\
  dma windowless_platform Sim.header false (R := Z) 0 1 false 64 false 0 (Runs.hw Sim.healthy)
  = (if is_FPGA_OK FPGA_OK
     then run_basic_ddr_dma_test
            windowless_platform Sim.header false 0 1 (s32 64) false 0
            (session 1 false false
                     (log_call (CallMapMMIO 1 0) Sim.healthy (dma_buf (Runs.hw Sim.healthy))
                               (Runs.hw Sim.healthy)))
     else AssertFail "FPGA_OK == r"
                     (log_call (CallMapMMIO 1 0) Sim.healthy (dma_buf (Runs.hw Sim.healthy))
                               (session 1 false (s_mmio_buf (Runs.hw Sim.healthy))
                                        (Runs.hw Sim.healthy)))).
Proof.
  split.
  - apply (proj2 (dma_sets_up_the_session
                    Sim.platform Sim.header false (R := Z) 0 1 64 false 0 (Runs.hw Sim.healthy))
                 FPGA_OK true Sim.healthy).
    reflexivity.
  - apply (proj2 (dma_sets_up_the_session
                    windowless_platform Sim.header false (R := Z) 0 1 64 false 0
                    (Runs.hw Sim.healthy))
                 FPGA_OK false Sim.healthy).
    reflexivity.
Defined.

(** X10 on the device whose engine takes three polls for each job. *)
Lemma dma_transfer_returns_once_idle_witness :
  exists (n : nat) (w' : world nat),
    forall fuel, (n <= fuel)%nat ->
                 dma_transfer patient_platform Sim.header false (R := Z) fuel 1 host_to_ddr
                              0x10000 0 2 false (fresh 0)
                 = Next tt w'.
Proof.
  apply (dma_transfer_returns_once_idle patient_platform Sim.header false (fun d => d)).
  - intros handle n off d b. cbn. split; [reflexivity | lia].
  - intros handle d b. destruct d as [|d].
    + intros H. vm_compute in H. discriminate H.
    + intros _. cbn. lia.
  - intros idx d b. cbn. lia.
  - reflexivity.
  - reflexivity.
Defined.

(** On that device the loop of lines 268-277 does run: the transfer is
    still polling after two polls, and returns after three, having read
    the status register four times. *)
Example patient_transfer_is_polled :
  is_Next (dma_transfer patient_platform Sim.header false (R := Z) 2 1 host_to_ddr
                        0x10000 0 2 false (fresh 0)) = false /\
  is_Next (dma_transfer patient_platform Sim.header false (R := Z) 3 1 host_to_ddr
                        0x10000 0 2 false (fresh 0)) = true /\
  calls (final_world (dma_transfer patient_platform Sim.header false (R := Z) 3 1 host_to_ddr
                                   0x10000 0 2 false (fresh 0)))
  = submitted Sim.header 1 (built_descriptor Sim.header host_to_ddr 0x10000 0 2)
    ++ submitted Sim.header 1 (built_descriptor Sim.header host_to_ddr 0x10000 0 2)
    ++ [CallReadMMIO64 1 0 72; CallReadMMIO64 1 0 72; CallReadMMIO64 1 0 72;
        CallReadMMIO64 1 0 72].
Proof. repeat split; vm_compute; reflexivity. Qed.

(** X11 for a 128-byte test on the healthy device. *)
Lemma run_basic_ddr_dma_test_requests_whole_lines_witness :
  let desc := built_descriptor Sim.header host_to_ddr
                               (u64 (Z.lor (u64 0x10000) (DMA_HOST_MASK Sim.header))) 0
                               (requested_lines Sim.header 128) in
  (exists rest,
      calls (final_world
               (run_basic_ddr_dma_test Sim.platform Sim.header false (R := Z) 0 1 128
                                       false 0 (Runs.ase Sim.healthy)))
      = calls (Runs.ase Sim.healthy)
        ++ [CallPrepareBuffer 1 DMA_BUFFER_SIZE 0;
            CallGetIOAddress 1 (u64 7)]
        ++ submitted Sim.header 1 desc ++ submitted Sim.header 1 desc ++ rest /\
      forallb (test_call_allowed Sim.header 1) rest = true) /\
  (DMA_LINE_SIZE Sim.header = 64 -> 0 < 128 -> 64 * len desc = 128) /\
  (DMA_LINE_SIZE Sim.header = 64 -> 128 = 0 -> len desc = 2 ^ 26).
Proof.
  eapply (run_basic_ddr_dma_test_requests_whole_lines
            Sim.platform Sim.header false (R := Z) 0 1 128 false 0 (Runs.ase Sim.healthy)
            7 _ _ 0x10000).
  - reflexivity.
  - vm_compute. discriminate.
  - vm_compute. split; discriminate.
  - reflexivity.
  - reflexivity.
  - reflexivity.
Defined.

(** X12 on the healthy device in hardware mode. *)
Lemma get_bandwidth_through_the_window_witness :
  exists v w',
    get_bandwidth Sim.platform Sim.header (R := Z) host_to_ddr (Runs.hw Sim.healthy)
    = Next v w' /\
    s_mmio_buf w' = true /\
    (calls w' = calls (Runs.hw Sim.healthy)
                ++ [LoadMMIO (u32 (DMA_CSR_IDX_RD_SRC_PERF_CNTR Sim.header))]
     /\ v = Double.of_Z (-1)
     \/ calls w' = calls (Runs.hw Sim.healthy)
                   ++ [LoadMMIO (u32 (DMA_CSR_IDX_RD_SRC_PERF_CNTR Sim.header));
                       LoadMMIO (u32 (DMA_CSR_IDX_WR_DEST_PERF_CNTR Sim.header))]).
Proof.
  apply (get_bandwidth_through_the_window
           Sim.platform Sim.header (R := Z) host_to_ddr (Runs.hw Sim.healthy)).
  reflexivity.
Defined.

(** X13 on the device whose registers all read 1, with a budget of
    seven polls. *)
Lemma dma_transfer_waits_for_ever_witness :
  exists w',
    dma_transfer stuck_platform Sim.header false (R := Z) 7 1 host_to_ddr 0x10000 0 2 false
                 (Runs.ase Sim.healthy)
    = StillBusy w'.
Proof.
  apply (dma_transfer_waits_for_ever stuck_platform Sim.header false).
  - intros handle n off d b. reflexivity.
  - intros handle d b. reflexivity.
  - reflexivity.
  - reflexivity.
Defined.

(** X14 on a device that has no memory for the buffer. *)
Lemma run_basic_ddr_dma_test_allocation_fails_witness :
  exists w',
    run_basic_ddr_dma_test Sim.platform Sim.header false (R := Z) 0 1 64 false 0
                           (Runs.ase Runs.no_memory)
    = Next 0 w' /\
    s_error_count w' = s_error_count (Runs.ase Runs.no_memory) + 1 /\
    dma_buf w' = dma_buf (Runs.ase Runs.no_memory) /\
    calls w' = calls (Runs.ase Runs.no_memory)
               ++ [CallPrepareBuffer 1 DMA_BUFFER_SIZE 0; CallReleaseBuffer 1 (u64 7)].
Proof.
  eapply (run_basic_ddr_dma_test_allocation_fails
            Sim.platform Sim.header false (R := Z) 0 1 64 false 0 (Runs.ase Runs.no_memory)
            FPGA_NO_MEMORY 7).
  - reflexivity.
  - vm_compute. split; [reflexivity | discriminate].
  - vm_compute. discriminate.
  - reflexivity.
  - reflexivity.
  - reflexivity.
Defined.

(** X15 for the register indices 17 and 17 + 2 ^ 29 in simulation mode. *)
Lemma register_index_wraps_through_the_library_witness :
  readMMIO64 Sim.platform (R := Z) (17 + 2 ^ 29 * 1) (Runs.ase Sim.healthy)
  = readMMIO64 Sim.platform 17 (Runs.ase Sim.healthy) /\
  writeMMIO64 Sim.platform (R := Z) (17 + 2 ^ 29 * 1) 0 (Runs.ase Sim.healthy)
  = writeMMIO64 Sim.platform 17 0 (Runs.ase Sim.healthy).
Proof.
  apply (register_index_wraps_through_the_library
           Sim.platform (R := Z) 17 1 0 (Runs.ase Sim.healthy)).
  reflexivity.
Defined.
